(** * Db2 dialect of Sequelize: query execution, result normalization and
      SQL building

    A shallow embedding of [lib/dialects/db2/query.js] (class [Query]) and of
    the Db2 query generator (class [Db2QueryGenerator]), and the properties of
    both that the specification of the dialect states.

    JavaScript values are embedded as the inductive type [value]; numbers are
    the integer-valued ones (a [Z]), strings are byte strings.  Objects keep
    their own enumerable properties in enumeration order, since [for..in],
    [Object.keys] and [_.forOwn] of the source depend on it; properties
    inherited from [Object.prototype] are not part of the embedding.
    Exceptions are results ([Throw]), and the calls on the driver connection
    are the nodes of a tree ([prog]) that a driver answers. *)

From Stdlib Require Import String Ascii List ZArith Bool Lia.
Import ListNotations.
Local Open Scope list_scope.
Local Open Scope string_scope.

(* ================================================================== *)
(** ** JavaScript values *)

Module Js.

#[warnings="-register-all"]
Inductive value : Type :=
| VUndefined
| VNull
| VBool (b : bool)
| VNum (n : Z)
| VStr (s : string)
| VArr (items : list value)
| VObj (props : list (string * value)).

(** An exception raised by the source or by the language itself. *)
Inductive exn : Type :=
| TypeError
| Error (message : string).

Inductive result (A : Type) : Type :=
| Ok (a : A)
| Throw (e : exn).
Arguments Ok {A} a.
Arguments Throw {A} e.

Definition bind {A B} (r : result A) (f : A -> result B) : result B :=
  match r with
  | Ok a => f a
  | Throw e => Throw e
  end.

(** ToBoolean. *)
Definition truthy (v : value) : bool :=
  match v with
  | VUndefined | VNull => false
  | VBool b => b
  | VNum n => negb (n =? 0)%Z
  | VStr s => negb (s =? "")
  | VArr _ | VObj _ => true
  end.

(** [a || b] and [a && b] on already evaluated operands; where the right
    operand of the source can throw, the embedding branches on [truthy]
    instead. *)
Definition or (a b : value) : value := if truthy a then a else b.
Definition and (a b : value) : value := if truthy a then b else a.

Definition is_undefined (v : value) : bool :=
  match v with VUndefined => true | _ => false end.

Definition is_null (v : value) : bool :=
  match v with VNull => true | _ => false end.

(** Decimal digits, for array indices used as property keys and for numbers
    appended to strings. *)
Definition digit_of_ascii (c : ascii) : option nat :=
  let n := nat_of_ascii c in
  if andb (48 <=? n)%nat (n <=? 57)%nat then Some (n - 48)%nat else None.

Fixpoint index_of_digits (acc : nat) (s : string) : option nat :=
  match s with
  | EmptyString => Some acc
  | String c s' =>
      match digit_of_ascii c with
      | Some d => index_of_digits (10 * acc + d)%nat s'
      | None => None
      end
  end.

(** A canonical array index: a non-empty digit string without a leading
    zero, or ["0"], below 2^32 - 1. *)
Definition array_index (k : string) : option nat :=
  match k with
  | EmptyString => None
  | String c rest =>
      if andb (Ascii.eqb c "0") (negb (rest =? "")) then None
      else match index_of_digits 0 k with
           | Some i => if (N.of_nat i <? 4294967295)%N then Some i else None
           | None => None
           end
  end.

Definition digit_to_string (d : nat) : string :=
  String (ascii_of_nat (48 + d)%nat) EmptyString.

Fixpoint pos_digits (fuel : nat) (n : N) (acc : string) : string :=
  match fuel with
  | O => acc
  | S fuel' =>
      let acc' := digit_to_string (N.to_nat (n mod 10)) ++ acc in
      if (n / 10 =? 0)%N then acc' else pos_digits fuel' (n / 10)%N acc'
  end.

Definition N_to_string (n : N) : string :=
  pos_digits (S (N.to_nat (N.log2 n))) n EmptyString.

(** Number to string, for integer-valued numbers. *)
Definition Z_to_string (z : Z) : string :=
  match z with
  | Z0 => "0"
  | Zpos p => N_to_string (Npos p)
  | Zneg p => "-" ++ N_to_string (Npos p)
  end.

Fixpoint lookup (k : string) (props : list (string * value)) : option value :=
  match props with
  | [] => None
  | (k', v) :: rest => if k =? k' then Some v else lookup k rest
  end.

(** [o[k]] for a receiver that is neither [null] nor [undefined]: a missing
    property reads as [undefined], also on primitives. *)
Definition get (o : value) (k : string) : value :=
  match o with
  | VObj props =>
      match lookup k props with Some v => v | None => VUndefined end
  | VArr items =>
      if k =? "length" then VNum (Z.of_nat (List.length items))
      else match array_index k with
           | Some i => nth i items VUndefined
           | None => VUndefined
           end
  | VStr s =>
      if k =? "length" then VNum (Z.of_nat (String.length s))
      else match array_index k with
           | Some i =>
               match String.get i s with
               | Some c => VStr (String c EmptyString)
               | None => VUndefined
               end
           | None => VUndefined
           end
  | _ => VUndefined
  end.

(** [o[k]] as the language evaluates it: a TypeError on [null] and
    [undefined]. *)
Definition getp (o : value) (k : string) : result value :=
  match o with
  | VUndefined | VNull => Throw TypeError
  | _ => Ok (get o k)
  end.

(** ToPropertyKey (ToString) of a value used as a computed key; an array
    joins its elements with a comma, [null] and [undefined] elements giving the
    empty string. *)
Fixpoint to_key (v : value) : string :=
  match v with
  | VUndefined => "undefined"
  | VNull => "null"
  | VBool true => "true"
  | VBool false => "false"
  | VNum n => Z_to_string n
  | VStr s => s
  | VArr items =>
      (fix join (l : list value) : string :=
         match l with
         | [] => EmptyString
         | x :: rest =>
             let e := match x with
                      | VUndefined | VNull => EmptyString
                      | _ => to_key x
                      end in
             match rest with
             | [] => e
             | _ => e ++ "," ++ join rest
             end
         end) items
  | VObj _ => "[object Object]"
  end.

(** A new property of an object: keys that are array indices are enumerated
    first, in ascending order, the other keys in order of creation. *)
Fixpoint add_prop (k : string) (v : value) (props : list (string * value))
  : list (string * value) :=
  match props with
  | [] => [(k, v)]
  | (k', v') :: rest =>
      match array_index k, array_index k' with
      | Some i, Some j =>
          if (i <? j)%nat then (k, v) :: props
          else (k', v') :: add_prop k v rest
      | Some _, None => (k, v) :: props
      | None, _ => (k', v') :: add_prop k v rest
      end
  end.

Fixpoint replace_prop (k : string) (v : value) (props : list (string * value))
  : list (string * value) :=
  match props with
  | [] => []
  | (k', v') :: rest =>
      if k =? k' then (k, v) :: rest else (k', v') :: replace_prop k v rest
  end.

(** [o[k] = v] on the property list of an object: an existing property keeps
    its place. *)
Definition set_prop (k : string) (v : value) (props : list (string * value))
  : list (string * value) :=
  match lookup k props with
  | Some _ => replace_prop k v props
  | None => add_prop k v props
  end.

(** [k in o] and [o.hasOwnProperty(k)] on an object. *)
Definition has_own (o : value) (k : string) : bool :=
  match o with
  | VObj props => match lookup k props with Some _ => true | None => false end
  | _ => false
  end.

(** [a !== undefined]. *)
Definition not_undefined (v : value) : bool := negb (is_undefined v).

(** [v === s] for a string literal [s]. *)
Definition is_str (v : value) (s : string) : bool :=
  match v with
  | VStr t => t =? s
  | _ => false
  end.

End Js.

Export Js.

Notation "x <- e ;; k" := (Js.bind e (fun x => k))
  (at level 61, e at next level, right associativity).

(* ================================================================== *)
(** ** Strings and regular expressions *)

Module Str.

(** The double quote character, which the patterns of the source contain. *)
Definition dq : string := String (ascii_of_nat 34) EmptyString.

(** [_.startsWith(s, p)]. *)
Fixpoint startsWith (s p : string) {struct p} : bool :=
  match p with
  | EmptyString => true
  | String a p' =>
      match s with
      | String b s' => if Ascii.eqb a b then startsWith s' p' else false
      | EmptyString => false
      end
  end.

(** [s.search(p)] and [s.indexOf(p)] for a pattern [p] without regular
    expression operators: the index of the first occurrence, or [-1]. *)
Definition search (s p : string) : Z :=
  match String.index 0 p s with
  | Some i => Z.of_nat i
  | None => (-1)%Z
  end.

(** [s.slice(0, n)]. *)
Definition take (n : nat) (s : string) : string := String.substring 0 n s.

(** [s.replace(c, rep)] for a one-character string pattern: only the first
    occurrence is replaced. *)
Fixpoint replace (c : ascii) (rep : string) (s : string) : string :=
  match s with
  | EmptyString => EmptyString
  | String x s' =>
      if Ascii.eqb x c then rep ++ s' else String x (replace c rep s')
  end.

(** [s.split(c)] for a one-character separator. *)
Fixpoint split (c : ascii) (s : string) : list string :=
  match s with
  | EmptyString => [EmptyString]
  | String x s' =>
      if Ascii.eqb x c then EmptyString :: split c s'
      else match split c s' with
           | [] => [String x EmptyString]
           | w :: ws => String x w :: ws
           end
  end.

Definition white_space (c : ascii) : bool :=
  let n := nat_of_ascii c in
  orb (n =? 32)%nat (andb (9 <=? n)%nat (n <=? 13)%nat).

Fixpoint trim_start (s : string) : string :=
  match s with
  | EmptyString => EmptyString
  | String x s' => if white_space x then trim_start s' else s
  end.

Fixpoint trim_end (s : string) : string :=
  match s with
  | EmptyString => EmptyString
  | String x s' =>
      match trim_end s' with
      | EmptyString => if white_space x then EmptyString
                       else String x EmptyString
      | t => String x t
      end
  end.

(** [s.trim()]. *)
Definition trim (s : string) : string := trim_end (trim_start s).

(** [a.join(sep)] on strings. *)
Fixpoint join (sep : string) (l : list string) : string :=
  match l with
  | [] => EmptyString
  | [x] => x
  | x :: rest => x ++ sep ++ join sep rest
  end.

End Str.

Module Regex.

Inductive atom : Type :=
| Chr (c : ascii)
| Any
| Digit.

(** The fragment of the pattern language the source uses: quantifiers stand
    on a single-character atom, optionally inside a capture group, [Rep] is
    the star (greedy or lazy) and a plus is an atom followed by a star. *)
Inductive regex : Type :=
| Atom (a : atom)
| Lit (s : string)
| Seq (r1 r2 : regex)
| Group (n : nat) (r : regex)
| Rep (greedy : bool) (cap : option nat) (a : atom).

Definition captures := list (nat * string).

Definition lower (c : ascii) : ascii :=
  let n := nat_of_ascii c in
  if andb (65 <=? n)%nat (n <=? 90)%nat then ascii_of_nat (n + 32) else c.

Definition chr_eq (ci : bool) (a b : ascii) : bool :=
  if ci then Ascii.eqb (lower a) (lower b) else Ascii.eqb a b.

Definition line_terminator (c : ascii) : bool :=
  let n := nat_of_ascii c in orb (n =? 10)%nat (n =? 13)%nat.

Definition atom_ok (ci : bool) (a : atom) (c : ascii) : bool :=
  match a with
  | Chr x => chr_eq ci x c
  | Any => negb (line_terminator c)
  | Digit => match Js.digit_of_ascii c with Some _ => true | None => false end
  end.

(** The rest of [s] after the literal [p], when [s] starts with it. *)
Fixpoint lit (ci : bool) (p s : string) : option string :=
  match p with
  | EmptyString => Some s
  | String a p' =>
      match s with
      | String b s' => if chr_eq ci a b then lit ci p' s' else None
      | EmptyString => None
      end
  end.

Definition set_cap (n : nat) (txt : string) (caps : captures) : captures :=
  (n, txt) :: caps.

Fixpoint get_cap (n : nat) (caps : captures) : option string :=
  match caps with
  | [] => None
  | (m, txt) :: rest => if (n =? m)%nat then Some txt else get_cap n rest
  end.

(** What was consumed between the input [s] and its suffix [s']. *)
Definition consumed (s s' : string) : string :=
  Str.take (String.length s - String.length s') s.

Section Matcher.
Context {X : Type}.

Definition cont : Type := string -> captures -> option X.

(** Backtracking star over one atom: greedy tries one more character
    first, lazy tries the continuation first.  A captured atom keeps the
    text of its last iteration. *)
Fixpoint rep (ci greedy : bool) (cap : option nat) (a : atom)
         (s : string) (caps : captures) (k : cont) {struct s} : option X :=
  let more (_ : unit) :=
    match s with
    | String c s' =>
        if atom_ok ci a c then
          rep ci greedy cap a s'
              (match cap with
               | Some n => set_cap n (String c EmptyString) caps
               | None => caps
               end) k
        else None
    | EmptyString => None
    end in
  if greedy then
    match more tt with
    | Some x => Some x
    | None => k s caps
    end
  else
    match k s caps with
    | Some x => Some x
    | None => more tt
    end.

Fixpoint run (ci : bool) (r : regex) (s : string) (caps : captures)
         (k : cont) {struct r} : option X :=
  match r with
  | Atom a =>
      match s with
      | String c s' => if atom_ok ci a c then k s' caps else None
      | EmptyString => None
      end
  | Lit p =>
      match lit ci p s with
      | Some s' => k s' caps
      | None => None
      end
  | Seq r1 r2 => run ci r1 s caps (fun s' caps' => run ci r2 s' caps' k)
  | Group n r' =>
      run ci r' s caps (fun s' caps' => k s' (set_cap n (consumed s s') caps'))
  | Rep greedy cap a => rep ci greedy cap a s caps k
  end.
End Matcher.

(** Leftmost match: the text matched and the captures. *)
Fixpoint exec_from (ci : bool) (r : regex) (s : string) {struct s}
  : option (string * captures) :=
  match run ci r s [] (fun rest caps => Some (consumed s rest, caps)) with
  | Some m => Some m
  | None =>
      match s with
      | String _ s' => exec_from ci r s'
      | EmptyString => None
      end
  end.

Fixpoint groups (r : regex) : nat :=
  match r with
  | Atom _ | Lit _ | Rep _ _ _ => 0
  | Seq r1 r2 => groups r1 + groups r2
  | Group _ r' => S (groups r')
  end.

(** [s.match(r)] for a pattern without the global flag: [null], or the array
    of the matched text followed by one entry per group, [undefined] for a
    group that took no part in the match. *)
Definition js_match (ci : bool) (r : regex) (s : string) : value :=
  match exec_from ci r s with
  | None => VNull
  | Some (whole, caps) =>
      VArr (VStr whole ::
            map (fun n => match get_cap n caps with
                          | Some txt => VStr txt
                          | None => VUndefined
                          end)
                (seq 1 (groups r)))
  end.

Fixpoint seqs (rs : list regex) : regex :=
  match rs with
  | [] => Lit EmptyString
  | [r] => r
  | r :: rest => Seq r (seqs rest)
  end.

End Regex.

(* ================================================================== *)
(** ** The driver connection *)

Module Driver.

(** An error object of the driver: its own properties ([message], and [sql]
    once the adapter attached it).  [None] is [null]. *)
Definition object : Type := list (string * value).

(** The calls the adapter makes on the connection, on a prepared statement
    and on a result handle. *)
Inductive call : Type :=
| BeginTransaction
| CommitTransaction (name : value)
| RollbackTransaction
| Prepare (sql : string)
| Execute (params : list value)
| StmtCloseSync
| GetAffectedRowsSync
| FetchAllSync
| GetColumnMetadataSync
| ResultCloseSync
| QuerySync (sql : string).

(** What the driver answers: the error and second argument it hands to the
    callback, or the value a synchronous call returns. *)
Record response : Type := {
  r_err : option object;
  r_val : value
}.

(** A computation that talks to the driver. *)
Inductive prog (R : Type) : Type :=
| Ret (r : R)
| Call (c : call) (k : response -> prog R).
Arguments Ret {R} r.
Arguments Call {R} c k.

Fixpoint pbind {A B} (p : prog A) (f : A -> prog B) : prog B :=
  match p with
  | Ret a => f a
  | Call c k => Call c (fun r => pbind (k r) f)
  end.

(** A driver is a state machine answering the calls. *)
Record driver : Type := {
  dstate : Type;
  respond : dstate -> call -> response * dstate
}.

(** Running a computation against a driver: the calls made, in order, and
    the result. *)
Fixpoint exec {R} (d : driver) (st : dstate d) (p : prog R)
  : list call * R :=
  match p with
  | Ret r => ([], r)
  | Call c k =>
      let '(resp, st') := respond d st c in
      let '(tr, r) := exec d st' (k resp) in
      (c :: tr, r)
  end.

Definition is_sql_call (c : call) : bool :=
  match c with
  | Prepare _ | Execute _ | QuerySync _ => true
  | _ => false
  end.

End Driver.

Export Driver.

Notation "x <~ p ;; k" := (Driver.pbind p (fun x => k))
  (at level 61, p at next level, right associativity).

(* ================================================================== *)
(** ** lib/dialects/db2/query.js *)

Module Query.

Import Str Regex.

(** The state of a [Query] object the modelled methods read and write.
    [options] is the option bag of the constructor, [model] is
    [options.model], and [instance] is the model instance the query is bound
    to, an object, when there is one. *)
Record Query : Type := {
  instance : option object;
  model : value;
  options : value;
  sql : string
}.

Definition with_sql (q : Query) (s : string) : Query :=
  {| instance := instance q; model := model q; options := options q;
     sql := s |}.

Definition with_instance (q : Query) (i : option object) : Query :=
  {| instance := i; model := model q; options := options q; sql := sql q |}.

Record ValidationErrorItem : Type := {
  item_message : value;
  item_type : string;
  item_path : string;
  item_value : value;
  item_instance : option object;
  item_validatorKey : string
}.

(** The errors of [lib/errors] the translator builds, with the fields it
    passes to their constructors. *)
Inductive SemanticError : Type :=
| UniqueConstraintError (message : value) (errors : list ValidationErrorItem)
                        (parent : object) (fields : list (string * value))
| ForeignKeyConstraintError (fields : value) (index : value) (parent : object)
| UnknownConstraintError (message : value) (constraint : value)
                         (table : value) (parent : object)
| DatabaseError (parent : object).

(** The original error every translation wraps. *)
Definition parent_of (e : SemanticError) : object :=
  match e with
  | UniqueConstraintError _ _ parent _ => parent
  | ForeignKeyConstraintError _ _ parent => parent
  | UnknownConstraintError _ _ _ parent => parent
  | DatabaseError parent => parent
  end.

(** What [_run] inherits or imports and the source files do not hold: the
    statement predicate and the message helper of the abstract query class,
    and the value parsers applied to fetched rows. *)
Class AbstractQuery : Type := {
  isSelectQuery : Query -> bool;
  getUniqueConstraintErrorMessage : Query -> string -> value;
  parseRows : value -> value -> result value
}.

Definition getInsertIdField : string := "id".

(** *** The patterns of [formatError] *)

Definition unique_re : regex :=
  seqs [ Lit ("SQL0803N  One or more values in the INSERT statement, UPDATE statement, or foreign key update caused by a DELETE statement are not valid because the primary key, unique constraint or unique index identified by " ++ dq);
         Group 1 (Atom Digit); Rep true (Some 1) Digit;
         Lit (dq ++ " constrains table " ++ dq);
         Group 2 (Rep true None Any);
         Lit ".";
         Group 3 (Rep true None Any);
         Lit (dq ++ " from having duplicate values for the index key");
         Atom Any ].

Definition restrict_re : regex :=
  seqs [ Lit ("SQL0532N  A parent row cannot be deleted because the relationship " ++ dq);
         Group 1 (Rep true None Any);
         Lit (dq ++ " restricts the deletion") ].

Definition sql0530_re : regex := Lit "SQL0530N".
Definition sql0531_re : regex := Lit "SQL0531N".

Definition undefined_name_re : regex :=
  seqs [ Lit ("SQL0204N  " ++ dq);
         Group 1 (Rep true None Any);
         Lit (dq ++ " is an undefined name");
         Atom Any ].

(** [/table "(.+?)"/i] *)
Definition table_re : regex :=
  seqs [ Lit ("table " ++ dq);
         Group 1 (Seq (Atom Any) (Rep false None Any));
         Lit dq ].

(** [s.match(r)] on a property that has to be a string: reading [match] off
    [undefined] or [null] throws, and no other value has the method. *)
Definition match_of (ci : bool) (r : regex) (s : value) : result value :=
  match s with
  | VStr txt => Ok (js_match ci r txt)
  | _ => Throw TypeError
  end.

(** [m && m.length > n] for the result of a match. *)
Definition matched_more_than (n : Z) (m : value) : bool :=
  andb (truthy m)
       (match get m "length" with
        | VNum len => (n <? len)%Z
        | _ => false
        end).

(** [v - 1] for the captured digit. *)
Definition minus_one (v : value) : value :=
  match v with
  | VNum n => VNum (n - 1)
  | VStr s =>
      match index_of_digits 0 s with
      | Some n => VNum (Z.of_nat n - 1)
      | None => VUndefined
      end
  | _ => VUndefined
  end.

(** The monad of [formatError]: a call on the driver, or an exception. *)
Definition M (A : Type) : Type := prog (result A).

Definition mret {A} (a : A) : M A := Ret (Ok a).
Definition mthrow {A} (e : exn) : M A := Ret (Throw e).
Definition lift {A} (r : result A) : M A := Ret r.

Definition mbind {A B} (m : M A) (f : A -> M B) : M B :=
  pbind m (fun r => match r with
                    | Ok a => f a
                    | Throw e => Ret (Throw e)
                    end).

Notation "x <-- e ;;; k" := (mbind e (fun x => k))
  (at level 61, e at next level, right associativity).

Definition length_gt (n : Z) (m : value) : bool :=
  match get m "length" with
  | VNum len => (n <? len)%Z
  | _ => false
  end.

(** *** formatError *)

(** The guard [!(err || err.message)] at the head of [formatError]. *)
Definition no_message_guard (err : option object) : result bool :=
  match err with
  | None => Throw TypeError
  | Some e => Ok (negb (truthy (or (VObj e) (get (VObj e) "message"))))
  end.

Definition catalog_query (m : value) : string :=
  "SELECT INDNAME FROM SYSCAT.INDEXES  WHERE IID = " ++ to_key (get m "1")
  ++ " AND TABSCHEMA = '" ++ to_key (get m "2")
  ++ "' AND TABNAME = '" ++ to_key (get m "3") ++ "'".

Section FormatError.
Context `{AbstractQuery}.

(** The index name the catalog gives: [conn.querySync(query)[0]['INDNAME']]
    on a live connection, the empty string without one. *)
Definition resolveIndexName (m : value) (conn : bool) : M value :=
  if andb conn (length_gt 3 m) then
    Call (QuerySync (catalog_query m))
         (fun r => lift (row <- getp (r_val r) "0" ;; getp row "INDNAME"))
  else mret (VStr EmptyString).

(** The unique key: the declared one of that name, else the entry of
    [options.fields] at the captured position. *)
Definition resolveUniqueKey (this : Query) (m uniqueIndexName : value)
  : result value :=
  uniqueKey <-
    (if andb (truthy (model this)) (truthy uniqueIndexName)
     then getp (get (model this) "uniqueKeys") (to_key uniqueIndexName)
     else Ok (VStr EmptyString)) ;;
  if andb (negb (truthy uniqueKey)) (truthy (get (options this) "fields"))
  then Ok (get (get (options this) "fields")
               (to_key (minus_one (get m "1"))))
  else Ok uniqueKey.

(** The [fields] object: the value the violation is attributed to. *)
Definition attributeFields (this : Query) (uniqueKey parameters : value)
  : list (string * value) :=
  let where_ := get (options this) "where" in
  let inst := get (options this) "instance" in
  let column := to_key (get uniqueKey "column") in
  if truthy uniqueKey then
    if andb (truthy where_) (not_undefined (get where_ column)) then
      set_prop column (get where_ column) []
    else if andb (truthy inst)
              (andb (truthy (get inst "dataValues"))
                    (truthy (get (get inst "dataValues") column))) then
      set_prop column (get (get inst "dataValues") column) []
    else if truthy parameters then
      set_prop column (get parameters "0") []
    else []
  else [].

Definition violationMessage (e : object) (uniqueKey : value) : value :=
  if andb (truthy uniqueKey) (truthy (get uniqueKey "msg"))
  then get uniqueKey "msg"
  else get (VObj e) "message".

Definition violationItems (this : Query) (fields : list (string * value))
  : list ValidationErrorItem :=
  map (fun fv =>
         {| item_message := getUniqueConstraintErrorMessage this (fst fv);
            item_type := "unique violation";
            item_path := fst fv;
            item_value := snd fv;
            item_instance := instance this;
            item_validatorKey := "not_unique" |})
      fields.

Definition uniqueViolation (this : Query) (e : object) (m : value)
           (conn : bool) (parameters : value) : M SemanticError :=
  uniqueIndexName <-- resolveIndexName m conn ;;;
  uniqueKey <-- lift (resolveUniqueKey this m uniqueIndexName) ;;;
  let fields := attributeFields this uniqueKey parameters in
  mret (UniqueConstraintError (violationMessage e uniqueKey)
                              (violationItems this fields) e fields).

Definition formatError (this : Query) (err : option object) (conn : bool)
           (parameters : value) : M SemanticError :=
  g <-- lift (no_message_guard err) ;;;
  match err with
  | None => mthrow TypeError
  | Some e0 =>
      let e := if (g : bool)
               then set_prop "message" (VStr "No error message found.") e0
               else e0 in
      let message := get (VObj e) "message" in
      m <-- lift (match_of false unique_re message) ;;;
      if matched_more_than 0 m then uniqueViolation this e m conn parameters
      else
        m1 <-- lift (match_of false restrict_re message) ;;;
        m2 <-- (if truthy m1 then mret m1
                else lift (match_of false sql0530_re message)) ;;;
        m3 <-- (if truthy m2 then mret m2
                else lift (match_of false sql0531_re message)) ;;;
        if matched_more_than 0 m3 then
          mret (ForeignKeyConstraintError VNull (get m3 "1") e)
        else
          m4 <-- lift (match_of false undefined_name_re message) ;;;
          if matched_more_than 1 m4 then
            table <-- lift (match_of true table_re (get (VObj e) "sql")) ;;;
            mret (UnknownConstraintError
                    (get m4 "0") (get m4 "1")
                    (if truthy table then get table "1" else VUndefined) e)
          else mret (DatabaseError e)
  end.
End FormatError.

(** *** _run *)

(** A call [this.formatResults(data, rowCount, metadata, conn)], with the
    statement text it classifies; an argument left out is [undefined]. *)
Record FormatResultsCall : Type := {
  fr_sql : string;
  fr_data : value;
  fr_rowCount : value;
  fr_metadata : value;
  fr_conn : bool
}.

(** How the promise of [_run] is settled. *)
Inductive settlement : Type :=
| Resolve (c : FormatResultsCall)
| Reject (e : SemanticError)
| RejectRaw (e : exn).

(** The promise, and the exception a driver callback let escape. *)
Record RunState : Type := {
  settled : option settlement;
  uncaught : option exn
}.

(** [resolve] and [reject] act on a pending promise only. *)
Definition settle (p : option settlement) (s : settlement) : option settlement :=
  match p with
  | None => Some s
  | Some _ => p
  end.

Definition resolved (this : Query) (p : option settlement)
           (data rowCount metadata : value) (conn : bool) : RunState :=
  {| settled := settle p (Resolve {| fr_sql := sql this; fr_data := data;
                                     fr_rowCount := rowCount;
                                     fr_metadata := metadata;
                                     fr_conn := conn |});
     uncaught := None |}.

(** [reject(this.formatError(..))]: no rejection when the translator
    throws. *)
Definition rejected (p : option settlement) (r : result SemanticError)
  : RunState :=
  match r with
  | Ok e => {| settled := settle p (Reject e); uncaught := None |}
  | Throw x => {| settled := p; uncaught := Some x |}
  end.

Definition escaped (p : option settlement) (x : exn) : RunState :=
  {| settled := p; uncaught := Some x |}.

(** [getSQLTypeFromJsType]: only a Buffer is wrapped, and the value type
    has none. *)
Definition getSQLTypeFromJsType (v : value) : value := v.

(** The own values [_.forOwn] visits. *)
Definition own_values (v : value) : list value :=
  match v with
  | VArr items => items
  | VObj props => map snd props
  | _ => []
  end.

Definition bindParams (parameters : value) : list value :=
  if truthy parameters then map getSQLTypeFromJsType (own_values parameters)
  else [].

Definition last_char (s : string) : option ascii :=
  String.get (String.length s - 1) s.

(** The statement text a SELECT without a FROM clause is sent as. *)
Definition withDummyTable (s : string) : string :=
  (match last_char s with
   | Some c => if Ascii.eqb c ";" then take (String.length s - 1) s else s
   | None => s
   end) ++ " FROM SYSIBM.SYSDUMMY1".

(** [message.search(code) != -1] *)
Definition carries (message code : string) : bool :=
  negb (search message code =? -1)%Z.

Definition reasonCode2 : string := "Reason code " ++ dq ++ "2" ++ dq.

(** The driver messages the execute callback ignores. *)
Definition benign (this_sql message : string) : bool :=
  if andb (carries message "SQL0204N") (startsWith this_sql "DROP ") then true
  else if carries message "SQL0443N" then true
  else if carries message "SQL0601N" then true
  else if carries message "SQL0911N" then carries message reasonCode2
  else if carries message "SQL0605W" then true
  else false.

Section Run.
Context `{AbstractQuery}.

(** The callback of the transaction calls. *)
Definition transactionCallback (this : Query) (p : option settlement)
           (err : option object) : prog RunState :=
  match err with
  | Some e =>
      r <~ formatError this (Some e) false VUndefined ;;
      Ret (rejected p r)
  | None => Ret (resolved this p VUndefined VUndefined VUndefined false)
  end.

(** The branch of the callback of [stmt.execute] with no error left. *)
Definition fetchAndResolve (this : Query) (p : option settlement)
           (result : value) : prog RunState :=
  let finish (data metadata affectedRows : value) : prog RunState :=
    Call StmtCloseSync (fun _ =>
      match getp data "length" with
      | Throw x => Ret (escaped p x)
      | Ok datalen =>
          if match datalen with VNum n => (0 <? n)%Z | _ => false end then
            match parseRows metadata data with
            | Ok data' => Ret (resolved this p data' datalen metadata true)
            | Throw x => Ret (escaped p x)
            end
          else Ret (resolved this p data affectedRows VUndefined false)
      end) in
  match result with
  | VObj _ =>
      if startsWith (sql this) "DELETE FROM " then
        Call GetAffectedRowsSync (fun a =>
          Call ResultCloseSync (fun _ =>
            finish (VArr []) (VArr []) (r_val a)))
      else
        Call FetchAllSync (fun d =>
          Call GetColumnMetadataSync (fun m =>
            Call ResultCloseSync (fun _ =>
              finish (r_val d) (r_val m) (VNum 0))))
  | VNull | VArr _ => Ret (escaped p TypeError)
  | _ => finish (VArr []) (VArr []) (VNum 0)
  end.

(** The branch with an error left: the statement text is attached and the
    translation rejects the promise. *)
Definition closeAndReject (this : Query) (sql0 : string)
           (p : option settlement) (e : object) (parameters : value)
  : prog RunState :=
  let e' := set_prop "sql" (VStr sql0) e in
  Call StmtCloseSync (fun _ =>
    r <~ formatError this (Some e') true parameters ;;
    Ret (rejected p r)).

(** The callback of [stmt.execute]. *)
Definition executeCallback (this : Query) (sql0 : string)
           (parameters : value) (p : option settlement)
           (err : option object) (result : value) : prog RunState :=
  match err with
  | None => fetchAndResolve this p result
  | Some e =>
      let message := get (VObj e) "message" in
      if truthy message then
        match message with
        | VStr txt =>
            if benign (sql this) txt then
              fetchAndResolve this
                (settled (resolved this p (VArr []) (VNum 0) VUndefined false))
                result
            else closeAndReject this sql0 p e parameters
        | _ => Ret (escaped p TypeError)
        end
      else closeAndReject this sql0 p e parameters
  end.

(** The callback of [connection.prepare]. *)
Definition prepareCallback (this : Query) (sql0 : string)
           (parameters : value) (err : option object) (stmt : value)
  : prog RunState :=
  st <~ match err with
        | Some e =>
            r <~ formatError this (Some e) false VUndefined ;;
            Ret (rejected None r)
        | None => Ret {| settled := None; uncaught := None |}
        end ;;
  match uncaught st with
  | Some _ => Ret st
  | None =>
      match stmt with
      | VObj _ =>
          Call (Execute (bindParams parameters)) (fun r =>
            executeCallback this sql0 parameters (settled st)
                            (r_err r) (r_val r))
      | _ => Ret (escaped (settled st) TypeError)
      end
  end.

Definition _run (this0 : Query) (sql0 : string) (parameters : value)
  : prog RunState :=
  let this := with_sql this0 sql0 in
  if startsWith (sql this) "BEGIN TRANSACTION" then
    Call BeginTransaction (fun r => transactionCallback this None (r_err r))
  else if startsWith (sql this) "COMMIT TRANSACTION" then
    Call (CommitTransaction VUndefined)
         (fun r => transactionCallback this None (r_err r))
  else if startsWith (sql this) "ROLLBACK TRANSACTION" then
    Call RollbackTransaction
         (fun r => transactionCallback this None (r_err r))
  else if startsWith (sql this) "SAVE TRANSACTION" then
    match getp (get (options this) "transaction") "name" with
    | Throw x => Ret {| settled := Some (RejectRaw x); uncaught := None |}
    | Ok name =>
        Call (CommitTransaction name) (fun r =>
          match r_err r with
          | Some e =>
              x <~ formatError this (Some e) false VUndefined ;;
              Ret (rejected None x)
          | None =>
              Call BeginTransaction
                   (fun r' => transactionCallback this None (r_err r'))
          end)
    end
  else
    let this' :=
      if andb (isSelectQuery this)
              (search (String.substring 8 (String.length (sql this) - 8)
                                        (sql this)) " FROM " =? -1)%Z
      then with_sql this (withDummyTable (sql this))
      else this in
    Call (Prepare (sql this')) (fun r =>
      prepareCallback this' sql0 parameters (r_err r) (r_val r)).
End Run.

(** *** handleShowIndexesQuery *)

(** A row of the statement [showIndexesQuery] builds. *)
Record IndexRow : Type := {
  row_name : string;
  row_tableName : value;
  row_keyType : value;
  COLNAMES : string;
  row_type : value
}.

Record IndexField : Type := {
  attribute : string;
  length : value;
  order : string;
  collate : value
}.

Record IndexDescriptor : Type := {
  primary : bool;
  fields : list IndexField;
  name : string;
  tableName : value;
  unique : bool;
  type : value
}.

(** [item.COLNAMES.replace('+', ' +').replace('-', ' -').split(' ')] *)
Definition splitColumns (colnames : string) : list string :=
  split " " (replace "-" " -" (replace "+" " +" colnames)).

(** The entries one row adds, in order. *)
Definition columnFields (colnames : string) : list IndexField :=
  flat_map
    (fun column =>
       let columnName := trim column in
       if negb (columnName =? EmptyString) then
         [ {| attribute := replace "+" EmptyString
                             (replace "-" EmptyString columnName);
              length := VUndefined;
              order := if (search column "-" =? -1)%Z then "ASC" else "DESC";
              collate := VUndefined |} ]
       else [])
    (splitColumns colnames).

(** The accumulator of the reduction: per index name, in the enumeration
    order of the object, the first row of that name and the fields collected
    for it. *)
Definition groupsAcc : Type := list (string * (IndexRow * list IndexField)).

Fixpoint acc_lookup (k : string) (acc : groupsAcc) : bool :=
  match acc with
  | [] => false
  | (k', _) :: rest => if k =? k' then true else acc_lookup k rest
  end.

Fixpoint acc_add (k : string) (item : IndexRow) (acc : groupsAcc) : groupsAcc :=
  match acc with
  | [] => [(k, (item, []))]
  | (k', g) :: rest =>
      match array_index k, array_index k' with
      | Some i, Some j =>
          if (i <? j)%nat then (k, (item, [])) :: acc
          else (k', g) :: acc_add k item rest
      | Some _, None => (k, (item, [])) :: acc
      | None, _ => (k', g) :: acc_add k item rest
      end
  end.

Fixpoint acc_push (k : string) (fs : list IndexField) (acc : groupsAcc)
  : groupsAcc :=
  match acc with
  | [] => []
  | (k', (item, fs0)) :: rest =>
      if k =? k' then (k', (item, (fs0 ++ fs)%list)) :: rest
      else (k', (item, fs0)) :: acc_push k fs rest
  end.

Definition groupStep (acc : groupsAcc) (item : IndexRow) : groupsAcc :=
  let acc' := if negb (acc_lookup (row_name item) acc)
              then acc_add (row_name item) item acc
              else acc in
  acc_push (row_name item) (columnFields (COLNAMES item)) acc'.

Definition handleShowIndexesQuery (data : list IndexRow) : list IndexDescriptor :=
  map (fun g =>
         let item := fst (snd g) in
         {| primary := is_str (row_keyType item) "P";
            fields := snd (snd g);
            name := row_name item;
            tableName := row_tableName item;
            unique := is_str (row_keyType item) "U";
            type := row_type item |})
      (fold_left groupStep data []).

(** *** handleInsertQuery *)

(** [results && results[0] && results[0][k]] *)
Definition firstRowField (results : value) (k : string) : value :=
  if truthy results then
    let row := get results "0" in
    if truthy row then get row k else row
  else results.

(** The alias of the auto-increment attribute: its [field], when the raw
    attributes hold the attribute and it has one, else [null]. *)
Definition autoIncrementAttributeAlias (model autoIncrementAttribute : value)
  : result value :=
  rawAttributes <- getp model "rawAttributes" ;;
  match rawAttributes with
  | VUndefined | VNull => Throw TypeError
  | _ =>
      if has_own rawAttributes (to_key autoIncrementAttribute) then
        field <- getp (get rawAttributes (to_key autoIncrementAttribute))
                      "field" ;;
        Ok (if not_undefined field then field else VNull)
      else Ok VNull
  end.

(** The chain of [id = id || ..] assignments. *)
Definition insertId (results metaData autoIncrementAttribute alias : value)
  : value :=
  let id := VNull in
  let id := or id (firstRowField results getInsertIdField) in
  let id := or id (if truthy metaData then get metaData getInsertIdField
                   else metaData) in
  let id := or id (firstRowField results (to_key autoIncrementAttribute)) in
  let id := or id (if truthy alias
                   then firstRowField results (to_key alias)
                   else alias) in
  id.

(** The instance after [handleInsertQuery]; nothing happens without a bound
    instance. *)
Definition handleInsertQuery (this : Query) (results metaData : value)
  : result (option object) :=
  match instance this with
  | Some inst =>
      autoIncrementAttribute <- getp (model this) "autoIncrementAttribute" ;;
      alias <- autoIncrementAttributeAlias (model this)
                                           autoIncrementAttribute ;;
      let id := insertId results metaData autoIncrementAttribute alias in
      Ok (Some (set_prop (to_key autoIncrementAttribute) id inst))
  | None => Ok None
  end.

End Query.

(* ================================================================== *)
(** ** The Db2 query generator *)

Module QueryGenerator.

Import Str.

(** A bind-parameter function, with the bind array it pushes on threaded
    through. *)
Definition binder : Type := value -> list value -> string * list value.

(** [options.bindParam]: left out, [false], or a function of the caller,
    which does not touch the bind array of the builder. *)
Inductive BindParam : Type :=
| BindUndefined
| BindFalse
| BindFn (f : value -> string).

(** The option bag of a builder call, and [this.options] of the generator:
    the options the modelled builders read. *)
Record Options : Type := {
  limit : value;
  omitNull : value;
  bindParam : BindParam;
  searchPath : value;
  onDuplicate : value;
  ignoreDuplicates : value;
  dialect : value
}.

Definition noOptions : Options :=
  {| limit := VUndefined; omitNull := VUndefined; bindParam := BindUndefined;
     searchPath := VUndefined; onDuplicate := VUndefined;
     ignoreDuplicates := VUndefined; dialect := VUndefined |}.

Definition default_value (a b : value) : value :=
  if is_undefined a then b else a.

(** [_.defaults(options, this.options)] *)
Definition defaults (o d : Options) : Options :=
  {| limit := default_value (limit o) (limit d);
     omitNull := default_value (omitNull o) (omitNull d);
     bindParam := match bindParam o with
                  | BindUndefined => bindParam d
                  | b => b
                  end;
     searchPath := default_value (searchPath o) (searchPath d);
     onDuplicate := default_value (onDuplicate o) (onDuplicate d);
     ignoreDuplicates := default_value (ignoreDuplicates o) (ignoreDuplicates d);
     dialect := default_value (dialect o) (dialect d) |}.

Definition with_bindParam (o : Options) (b : BindParam) : Options :=
  {| limit := limit o; omitNull := omitNull o; bindParam := b;
     searchPath := searchPath o; onDuplicate := onDuplicate o;
     ignoreDuplicates := ignoreDuplicates o; dialect := dialect o |}.

(** [this._dialect.supports], declared by the dialect and not by the
    generator: the entries [insertQuery] reads. *)
Record Supports : Type := {
  VALUES_empty : bool;                 (* supports['VALUES ()'] *)
  ON_DUPLICATE_KEY : bool;             (* supports['ON DUPLICATE KEY'] *)
  autoIncrement_defaultValue : bool;   (* supports.autoIncrement.defaultValue *)
  DEFAULT : bool;                      (* supports.DEFAULT *)
  inserts_ignoreDuplicates : string    (* supports.inserts.ignoreDuplicates *)
}.

(** The generator instance. *)
Record Generator : Type := {
  autoGenValue : Z;
  options : Options;
  supports : Supports;
  prependSearchPath : value
}.

(** A statement: the text and, when parameters are bound, the bind array. *)
Record Statement : Type := {
  query : string;
  bind : option (list value)
}.

(** What the generator inherits from the abstract query generator and
    imports from the utilities; none of it is in the source files. *)
Class AbstractQueryGenerator : Type := {
  quoteIdentifier : value -> string;
  quoteTable : value -> string;
  escape : value -> value -> value -> string;
  format : value -> value -> value -> binder -> list value
           -> string * list value;
  defaultBindParam : binder;
  whereQuery : value -> Options -> binder -> list value -> string * list value;
  removeNullValuesFromHash : value -> value -> option Options
                             -> list (string * value);
  isSequelizeMethod : value -> bool;
  super_updateQuery : value -> value -> value -> option Options -> value
                      -> Statement
}.

(** The largest number up to which [n++] is exact on a JavaScript number;
    there the increment leaves the counter where it is. *)
Definition max_safe : Z := 9007199254740992.

Definition increment (n : Z) : Z :=
  if (n <? max_safe)%Z then (n + 1)%Z else n.

Definition with_autoGenValue (g : Generator) (n : Z) : Generator :=
  {| autoGenValue := n; options := options g; supports := supports g;
     prependSearchPath := prependSearchPath g |}.

(** The own enumerable entries [_.each] and [for..in] visit. *)
Definition entries (v : value) : list (string * value) :=
  match v with
  | VObj props => props
  | VArr items =>
      combine (map (fun i => Z_to_string (Z.of_nat i))
                   (seq 0 (List.length items))) items
  | _ => []
  end.

(** [modelAttributeMap]: every attribute under its key and under its field
    name; reading the field of a [null] attribute throws. *)
Fixpoint attributeMap (attrs : list (string * value))
         (m : list (string * value)) : result (list (string * value)) :=
  match attrs with
  | [] => Ok m
  | (key, attribute) :: rest =>
      field <- getp attribute "field" ;;
      let m' := set_prop key attribute m in
      attributeMap rest (if truthy field
                         then set_prop (to_key field) attribute m'
                         else m')
  end.

Definition modelAttributeMap (modelAttributes : value)
  : result (list (string * value)) :=
  if truthy modelAttributes then attributeMap (entries modelAttributes) []
  else Ok [].

Definition is_true (v : value) : bool :=
  match v with
  | VBool true => true
  | _ => false
  end.

Definition is_false (b : BindParam) : bool :=
  match b with
  | BindFalse => true
  | _ => false
  end.

Definition lift_binder (f : value -> string) : binder :=
  fun v b => (f v, b).

Section Builders.
Context `{AbstractQueryGenerator}.

(** *** insertQuery *)

(** The state of the loop over the value hash: [fields], [values] and
    [bind]. *)
Definition insertStep (g : Generator) (opts : Options) (bp : binder)
           (attrMap : list (string * value))
           (st : list string * list string * list value)
           (kv : string * value)
  : list string * list string * list value :=
  let '(fields, values, bind) := st in
  let key := fst kv in
  let v := snd kv in
  let fields := (fields ++ [quoteIdentifier (VStr key)])%list in
  let attr := get (VObj attrMap) key in
  if andb (truthy attr)
          (andb (is_true (get attr "autoIncrement")) (negb (truthy v)))
  then
    if negb (autoIncrement_defaultValue (supports g)) then
      (removelast fields, values, bind)
    else if DEFAULT (supports g) then
      (fields, (values ++ ["DEFAULT"])%list, bind)
    else
      (fields, (values ++ [escape VNull VUndefined VUndefined])%list, bind)
  else
    let datewithtz := negb (is_str (dialect opts) "db2") in
    let field := if truthy attr then attr else VUndefined in
    let ctx := VObj [("context", VStr "INSERT");
                     ("datewithtz", VBool datewithtz)] in
    if orb (isSequelizeMethod v) (is_false (bindParam opts)) then
      (fields, (values ++ [escape v field ctx])%list, bind)
    else
      let '(txt, bind') := format v field ctx bp bind in
      (fields, (values ++ [txt])%list, bind').

(** [' VALUES (' + this.autoGenValue++ + ')'], when the dialect supports
    an insert without columns. *)
Definition emptyValues (g : Generator) : string :=
  if VALUES_empty (supports g)
  then " VALUES (" ++ Z_to_string (autoGenValue g) ++ ")"
  else EmptyString.

Definition afterEmptyValues (g : Generator) : Generator :=
  if VALUES_empty (supports g)
  then with_autoGenValue g (increment (autoGenValue g))
  else g.

Definition onDuplicateSuffix (g : Generator) (opts : Options) : string :=
  if andb (ON_DUPLICATE_KEY (supports g)) (truthy (onDuplicate opts))
  then " ON DUPLICATE KEY " ++ to_key (onDuplicate opts)
  else EmptyString.

(** The two templates with their replacements filled in; [output] is
    [undefined] and prints as nothing. *)
Definition valueQuery (ignoreDuplicates table attributes values suffix : string)
  : string :=
  "INSERT" ++ ignoreDuplicates ++ " INTO " ++ table ++ " (" ++ attributes
  ++ ")" ++ " VALUES (" ++ values ++ ")" ++ suffix.

Definition emptyQuery (ignoreDuplicates table emptyValues suffix : string)
  : string :=
  "INSERT" ++ ignoreDuplicates ++ " INTO " ++ table ++ emptyValues ++ suffix.

(** What the loop over the value hash leaves: the options, with
    [bindParam] switched off under a search path, and [fields], [values]
    and [bind]. *)
Record InsertParts : Type := {
  ip_options : Options;
  ip_fields : list string;
  ip_values : list string;
  ip_bind : list value
}.

Definition insertParts (g : Generator) (valueHash modelAttributes : value)
           (options0 : option Options) : result InsertParts :=
  let opts := defaults (match options0 with
                        | Some o => o
                        | None => noOptions
                        end) (options g) in
  let bp : binder := match bindParam opts with
                     | BindFn f => lift_binder f
                     | _ => defaultBindParam
                     end in
  attrMap <- modelAttributeMap modelAttributes ;;
  let opts := if orb (truthy (prependSearchPath g)) (truthy (searchPath opts))
              then with_bindParam opts BindFalse
              else opts in
  let '(fields, values, bind) :=
    fold_left (insertStep g opts bp attrMap)
              (removeNullValuesFromHash valueHash (omitNull (options g)) None)
              ([], [], []) in
  Ok {| ip_options := opts; ip_fields := fields; ip_values := values;
        ip_bind := bind |}.

Definition insertQuery (g : Generator) (table valueHash modelAttributes : value)
           (options0 : option Options) : result (Statement * Generator) :=
  parts <- insertParts g valueHash modelAttributes options0 ;;
  let opts := ip_options parts in
  let synthetic := emptyValues g in
  let g' := afterEmptyValues g in
  let suffix := onDuplicateSuffix g opts in
  let ignore := if truthy (ignoreDuplicates opts)
                then inserts_ignoreDuplicates (supports g)
                else EmptyString in
  let attributes := join "," (ip_fields parts) in
  let query :=
    "SELECT * FROM FINAL TABLE("
    ++ (if negb (attributes =? EmptyString)
        then valueQuery ignore (quoteTable table) attributes
                        (join "," (ip_values parts)) suffix
        else emptyQuery ignore (quoteTable table) synthetic suffix)
    ++ ");" in
  Ok ({| query := query;
         bind := if is_false (bindParam opts) then None
                 else Some (ip_bind parts) |},
      g').

(** *** updateQuery *)

Definition updateStep (opts : Options) (bp : binder)
           (attrMap : list (string * value))
           (st : list string * list value) (kv : string * value)
  : list string * list value :=
  let '(values, bind) := st in
  let key := fst kv in
  let v := snd kv in
  let attr := get (VObj attrMap) key in
  let field := if truthy attr then attr else VUndefined in
  let ctx := VObj [("context", VStr "UPDATE")] in
  if orb (isSequelizeMethod v) (is_false (bindParam opts)) then
    let assignment := quoteIdentifier (VStr key) ++ "="
                      ++ escape v field ctx in
    ((values ++ [assignment])%list, bind)
  else
    let '(txt, bind') := format v field ctx bp bind in
    let assignment := quoteIdentifier (VStr key) ++ "=" ++ txt in
    ((values ++ [assignment])%list, bind').

(** The UPDATE over a derived table the limited path builds. *)
Definition limitedUpdate (table whereFragment limitText values : string)
  : string :=
  "UPDATE (SELECT * FROM " ++ table ++ " " ++ whereFragment
  ++ " FETCH NEXT " ++ limitText ++ " ROWS ONLY) SET " ++ values.

Definition finalTable (inner : string) : string :=
  "SELECT * FROM FINAL TABLE (" ++ inner ++ ")".

Definition updateQuery (g : Generator)
           (tableName attrValueHash where_ : value)
           (options0 : option Options) (attributes : value)
  : result Statement :=
  let sql := super_updateQuery tableName attrValueHash where_ options0
                               attributes in
  let opts := defaults (match options0 with
                        | Some o => o
                        | None => noOptions
                        end) (options g) in
  if negb (truthy (limit opts)) then
    Ok {| query := finalTable (query sql); bind := bind sql |}
  else
    let hash := removeNullValuesFromHash attrValueHash (omitNull opts)
                                         (Some opts) in
    let bp : binder := match bindParam opts with
                       | BindFn f => lift_binder f
                       | _ => defaultBindParam
                       end in
    attrMap <- modelAttributeMap attributes ;;
    let '(values, bind) := fold_left (updateStep opts bp attrMap) hash ([], []) in
    let '(whereFragment, bind') := whereQuery where_ opts bp bind in
    Ok {| query := finalTable
                     (limitedUpdate (quoteTable tableName) whereFragment
                                    (escape (limit opts) VUndefined VUndefined)
                                    (join "," values));
          bind := Some bind' |}.
(** *** upsertQuery *)

(** An entry of [index.fields]: a column name, or an object naming it. *)
Inductive IndexFieldRef : Type :=
| FieldName (s : string)
| FieldObject (o : list (string * value)).

Record Index : Type := {
  ix_unique : value;
  ix_fields : option (list IndexFieldRef)
}.

(** What [upsertQuery] reads of the model: the raw attributes, objects in
    the order of their declaration, and the declared indexes. *)
Record Model : Type := {
  rawAttributes : list (string * list (string * value));
  _indexes : list Index
}.

(** [a === b] on primitives; two objects of the model are never the same
    object. *)
Definition strict_eq (a b : value) : bool :=
  match a, b with
  | VUndefined, VUndefined => true
  | VNull, VNull => true
  | VBool x, VBool y => Bool.eqb x y
  | VNum x, VNum y => (x =? y)%Z
  | VStr x, VStr y => (x =? y)
  | _, _ => false
  end.

(** [a.indexOf(v) !== -1] *)
Definition includes (a : list value) (v : value) : bool :=
  existsb (strict_eq v) a.

(** [model.rawAttributes[key].field || key] for the attributes with a
    truthy [flag]. *)
Definition attrsFlagged (flag : string) (m : Model) : list value :=
  flat_map (fun ka =>
              if truthy (get (VObj (snd ka)) flag)
              then [or (get (VObj (snd ka)) "field") (VStr (fst ka))]
              else [])
           (rawAttributes m).

Definition fieldNameOf (field : IndexFieldRef) : value :=
  match field with
  | FieldName s => VStr s
  | FieldObject o => or (get (VObj o) "name") (get (VObj o) "attribute")
  end.

Definition hasRawAttribute (m : Model) (fieldName : value) : bool :=
  existsb (fun ka => fst ka =? to_key fieldName) (rawAttributes m).

Definition addIndexFields (m : Model) (uniqueAttrs : list value)
           (index : Index) : list value :=
  if truthy (ix_unique index) then
    match ix_fields index with
    | Some fields =>
        fold_left
          (fun ua field =>
             let fieldName := fieldNameOf field in
             if andb (negb (includes ua fieldName))
                     (hasRawAttribute m fieldName)
             then (ua ++ [fieldName])%list
             else ua)
          fields uniqueAttrs
    | None => uniqueAttrs
    end
  else uniqueAttrs.

Definition primaryKeysAttrs (m : Model) : list value :=
  attrsFlagged "primaryKey" m.

Definition identityAttrs (m : Model) : list value :=
  attrsFlagged "autoIncrement" m.

(** The attributes declared unique, then the fields of the unique
    indexes that are attributes and not yet listed. *)
Definition uniqueAttrs (m : Model) : list value :=
  fold_left (addIndexFields m) (_indexes m) (attrsFlagged "unique" m).

(** The filter on the disjuncts: every component of the clause has to be
    truthy. *)
Definition validClause (clause : list (string * value)) : bool :=
  forallb (fun kv => truthy (snd kv)) clause.

Definition firstKey (clause : list (string * value)) : value :=
  match clause with
  | [] => VUndefined
  | (k, _) :: _ => VStr k
  end.

Definition getJoinSnippet (targetTableAlias sourceTableAlias : string)
           (array : list value) : list string :=
  map (fun key =>
         let key := quoteIdentifier key in
         targetTableAlias ++ "." ++ key ++ " = "
         ++ sourceTableAlias ++ "." ++ key)
      array.

Definition keyedByPrimaryKey (m : Model) (clause : list (string * value))
  : bool :=
  includes (primaryKeysAttrs m) (firstKey clause).

(** The ON condition, for a non-empty list of surviving clauses. *)
Definition joinCondition (m : Model) (target source : string)
           (clauses : list (list (string * value))) : string :=
  let found : option string :=
    if existsb (keyedByPrimaryKey m) clauses
    then Some (join " AND " (getJoinSnippet target source (primaryKeysAttrs m)))
    else None in
  match found with
  | Some jc =>
      if jc =? EmptyString
      then join " AND " (getJoinSnippet target source (uniqueAttrs m))
      else jc
  | None => join " AND " (getJoinSnippet target source (uniqueAttrs m))
  end.

Definition mergeStatement (tableNameQuoted target source insertKeysQuoted
                           insertValuesEscaped condition updateSnippet : string)
  : string :=
  "MERGE INTO " ++ tableNameQuoted ++ " AS " ++ target ++ " USING (VALUES("
  ++ insertValuesEscaped ++ ")) AS " ++ source ++ "(" ++ insertKeysQuoted
  ++ ") ON " ++ condition
  ++ " WHEN MATCHED THEN UPDATE SET " ++ updateSnippet
  ++ " WHEN NOT MATCHED THEN INSERT (" ++ insertKeysQuoted ++ ") VALUES("
  ++ insertValuesEscaped ++ ");".

(** The error thrown when no clause is left. *)
Definition upsertError : exn :=
  Error "Primary Key or Unique key should be passed to upsert query".

(** [where_or] is the array [where[Op.or]] of the disjuncts.  The flag
    [needIdentityInsertWrapper] of the source is set and never read. *)
Definition upsertQuery (tableName : value)
           (insertValues updateValues : list (string * value))
           (where_or : list (list (string * value))) (model : Model)
  : result string :=
  let targetTableAlias := quoteTable (VStr (to_key tableName ++ "_target")) in
  let sourceTableAlias := quoteTable (VStr (to_key tableName ++ "_source")) in
  let tableNameQuoted := quoteTable tableName in
  let insertKeysQuoted :=
    join ", " (map (fun kv => quoteIdentifier (VStr (fst kv))) insertValues) in
  let insertValuesEscaped :=
    join ", " (map (fun kv => escape (snd kv) VUndefined VUndefined)
                   insertValues) in
  let clauses := filter validClause where_or in
  match clauses with
  | [] => Throw upsertError
  | _ =>
      let condition :=
        joinCondition model targetTableAlias sourceTableAlias clauses in
      let updateSnippet :=
        join ", "
          (map (fun kv =>
                  targetTableAlias ++ "." ++ quoteIdentifier (VStr (fst kv))
                  ++ " = " ++ escape (snd kv) VUndefined VUndefined)
               (filter (fun kv =>
                          negb (includes (identityAttrs model) (VStr (fst kv))))
                       updateValues)) in
      Ok (mergeStatement tableNameQuoted targetTableAlias sourceTableAlias
                         insertKeysQuoted insertValuesEscaped condition
                         updateSnippet)
  end.
End Builders.

End QueryGenerator.

(* ================================================================== *)
(** ** lib/dialects/db2/query.js: statement predicates and the Describe
       results *)

Module QueryResults.

Import Str Regex Query.

(** [s.toLowerCase()] on the letters of ASCII. *)
Fixpoint toLowerCase (s : string) : string :=
  match s with
  | EmptyString => EmptyString
  | String c s' => String (lower c) (toLowerCase s')
  end.

(** [s.replace(pat, rep)] for a string pattern: the first occurrence. *)
Fixpoint replaceFirst (pat rep s : string) : string :=
  match lit false pat s with
  | Some rest => rep ++ rest
  | None =>
      match s with
      | EmptyString => EmptyString
      | String c s' => String c (replaceFirst pat rep s')
      end
  end.

(** [s.replace(/c/g, '')] for one character. *)
Fixpoint removeAll (c : ascii) (s : string) : string :=
  match s with
  | EmptyString => EmptyString
  | String x s' =>
      if Ascii.eqb x c then removeAll c s' else String x (removeAll c s')
  end.

Definition isDropSchemaQuery (this : Query) : bool :=
  if startsWith (sql this) "CALL SYSPROC.ADMIN_DROP_SCHEMA" then true
  else false.

(** [s.indexOf(p) === 0] *)
Definition at_start (s p : string) : bool := (search s p =? 0)%Z.

Definition isShowOrDescribeQuery (this : Query) : bool :=
  let result := false in
  let result :=
    orb result
        (at_start (toLowerCase (sql this))
           "select c.column_name as 'name', c.data_type as 'type', c.is_nullable as 'isnull'") in
  let result :=
    orb result
        (at_start (toLowerCase (sql this))
           "select tablename = t.name, name = ind.name,") in
  let result :=
    orb result
        (at_start (toLowerCase (sql this)) "exec sys.sp_helpindex @objname") in
  result.

(** The text of a statement that [_run] hands to the transaction calls of
    the connection instead of preparing it. *)
Definition isTransactionControl (s : string) : bool :=
  orb (startsWith s "BEGIN TRANSACTION")
      (orb (startsWith s "COMMIT TRANSACTION")
           (orb (startsWith s "ROLLBACK TRANSACTION")
                (startsWith s "SAVE TRANSACTION"))).

(** The answers of a driver to a sequence of calls. *)
Fixpoint answers (d : driver) (st : dstate d) (cs : list call)
  : list response :=
  match cs with
  | [] => []
  | c :: rest =>
      fst (respond d st c) :: answers d (snd (respond d st c)) rest
  end.

Definition is_stmt_close (c : call) : bool :=
  match c with
  | StmtCloseSync => true
  | _ => false
  end.

(** The query object with the statement text [_run] prepares: the text it
    was given, or that text with the dummy table for a SELECT without a
    FROM clause. *)
Definition prepared `{AbstractQuery} (this : Query) (sql0 : string) : Query :=
  let this1 := with_sql this sql0 in
  if andb (isSelectQuery this1)
          (search (String.substring 8 (String.length sql0 - 8) sql0) " FROM "
           =? -1)%Z
  then with_sql this1 (withDummyTable sql0)
  else this1.

(** The Describe branch of [formatResults].  The default value of a column
    loses its first [('], its first [')] and every single quote. *)
Definition describeDefault (d : value) : result value :=
  if truthy d then
    match d with
    | VStr txt =>
        Ok (VStr (removeAll "'" (replaceFirst "')" EmptyString
                                   (replaceFirst "('" EmptyString txt))))
    | _ => Throw TypeError
    end
  else Ok d.

(** The rows of the index [n] among the rows of a result. *)
Definition rowsNamed (n : string) (data : list IndexRow) : list IndexRow :=
  filter (fun r => row_name r =? n) data.

(** The names every object inherits from [Object.prototype]: for them
    [name in acc] holds of the empty accumulator of
    [handleShowIndexesQuery]. *)
Definition objectPrototypeKeys : list string :=
  [ "constructor"; "__defineGetter__"; "__defineSetter__"; "hasOwnProperty";
    "__lookupGetter__"; "__lookupSetter__"; "isPrototypeOf";
    "propertyIsEnumerable"; "toString"; "valueOf"; "__proto__";
    "toLocaleString" ].

Definition inherited (n : string) : bool :=
  existsb (String.eqb n) objectPrototypeKeys.

(** What the reduction of [handleShowIndexesQuery] has built after the rows
    [seen]: the names seen, each once, with the first row of the name and
    the entries of all its rows. *)
Definition grouped (seen : list IndexRow) (acc : groupsAcc) : Prop :=
  NoDup (map fst acc)
  /\ (forall k, In k (map fst acc) <-> In k (map row_name seen))
  /\ (forall k item fs,
         In (k, (item, fs)) acc ->
         row_name item = k
         /\ hd_error (rowsNamed k seen) = Some item
         /\ fs = flat_map (fun r => columnFields (COLNAMES r))
                          (rowsNamed k seen)).

End QueryResults.

(* ================================================================== *)
(** ** The Db2 query generator: schema, transaction, delete and bulk insert
       statements *)

Module GeneratorStatements.

Import Str QueryGenerator.

(** The options [deleteQuery] reads: [offset], a number when given, and
    [limit]. *)
Record DeleteOptions : Type := {
  d_offset : option Z;
  d_limit : value
}.

(** What [deleteQuery] inherits: the text of the conditions, empty without
    conditions. *)
Class AbstractWhere : Type := {
  getWhereConditions : value -> value -> value -> DeleteOptions -> string
}.

Definition wrapSingleQuote (identifier : value) : string :=
  if truthy identifier then "'" ++ to_key identifier ++ "'"
  else EmptyString.

Record Transaction : Type := {
  parent : value;
  name : value
}.

Section Statements.
Context `{AbstractQueryGenerator} `{AbstractWhere}.

(** [dropSchema]: the call of the administration procedure and its two
    INOUT parameters. *)
Definition dropSchema (schema : string) : Statement :=
  {| query := "CALL SYSPROC.ADMIN_DROP_SCHEMA("
              ++ wrapSingleQuote (VStr (trim schema)) ++ ", NULL, ? , ?)";
     bind := Some [VObj [("ParamType", VStr "INOUT");
                         ("Data", VStr "ERRORSCHEMA")];
                   VObj [("ParamType", VStr "INOUT");
                         ("Data", VStr "ERRORTABLE")]] |}.

Definition describeTableQuery (tableName schema : value) : string :=
  let sql :=
    join " "
      [ "SELECT NAME AS " ++ dq ++ "Name" ++ dq ++ ", TBNAME AS " ++ dq
        ++ "Table" ++ dq ++ ", TBCREATOR AS " ++ dq ++ "Schema" ++ dq ++ ",";
        "TRIM(COLTYPE) AS " ++ dq ++ "Type" ++ dq ++ ", LENGTH AS " ++ dq
        ++ "Length" ++ dq ++ ", SCALE AS " ++ dq ++ "Scale" ++ dq ++ ",";
        "NULLS AS " ++ dq ++ "IsNull" ++ dq ++ ", DEFAULT AS " ++ dq
        ++ "Default" ++ dq ++ ", COLNO AS " ++ dq ++ "Colno" ++ dq ++ ",";
        "IDENTITY AS " ++ dq ++ "IsIdentity" ++ dq ++ ", KEYSEQ AS " ++ dq
        ++ "KeySeq" ++ dq ++ ", REMARKS AS " ++ dq ++ "Comment" ++ dq;
        "FROM";
        "SYSIBM.SYSCOLUMNS";
        "WHERE TBNAME =";
        wrapSingleQuote tableName ] in
  (if truthy schema
   then sql ++ " AND TBCREATOR =" ++ wrapSingleQuote schema
   else sql) ++ ";".

Definition showTablesQuery : string :=
  "SELECT TABNAME AS " ++ dq ++ "tableName" ++ dq ++ ", TABSCHEMA AS " ++ dq
  ++ "tableSchema" ++ dq
  ++ " FROM SYSCAT.TABLES WHERE TABSCHEMA = USER ORDER BY TABSCHEMA, TABNAME".

(** *** Transaction statements *)

Definition startTransactionQuery (transaction : Transaction) : string :=
  if truthy (parent transaction)
  then "SAVE TRANSACTION " ++ quoteIdentifier (name transaction) ++ ";"
  else "BEGIN TRANSACTION;".

(** Nothing is returned for a transaction with a parent. *)
Definition commitTransactionQuery (transaction : Transaction) : option string :=
  if truthy (parent transaction) then None
  else Some "COMMIT TRANSACTION;".

Definition rollbackTransactionQuery (transaction : Transaction) : string :=
  if truthy (parent transaction)
  then "ROLLBACK TRANSACTION " ++ quoteIdentifier (name transaction) ++ ";"
  else "ROLLBACK TRANSACTION;".

(** *** deleteQuery *)

Definition deleteLimit (options : DeleteOptions) : string :=
  let limit := match d_offset options with
               | Some n => if (0 <? n)%Z
                           then " OFFSET " ++ escape (VNum n) VUndefined VUndefined
                                ++ " ROWS"
                           else EmptyString
               | None => EmptyString
               end in
  if truthy (d_limit options)
  then limit ++ " FETCH NEXT "
       ++ escape (d_limit options) VUndefined VUndefined ++ " ROWS ONLY"
  else limit.

Definition deleteQuery (tableName where_ : value) (options : DeleteOptions)
           (model : value) : string :=
  let table := quoteTable tableName in
  let conditions := getWhereConditions where_ VNull model options in
  "DELETE FROM " ++ table
  ++ (if negb (conditions =? EmptyString) then " WHERE " ++ conditions
      else conditions)
  ++ deleteLimit options.

(** *** bulkInsertQuery *)

(** A row whose only field is an auto-increment attribute set to [null]. *)
Definition emptyKeyRow (attributes : value) (row : list (string * value))
  : bool :=
  match row with
  | [(key, v)] =>
      andb (truthy (get attributes key))
           (andb (truthy (get (get attributes key) "autoIncrement"))
                 (is_null v))
  | _ => false
  end.

Definition includesKey (keys : list string) (key : string) : bool :=
  existsb (String.eqb key) keys.

(** The inner loop over one row: the keys not seen yet are collected, but
    for an auto-increment attribute set to [null]. *)
Definition collectKeys (attributes : value) (allAttributes : list string)
           (row : list (string * value)) : list string :=
  fold_left
    (fun keys kv =>
       if negb (includesKey keys (fst kv)) then
         if andb (is_null (snd kv))
                 (andb (truthy (get attributes (fst kv)))
                       (truthy (get (get attributes (fst kv)) "autoIncrement")))
         then keys
         else (keys ++ [fst kv])%list
       else keys)
    row allAttributes.

(** The first loop over the rows: the counter, [valuesForEmptyQuery] and
    [allAttributes]. *)
Definition bulkStep (attributes : value)
           (st : Z * list string * list string) (row : list (string * value))
  : Z * list string * list string :=
  let '(counter, valuesForEmptyQuery, allAttributes) := st in
  if emptyKeyRow attributes row then
    let synthetic := "(" ++ Z_to_string counter ++ ")" in
    (increment counter, (valuesForEmptyQuery ++ [synthetic])%list,
     allAttributes)
  else (counter, valuesForEmptyQuery, collectKeys attributes allAttributes row).

Definition bulkTuple (allAttributes : list string) (row : list (string * value))
  : string :=
  "(" ++ join "," (map (fun key => escape (get (VObj row) key)
                                          VUndefined VUndefined)
                       allAttributes) ++ ")".

Definition bulkInsertQuery (g : Generator) (tableName : value)
           (attrValueHashes : list (list (string * value)))
           (returning : value) (attributes0 : value) : string * Generator :=
  let attributes := if truthy attributes0 then attributes0 else VObj [] in
  let table := quoteTable tableName in
  let '(counter, valuesForEmptyQuery, allAttributes) :=
    fold_left (bulkStep attributes) attrValueHashes
              (autoGenValue g, [], []) in
  let columns :=
    join "," (map (fun attr => quoteIdentifier (VStr attr)) allAttributes) in
  let tuples := join "," (map (bulkTuple allAttributes) attrValueHashes) in
  let query :=
    if truthy returning
    then "SELECT * FROM FINAL TABLE( INSERT INTO " ++ table ++ " (" ++ columns
         ++ ") VALUES " ++ tuples ++ ");"
    else "INSERT INTO " ++ table ++ " (" ++ columns ++ ") VALUES " ++ tuples
         ++ ";" in
  let emptyQuery :=
    "INSERT INTO " ++ table ++ " VALUES " ++ join "," valuesForEmptyQuery in
  let allQueries :=
    ((match valuesForEmptyQuery with
      | [] => []
      | _ => [emptyQuery]
      end)
     ++ (match allAttributes with
         | [] => []
         | _ => [query]
         end))%list in
  (join ";" allQueries, with_autoGenValue g counter).

End Statements.

End GeneratorStatements.

(* ================================================================== *)
(** ** Concrete collaborators, for the examples *)

Module Examples.

Import Str Query.

(** An abstract query layer: nothing is a SELECT, the message per field is
    [<field> must be unique], rows are left as the driver gave them. *)
#[export] Instance plainQuery : AbstractQuery := {|
  isSelectQuery := fun _ => false;
  getUniqueConstraintErrorMessage := fun _ field => VStr (field ++ " must be unique");
  parseRows := fun _ data => Ok data
|}.

(** The same layer for queries of the type SELECT. *)
Definition selectQuery : AbstractQuery := {|
  isSelectQuery := fun _ => true;
  getUniqueConstraintErrorMessage := fun _ field => VStr (field ++ " must be unique");
  parseRows := fun _ data => Ok data
|}.

(** A driver without state that answers every call the same way. *)
Definition constantDriver (answer : call -> response) : driver :=
  {| dstate := unit; respond := fun st c => (answer c, st) |}.

Definition ok (v : value) : response := {| r_err := None; r_val := v |}.
Definition failed (message : string) : response :=
  {| r_err := Some [("message", VStr message)]; r_val := VUndefined |}.

(** A query bound to nothing, inside the transaction [sp1]. *)
Definition savepointQuery : Query :=
  {| instance := None;
     model := VUndefined;
     options := VObj [("transaction", VObj [("name", VStr "sp1")])];
     sql := EmptyString |}.

(** The message of the driver for a duplicate value under the index of the
    given id of the table [S.T]. *)
Definition duplicateMessage (id : string) : string :=
  "[IBM][CLI Driver][DB2/LINUXX8664] SQL0803N  One or more values in the INSERT statement, UPDATE statement, or foreign key update caused by a DELETE statement are not valid because the primary key, unique constraint or unique index identified by "
  ++ dq ++ id ++ dq ++ " constrains table " ++ dq ++ "S.T" ++ dq
  ++ " from having duplicate values for the index key.  SQLSTATE=23505".

Definition duplicateMatched (id : string) : string :=
  "SQL0803N  One or more values in the INSERT statement, UPDATE statement, or foreign key update caused by a DELETE statement are not valid because the primary key, unique constraint or unique index identified by "
  ++ dq ++ id ++ dq ++ " constrains table " ++ dq ++ "S.T" ++ dq
  ++ " from having duplicate values for the index key.".

(** A model with the unique key [users_email_uk] on the column [email], and
    a query on it whose where clause gives the address. *)
Definition emailKeys : list (string * value) :=
  [("users_email_uk",
    VObj [("fields", VArr [VStr "email"]); ("column", VStr "email")])].

Definition emailQuery : Query :=
  {| instance := None;
     model := VObj [("uniqueKeys", VObj emailKeys)];
     options := VObj [("where", VObj [("email", VStr "x@y.com")])];
     sql := EmptyString |}.

(** A catalog in which every index is called [users_email_uk]. *)
Definition emailCatalog : driver :=
  constantDriver (fun _ => ok (VArr [VObj [("INDNAME", VStr "users_email_uk")]])).

(** The catalog query for the index of the given id of the table [S.T]. *)
Definition catalogQueryFor (id : string) : string :=
  "SELECT INDNAME FROM SYSCAT.INDEXES  WHERE IID = " ++ id
  ++ " AND TABSCHEMA = 'S' AND TABNAME = 'T'".

(** A catalog of the table [S.T] with the index [users_name_uk] of id 2 and
    the index [users_email_uk] of id 12; a query for another index has no
    row. *)
Definition twoIndexCatalog : driver :=
  constantDriver
    (fun c =>
       match c with
       | QuerySync q =>
           if q =? catalogQueryFor "2"
           then ok (VArr [VObj [("INDNAME", VStr "users_name_uk")]])
           else if q =? catalogQueryFor "12"
           then ok (VArr [VObj [("INDNAME", VStr "users_email_uk")]])
           else ok (VArr [])
       | _ => ok VUndefined
       end).

(** A model with a unique key on [name] and one on [email], and an update of
    both columns. *)
Definition twoKeyQuery : Query :=
  {| instance := None;
     model := VObj [("uniqueKeys",
                     VObj [("users_name_uk", VObj [("column", VStr "name")]);
                           ("users_email_uk", VObj [("column", VStr "email")])])];
     options := VObj [("where", VObj [("name", VStr "n");
                                      ("email", VStr "x@y.com")])];
     sql := EmptyString |}.

Definition violationOf (q : Query) (field : string) (v : value)
  : ValidationErrorItem :=
  {| item_message := getUniqueConstraintErrorMessage q field;
     item_type := "unique violation";
     item_path := field;
     item_value := v;
     item_instance := instance q;
     item_validatorKey := "not_unique" |}.

(** A row of the catalog of indexes. *)
Definition indexRow (name colnames : string) : IndexRow :=
  {| row_name := name; row_tableName := VStr "T"; row_keyType := VStr "U";
     COLNAMES := colnames; row_type := VStr "REG" |}.

Definition indexField (attr ord : string) : IndexField :=
  {| attribute := attr; length := VUndefined; order := ord;
     collate := VUndefined |}.

(** A query bound to an instance of a model whose auto-increment attribute
    [id] is stored in the column [id]. *)
Definition boundInsert : Query :=
  {| instance := Some [("name", VStr "n")];
     model := VObj [("autoIncrementAttribute", VStr "id");
                    ("rawAttributes", VObj [("id", VObj [("field", VStr "id")])])];
     options := VObj [];
     sql := EmptyString |}.

End Examples.

(* ================================================================== *)
(** ** Concrete collaborators of the generator, for the examples *)

Module GeneratorExamples.

Import Str QueryGenerator.

(** An abstract generator that quotes with double quotes, escapes strings
    with single quotes, numbers the bind parameters and removes nothing from
    a value hash. *)
#[export] Instance plainGenerator : AbstractQueryGenerator := {|
  quoteIdentifier := fun v => dq ++ to_key v ++ dq;
  quoteTable := fun v => dq ++ to_key v ++ dq;
  escape := fun v _ _ =>
              match v with
              | VStr s => "'" ++ s ++ "'"
              | VNull => "NULL"
              | _ => to_key v
              end;
  format := fun v _ _ bp b => bp v b;
  defaultBindParam :=
    fun v b => ("$" ++ Z_to_string (Z.of_nat (S (List.length b))),
                (b ++ [v])%list);
  whereQuery := fun _ _ _ b => ("WHERE 1=1", b);
  removeNullValuesFromHash := fun h _ _ => entries h;
  isSequelizeMethod := fun _ => false;
  super_updateQuery :=
    fun _ _ _ _ _ => {| query := "UPDATE T SET A=$1"; bind := Some [VNum 1] |}
|}.

Definition db2Supports : Supports :=
  {| VALUES_empty := true; ON_DUPLICATE_KEY := false;
     autoIncrement_defaultValue := true; DEFAULT := true;
     inserts_ignoreDuplicates := EmptyString |}.

(** A generator as its constructor leaves it. *)
Definition freshGenerator : Generator :=
  {| autoGenValue := 1; options := noOptions; supports := db2Supports;
     prependSearchPath := VUndefined |}.

Definition limitOf (n : Z) : Options :=
  {| limit := VNum n; omitNull := VUndefined; bindParam := BindUndefined;
     searchPath := VUndefined; onDuplicate := VUndefined;
     ignoreDuplicates := VUndefined; dialect := VUndefined |}.

(** A model with the primary key [id] and the unique attribute [email]. *)
Definition userModel : Model :=
  {| rawAttributes := [("id", [("primaryKey", VBool true);
                               ("autoIncrement", VBool true)]);
                       ("email", [("unique", VBool true)]);
                       ("name", [])];
     _indexes := [] |}.

(** Conditions that read [A = 1] when there is something to select on. *)
#[export] Instance plainWhere : GeneratorStatements.AbstractWhere := {|
  GeneratorStatements.getWhereConditions :=
    fun where_ _ _ _ => if truthy where_ then "A = 1" else EmptyString
|}.

End GeneratorExamples.

(* ================================================================== *)
(** ** Statements of the specification that the code is compared with *)

Module Specified.

Import Str Query.

(** The result of a computation that makes no call. *)
Definition returned {R} (p : prog R) : option R :=
  match p with
  | Ret r => Some r
  | Call _ _ => None
  end.




(** The generated id as the specification states it: when
    none of the four candidates is non-empty, the attribute is set to
    [null]. *)
Definition insert_id_as_specified : Prop :=
  forall (this : Query) (inst : object) (results metaData ai alias : value),
    instance this = Some inst ->
    getp (model this) "autoIncrementAttribute" = Ok ai ->
    autoIncrementAttributeAlias (model this) ai = Ok alias ->
    truthy (get (get results "0") "id") = false ->
    truthy (get metaData "id") = false ->
    truthy (get (get results "0") (to_key ai)) = false ->
    truthy (get (get results "0") (to_key alias)) = false ->
    handleInsertQuery this results metaData
    = Ok (Some (set_prop (to_key ai) VNull inst)).



End Specified.

(* ================================================================== *)
(** ** Properties of the error translator and of the execution adapter *)

Module QueryProperties.

Import Str Regex Query Examples Specified.

#[local] Opaque js_match.

(** Reading a property after an assignment. *)
Lemma lookup_replace_prop (k k' : string) (v : value)
      (props : list (string * value)) :
  lookup k' (replace_prop k v props)
  = if k' =? k then match lookup k props with
                    | Some _ => Some v
                    | None => None
                    end
    else lookup k' props.
Proof.
  induction props as [|[k0 v0] props IH]; cbn [replace_prop lookup].
  - destruct (k' =? k); reflexivity.
  - destruct (String.eqb_spec k k0) as [->|Hne]; cbn [lookup].
    + destruct (k' =? k0); reflexivity.
    + rewrite IH. destruct (String.eqb_spec k' k) as [->|Hne'].
      * destruct (String.eqb_spec k k0); [congruence | reflexivity].
      * reflexivity.
Qed.

Lemma lookup_add_prop (k k' : string) (v : value)
      (props : list (string * value)) :
  lookup k props = None ->
  lookup k' (add_prop k v props)
  = if k' =? k then Some v else lookup k' props.
Proof.
  induction props as [|[k0 v0] props IH]; cbn [add_prop lookup].
  - intros _. destruct (k' =? k); reflexivity.
  - destruct (String.eqb_spec k k0) as [->|Hne]; [discriminate|]. intros Hk.
    assert (Hhead : lookup k' ((k, v) :: (k0, v0) :: props)
                    = if k' =? k then Some v
                      else if k' =? k0 then Some v0 else lookup k' props)
      by reflexivity.
    assert (Htail : lookup k' ((k0, v0) :: add_prop k v props)
                    = if k' =? k then Some v
                      else if k' =? k0 then Some v0 else lookup k' props).
    { cbn [lookup]. rewrite (IH Hk).
      destruct (String.eqb_spec k' k0) as [->|_]; [|reflexivity].
      destruct (String.eqb_spec k0 k); [congruence | reflexivity]. }
    destruct (array_index k) as [i|]; [destruct (array_index k0) as [j|];
      [destruct (i <? j)%nat|]|]; assumption.
Qed.

Lemma lookup_set_prop (k k' : string) (v : value)
      (props : list (string * value)) :
  lookup k' (set_prop k v props)
  = if k' =? k then Some v else lookup k' props.
Proof.
  unfold set_prop. destruct (lookup k props) as [v0|] eqn:Ek.
  - rewrite lookup_replace_prop, Ek. reflexivity.
  - apply lookup_add_prop, Ek.
Qed.

Section WithAbstractQuery.
Context `{AbstractQuery}.

Lemma exec_ret {R} (d : driver) (st : dstate d) (r : R) :
  exec d st (Ret r) = ([], r).
Proof. reflexivity. Qed.

Lemma exec_call {R} (d : driver) (st : dstate d) (c : call)
      (k : response -> prog R) :
  exec d st (Call c k) =
  (c :: fst (exec d (snd (respond d st c)) (k (fst (respond d st c)))),
   snd (exec d (snd (respond d st c)) (k (fst (respond d st c))))).
Proof.
  simpl. destruct (respond d st c) as [resp st']. simpl.
  destruct (exec d st' (k resp)). reflexivity.
Qed.

Lemma exec_returned {R} (d : driver) (st : dstate d) (p : prog R) (r : R) :
  returned p = Some r -> exec d st p = ([], r).
Proof.
  destruct p; simpl; intros E; [injection E as ->; reflexivity | discriminate].
Qed.

(** Without a connection the translator asks the driver nothing. *)
Lemma formatError_offline (this : Query) (err : option object)
      (parameters : value) :
  exists r, returned (formatError this err false parameters) = Some r.
Proof.
  unfold formatError, uniqueViolation, resolveIndexName, mbind, lift, mret,
    mthrow.
  destruct err as [e|]; cbn [no_message_guard pbind andb];
    [|eexists; reflexivity].
  repeat match goal with
         | |- context [match ?x with _ => _ end] =>
             destruct x; cbn [pbind andb]
         end; eexists; reflexivity.
Qed.


(** Whatever the translator returns wraps the error it was given, with the
    message it came with. *)
Lemma formatError_parent (this : Query) (e : object) (conn : bool)
      (parameters : value) (d : driver) (st : dstate d) (se : SemanticError) :
  snd (exec d st (formatError this (Some e) conn parameters)) = Ok se ->
  parent_of se = e.
Proof.
  unfold formatError, uniqueViolation, resolveIndexName, mbind, lift, mret,
    mthrow.
  cbn [no_message_guard pbind truthy or negb].
  repeat first
    [ rewrite exec_call
    | rewrite exec_ret
    | progress cbn [pbind snd fst bind]
    | match goal with
      | |- context [match ?x with _ => _ end] => destruct x
      end ];
    intros E; try discriminate E; injection E as <-; reflexivity.
Qed.

(** C10: in [formatError] the branch that fills in the message
    [No error message found.] is never taken for an error that is not
    [null], because the guard tests [!(err || err.message)]: the guard is
    false for every error object, the error handed on as the parent of the
    translation is the one received, and an error object whose [message] is
    [undefined] makes [formatError] throw a TypeError, before any call on
    the driver, instead of returning an error of the taxonomy. *)
Theorem formatError_fallback_unreachable
        (this : Query) (e : object) (conn : bool) (parameters : value) :
  no_message_guard (Some e) = Ok false /\
  (forall (d : driver) (st : dstate d) (se : SemanticError),
     snd (exec d st (formatError this (Some e) conn parameters)) = Ok se ->
     parent_of se = e) /\
  (get (VObj e) "message" = VUndefined ->
   forall (d : driver) (st : dstate d),
     exec d st (formatError this (Some e) conn parameters)
     = ([], Throw TypeError)).
Proof.
  split; [reflexivity|].
  split; [intros d st se; apply formatError_parent|].
  intros Hmsg d st. unfold formatError, mbind, lift.
  cbn [no_message_guard pbind truthy or negb]. rewrite Hmsg. reflexivity.
Qed.

(** An error without a message makes the translator throw, whatever the
    connection and the parameters are. *)
Lemma formatError_without_message (this : Query) (e : object) (conn : bool)
      (parameters : value) :
  get (VObj e) "message" = VUndefined ->
  formatError this (Some e) conn parameters = Ret (Throw TypeError).
Proof.
  intros Hmsg. unfold formatError, mbind, lift.
  cbn [no_message_guard pbind truthy or negb]. rewrite Hmsg. reflexivity.
Qed.

(** What [reject(this.formatError(err))] leaves, for a translation made
    without a connection: the promise rejected with the translation, or,
    when the translator throws, the promise as it was and the exception. *)
Lemma exec_reject_offline (d : driver) (st : dstate d) (this : Query)
      (e : object) :
  exists r,
    returned (formatError this (Some e) false VUndefined) = Some r
    /\ exec d st (x <~ formatError this (Some e) false VUndefined ;;
                  Ret (rejected None x))
       = ([], match r with
              | Ok se => {| settled := Some (Reject se); uncaught := None |}
              | Throw x => {| settled := None; uncaught := Some x |}
              end).
Proof.
  destruct (formatError_offline this (Some e) VUndefined) as [r Hr].
  destruct (formatError this (Some e) false VUndefined) as [r0|] eqn:E;
    [|discriminate].
  injection Hr as ->. exists r. split; [reflexivity|].
  destruct r; reflexivity.
Qed.



Lemma exec_pbind_ret {A B} (d : driver) (p : prog A) (f : A -> B) :
  forall st : dstate d,
    exec d st (pbind p (fun x => Ret (f x)))
    = (fst (exec d st p), f (snd (exec d st p))).
Proof.
  induction p as [a|c k IH]; intros st; [reflexivity|].
  cbn [pbind]. rewrite !exec_call, IH. reflexivity.
Qed.




Lemma not_undefined_iff (v : value) :
  not_undefined v = true <-> v <> VUndefined.
Proof.
  destruct v; cbn; split; intros; try reflexivity; try discriminate; congruence.
Qed.

Lemma getp_defined (v : value) (k : string) (o : list (string * value)) :
  get v k = VObj o -> getp v k = Ok (VObj o).
Proof.
  destruct v; cbn; intros E; try discriminate E; rewrite <- E; reflexivity.
Qed.

(** The translation of a unique violation, stage by stage. *)
Lemma formatError_unique_exec
      (d : driver) (st : dstate d) (this : Query) (e : object) (conn : bool)
      (parameters : value) (txt whole id schema table : string)
      (row uks : list (string * value)) :
  get (VObj e) "message" = VStr txt ->
  js_match false unique_re txt
  = VArr [VStr whole; VStr id; VStr schema; VStr table] ->
  let catalog :=
    "SELECT INDNAME FROM SYSCAT.INDEXES  WHERE IID = " ++ id
    ++ " AND TABSCHEMA = '" ++ schema ++ "' AND TABNAME = '" ++ table ++ "'" in
  (conn = true ->
   get (r_val (fst (respond d st (QuerySync catalog)))) "0" = VObj row) ->
  let indexName := if conn then get (VObj row) "INDNAME" else VStr EmptyString in
  (truthy (model this) = true -> truthy indexName = true ->
   get (model this) "uniqueKeys" = VObj uks) ->
  let declared :=
    if andb (truthy (model this)) (truthy indexName)
    then get (VObj uks) (to_key indexName)
    else VStr EmptyString in
  let uniqueKey :=
    if andb (negb (truthy declared)) (truthy (get (options this) "fields"))
    then get (get (options this) "fields") (to_key (minus_one (VStr id)))
    else declared in
  exec d st (formatError this (Some e) conn parameters)
  = ((if conn then [QuerySync catalog] else [])%list,
     Ok (UniqueConstraintError
           (violationMessage e uniqueKey)
           (violationItems this (attributeFields this uniqueKey parameters))
           e
           (attributeFields this uniqueKey parameters))).
Proof.
  intros Hmsg Hmatch catalog Hrows indexName Hmodel declared uniqueKey.
  unfold formatError, mbind, lift.
  cbn [no_message_guard pbind truthy or negb]. rewrite Hmsg.
  cbn [match_of pbind]. rewrite Hmatch.
  set (m := VArr [VStr whole; VStr id; VStr schema; VStr table]).
  change (matched_more_than 0 m) with true. cbv iota.
  unfold uniqueViolation, resolveIndexName, mbind, lift, mret.
  change (length_gt 3 m) with true. rewrite andb_true_r.
  change (catalog_query m) with catalog.
  assert (Hkey : forall name,
             indexName = name ->
             resolveUniqueKey this m name = Ok uniqueKey).
  { intros name <-. unfold resolveUniqueKey.
    change (get m "1") with (VStr id).
    destruct (andb (truthy (model this)) (truthy indexName)) eqn:Eb.
    - apply andb_true_iff in Eb as [Em En].
      rewrite (Hmodel Em En). cbn [getp bind].
      subst uniqueKey declared.
      match goal with |- (if ?b then _ else _) = _ => destruct b end;
        reflexivity.
    - cbn [bind]. subst uniqueKey declared.
      match goal with |- (if ?b then _ else _) = _ => destruct b end;
        reflexivity. }
  destruct conn.
  - cbn [pbind]. rewrite exec_call. specialize (Hrows eq_refl).
    rewrite (getp_defined _ _ _ Hrows). cbn [bind getp pbind].
    rewrite (Hkey (get (VObj row) "INDNAME") eq_refl). reflexivity.
  - cbn [pbind]. rewrite (Hkey (VStr EmptyString) eq_refl). reflexivity.
Qed.

(** Translation of a unique violation, in terms of what the pattern
    captured: the error is translated to a UniqueConstraintError that wraps
    it.  On a live connection the index name is read from the catalog with
    one query for the captured id, schema and table, and names a declared
    unique key of the model; without such a key the entry of
    [options.fields] at the captured position is taken.  The value is attributed to the column of
    the key in this order: the value of the where clause for the column
    when it has one, else the current value of the bound instance when that
    is set, else the first positional parameter.  One violation item is
    emitted per attributed field, and the message is the custom message of
    the key when it declares one, else the message of the driver. *)
Lemma unique_violation_attribution
        (d : driver) (st : dstate d) (this : Query) (e : object) (conn : bool)
        (parameters : value) (txt whole id schema table : string)
        (row uks : list (string * value)) :
  get (VObj e) "message" = VStr txt ->
  js_match false unique_re txt
  = VArr [VStr whole; VStr id; VStr schema; VStr table] ->
  let catalog :=
    "SELECT INDNAME FROM SYSCAT.INDEXES  WHERE IID = " ++ id
    ++ " AND TABSCHEMA = '" ++ schema ++ "' AND TABNAME = '" ++ table ++ "'" in
  (conn = true ->
   get (r_val (fst (respond d st (QuerySync catalog)))) "0" = VObj row) ->
  let indexName := if conn then get (VObj row) "INDNAME" else VStr EmptyString in
  (truthy (model this) = true -> truthy indexName = true ->
   get (model this) "uniqueKeys" = VObj uks) ->
  let declared :=
    if andb (truthy (model this)) (truthy indexName)
    then get (VObj uks) (to_key indexName)
    else VStr EmptyString in
  let uniqueKey :=
    if andb (negb (truthy declared)) (truthy (get (options this) "fields"))
    then get (get (options this) "fields") (to_key (minus_one (VStr id)))
    else declared in
  let column := to_key (get uniqueKey "column") in
  let where_ := get (options this) "where" in
  let inWhere := truthy where_ = true /\ get where_ column <> VUndefined in
  let dataValues := get (get (options this) "instance") "dataValues" in
  let onInstance :=
    truthy (get (options this) "instance") = true
    /\ truthy dataValues = true /\ truthy (get dataValues column) = true in
  exists (message : value) (errors : list ValidationErrorItem)
         (fields : list (string * value)),
    exec d st (formatError this (Some e) conn parameters)
    = ((if conn then [QuerySync catalog] else [])%list,
       Ok (UniqueConstraintError message errors e fields))
    /\ (truthy uniqueKey = true -> inWhere ->
        fields = [(column, get where_ column)])
    /\ (truthy uniqueKey = true -> ~ inWhere -> onInstance ->
        fields = [(column, get dataValues column)])
    /\ (truthy uniqueKey = true -> ~ inWhere -> ~ onInstance ->
        truthy parameters = true ->
        fields = [(column, get parameters "0")])
    /\ (truthy uniqueKey = true -> ~ inWhere -> ~ onInstance ->
        truthy parameters = false -> fields = [])
    /\ (truthy uniqueKey = false -> fields = [])
    /\ errors
       = map (fun fv =>
                {| item_message := getUniqueConstraintErrorMessage this (fst fv);
                   item_type := "unique violation";
                   item_path := fst fv;
                   item_value := snd fv;
                   item_instance := instance this;
                   item_validatorKey := "not_unique" |}) fields
    /\ (truthy uniqueKey = true -> truthy (get uniqueKey "msg") = true ->
        message = get uniqueKey "msg")
    /\ (truthy uniqueKey = false \/ truthy (get uniqueKey "msg") = false ->
        message = VStr txt).
Proof.
  intros Hmsg Hmatch catalog Hrows indexName Hmodel declared uniqueKey
         column where_ inWhere dataValues onInstance.
  exists (violationMessage e uniqueKey),
         (violationItems this (attributeFields this uniqueKey parameters)),
         (attributeFields this uniqueKey parameters).
  split.
  { exact (formatError_unique_exec d st this e conn parameters txt whole id
             schema table row uks Hmsg Hmatch Hrows Hmodel). }
  assert (HinWhere :
    andb (truthy where_) (not_undefined (get where_ column)) = true
    <-> inWhere).
  { unfold inWhere. rewrite andb_true_iff, not_undefined_iff. reflexivity. }
  assert (HonInstance :
    andb (truthy (get (options this) "instance"))
         (andb (truthy dataValues) (truthy (get dataValues column))) = true
    <-> onInstance).
  { unfold onInstance. rewrite !andb_true_iff. reflexivity. }
  unfold attributeFields, violationMessage.
  fold where_ column dataValues.
  destruct (andb (truthy where_) (not_undefined (get where_ column))) eqn:Ew;
  destruct (andb (truthy (get (options this) "instance"))
                 (andb (truthy dataValues) (truthy (get dataValues column))))
           eqn:Ei;
  destruct (truthy uniqueKey) eqn:Ek;
  destruct (truthy parameters) eqn:Ep;
  destruct (truthy (get uniqueKey "msg")) eqn:Em;
  cbn [andb];
  repeat split; intros; try reflexivity; try discriminate;
  try rewrite Hmsg; try reflexivity;
  try (exfalso; intuition congruence).
Qed.

End WithAbstractQuery.

(** *** Result handlers *)

(** The example of the specification: [+b-a] gives [b] ascending, then [a]
    descending, under the name of the index. *)
Lemma show_indexes_example :
  handleShowIndexesQuery [indexRow "IX" "+b-a"]
  = [ {| primary := false;
         fields := [indexField "b" "ASC"; indexField "a" "DESC"];
         name := "IX"; tableName := VStr "T"; unique := true;
         type := VStr "REG" |} ].
Proof. reflexivity. Qed.

(** C7: for the sign-prefixed list [+a+b] of two ascending columns the
    normalization does not yield one entry per column: only the first [+]
    and the first [-] are turned into separators, and the result is the
    single entry [a+b], ascending.  Likewise [-a-b-c] gives the single
    entry [a-b-c], descending. *)
Theorem show_indexes_repeated_sign :
  map fields (handleShowIndexesQuery [indexRow "IX" "+a+b"])
  = [[indexField "a+b" "ASC"]]
  /\ map fields (handleShowIndexesQuery [indexRow "IX" "-a-b-c"])
     = [[indexField "a-b-c" "DESC"]].
Proof. split; reflexivity. Qed.

Lemma get_of_falsy (v : value) (k : string) :
  truthy v = false -> truthy (get v k) = false.
Proof.
  destruct v as [| |b|n|s|items|props]; cbn [truthy]; intros E;
    try reflexivity; try discriminate E.
  destruct s as [|c s]; [|discriminate E].
  cbn [get]. destruct (k =? "length"); [reflexivity|].
  destruct (array_index k) as [[|i]|]; reflexivity.
Qed.

(** [results && results[0] && results[0][k]] is non-empty exactly when the
    field [k] of the first row is, and is that field then. *)
Lemma firstRowField_candidate (results : value) (k : string) :
  truthy (firstRowField results k) = truthy (get (get results "0") k)
  /\ (truthy (firstRowField results k) = true ->
      firstRowField results k = get (get results "0") k).
Proof.
  unfold firstRowField.
  destruct (truthy results) eqn:Er.
  - destruct (truthy (get results "0")) eqn:E0.
    + split; reflexivity.
    + rewrite E0, (get_of_falsy _ k E0). split; [reflexivity|discriminate].
  - rewrite Er, (get_of_falsy _ k (get_of_falsy _ "0" Er)).
    split; [reflexivity|discriminate].
Qed.

Lemma guarded_get_candidate (v : value) (k : string) :
  truthy (if truthy v then get v k else v) = truthy (get v k)
  /\ (truthy (if truthy v then get v k else v) = true ->
      (if truthy v then get v k else v) = get v k).
Proof.
  destruct (truthy v) eqn:E.
  - split; reflexivity.
  - rewrite E, (get_of_falsy _ k E). split; [reflexivity|discriminate].
Qed.

(** With no candidate before it, the chain leaves what its last operand
    gave. *)
Lemma insertId_last_operand (results metaData ai alias : value) :
  truthy (get (get results "0") "id") = false ->
  truthy (get metaData "id") = false ->
  truthy (get (get results "0") (to_key ai)) = false ->
  insertId results metaData ai alias
  = if truthy alias then firstRowField results (to_key alias) else alias.
Proof.
  intros H1 H2 H3. unfold insertId, getInsertIdField.
  destruct (firstRowField_candidate results "id") as [T1 _].
  destruct (guarded_get_candidate metaData "id") as [T2 _].
  destruct (firstRowField_candidate results (to_key ai)) as [T3 _].
  rewrite H1 in T1. rewrite H2 in T2. rewrite H3 in T3.
  unfold or. cbn [truthy]. cbv zeta iota. rewrite T1, T2, T3. reflexivity.
Qed.

(** C8, as amended: with an instance bound, the id assigned to the
    auto-increment attribute is the first non-empty candidate among the [id]
    field of the first row, the [id] field of the metadata, the field of
    the first row under the name of the auto-increment attribute, and the
    field of the first row under the alias of that attribute.  When none is
    non-empty no error is raised and the attribute receives the empty value
    the last operand of the chain gave: the alias itself when it is empty,
    which is [null] when the attribute has no alias, and else what
    [results && results[0] && results[0][alias]] gave, which is [undefined]
    for a missing row or a missing field. *)
Theorem insert_id_first_candidate
        (this : Query) (inst : object) (results metaData ai alias : value) :
  instance this = Some inst ->
  getp (model this) "autoIncrementAttribute" = Ok ai ->
  autoIncrementAttributeAlias (model this) ai = Ok alias ->
  let c1 := get (get results "0") "id" in
  let c2 := get metaData "id" in
  let c3 := get (get results "0") (to_key ai) in
  let c4 := get (get results "0") (to_key alias) in
  exists id : value,
    handleInsertQuery this results metaData
    = Ok (Some (set_prop (to_key ai) id inst))
    /\ (truthy c1 = true -> id = c1)
    /\ (truthy c1 = false -> truthy c2 = true -> id = c2)
    /\ (truthy c1 = false -> truthy c2 = false -> truthy c3 = true ->
        id = c3)
    /\ (truthy c1 = false -> truthy c2 = false -> truthy c3 = false ->
        truthy alias = true -> truthy c4 = true -> id = c4)
    /\ (truthy c1 = false -> truthy c2 = false -> truthy c3 = false ->
        truthy alias = false \/ truthy c4 = false ->
        truthy id = false
        /\ id = (if truthy alias
                 then if truthy results
                      then if truthy (get results "0") then c4
                           else get results "0"
                      else results
                 else alias)
        /\ (alias = VNull -> id = VNull)
        /\ (truthy alias = true -> results = VArr [] -> id = VUndefined)
        /\ (truthy alias = true ->
            forall row rest,
              results = VArr (VObj row :: rest) ->
              lookup (to_key alias) row = None ->
              id = VUndefined)).
Proof.
  intros Hinst Hai Halias c1 c2 c3 c4.
  exists (insertId results metaData ai alias).
  split.
  { unfold handleInsertQuery. rewrite Hinst, Hai. cbn [bind].
    rewrite Halias. reflexivity. }
  assert (Hlast : truthy c1 = false -> truthy c2 = false ->
                  truthy c3 = false ->
                  insertId results metaData ai alias
                  = if truthy alias
                    then if truthy results
                         then if truthy (get results "0") then c4
                              else get results "0"
                         else results
                    else alias)
    by exact (insertId_last_operand results metaData ai alias).
  assert (Hchain :
    (truthy c1 = true -> insertId results metaData ai alias = c1)
    /\ (truthy c1 = false -> truthy c2 = true ->
        insertId results metaData ai alias = c2)
    /\ (truthy c1 = false -> truthy c2 = false -> truthy c3 = true ->
        insertId results metaData ai alias = c3)
    /\ (truthy c1 = false -> truthy c2 = false -> truthy c3 = false ->
        truthy alias = true -> truthy c4 = true ->
        insertId results metaData ai alias = c4)
    /\ (truthy c1 = false -> truthy c2 = false -> truthy c3 = false ->
        truthy alias = false \/ truthy c4 = false ->
        truthy (insertId results metaData ai alias) = false
        /\ (alias = VNull -> insertId results metaData ai alias = VNull))).
  { clear Hlast. unfold insertId, getInsertIdField.
    destruct (firstRowField_candidate results "id") as [T1 E1].
    destruct (guarded_get_candidate metaData "id") as [T2 E2].
    destruct (firstRowField_candidate results (to_key ai)) as [T3 E3].
    destruct (firstRowField_candidate results (to_key alias)) as [T4 E4].
    subst c1 c2 c3 c4.
    set (f1 := firstRowField results "id") in *.
    set (f2 := if truthy metaData then get metaData "id" else metaData) in *.
    set (f3 := firstRowField results (to_key ai)) in *.
    set (f4 := firstRowField results (to_key alias)) in *.
    set (c1 := get (get results "0") "id") in *.
    set (c2 := get metaData "id") in *.
    set (c3 := get (get results "0") (to_key ai)) in *.
    set (c4 := get (get results "0") (to_key alias)) in *.
    clearbody f1 f2 f3 f4 c1 c2 c3 c4.
    unfold or. cbn [truthy]. cbv zeta iota.
    destruct (truthy f1) eqn:B1; cbv iota; rewrite ?B1;
      [repeat split; intros; try congruence; auto|].
    destruct (truthy f2) eqn:B2; cbv iota; rewrite ?B2;
      [repeat split; intros; try congruence; auto|].
    destruct (truthy f3) eqn:B3; cbv iota; rewrite ?B3;
      [repeat split; intros; try congruence; auto|].
    destruct (truthy alias) eqn:Ba; cbv iota.
    - destruct (truthy f4) eqn:B4; cbv iota; rewrite ?B4;
        repeat split; intros; try congruence; auto;
        try (subst alias; discriminate Ba).
      match goal with H : _ \/ _ |- _ => destruct H; congruence end.
    - rewrite ?Ba. repeat split; intros; try congruence; auto. }
  destruct Hchain as (G1 & G2 & G3 & G4 & G5).
  split; [exact G1|]. split; [exact G2|]. split; [exact G3|].
  split; [exact G4|].
  intros F1 F2 F3 Hnone. destruct (G5 F1 F2 F3 Hnone) as [Gf Gn].
  split; [exact Gf|]. split; [exact (Hlast F1 F2 F3)|].
  split; [exact Gn|]. split.
  - intros Ha ->. rewrite (Hlast F1 F2 F3), Ha. reflexivity.
  - intros Ha row rest -> Hmiss. rewrite (Hlast F1 F2 F3), Ha.
    subst c4.
    change (get (VArr (VObj row :: rest)) "0") with (VObj row).
    cbn [truthy get]. rewrite Hmiss. reflexivity.
Qed.


(** The example of the specification: index id 2 of the table [S.T], a
    unique key on the column [email], and a where clause with the
    address. *)
Lemma unique_violation_example :
  exists (message : value) (errors : list ValidationErrorItem),
    exec emailCatalog tt
         (formatError emailQuery
                      (Some [("message", VStr (duplicateMessage "2"))])
                      true VUndefined)
    = ([QuerySync (catalogQueryFor "2")],
       Ok (UniqueConstraintError
             message errors
             [("message", VStr (duplicateMessage "2"))]
             [("email", VStr "x@y.com")])).
Proof.
  destruct (unique_violation_attribution
              emailCatalog tt emailQuery
              [("message", VStr (duplicateMessage "2"))] true VUndefined
              (duplicateMessage "2") (duplicateMatched "2") "2" "S" "T"
              [("INDNAME", VStr "users_email_uk")] emailKeys)
    as (message & errors & fields & Hexec & Hwhere & _).
  - reflexivity.
  - vm_compute. reflexivity.
  - intros _. reflexivity.
  - intros _ _. reflexivity.
  - exists message, errors.
    rewrite Hwhere in Hexec;
      [exact Hexec | reflexivity | split; [reflexivity | discriminate]].
Qed.

(** C1: for the index id 12 the pattern captures the last digit only, so
    the catalog is asked for the index of id 2 of the table.  With the index
    [users_name_uk] under id 2 and [users_email_uk] under id 12, the
    violation of the key on [email] is attributed to the column [name] and
    its value; the message for the index id 2 is attributed to [name] as
    well, so the two violations cannot be told apart.  With no index of id
    2 in the catalog the translator throws a TypeError. *)
Theorem unique_violation_two_digit_index :
  js_match false unique_re (duplicateMessage "12")
  = VArr [VStr (duplicateMatched "12"); VStr "2"; VStr "S"; VStr "T"]
  /\ exec twoIndexCatalog tt
          (formatError twoKeyQuery
                       (Some [("message", VStr (duplicateMessage "12"))])
                       true VUndefined)
     = ([QuerySync (catalogQueryFor "2")],
        Ok (UniqueConstraintError
              (VStr (duplicateMessage "12"))
              [violationOf twoKeyQuery "name" (VStr "n")]
              [("message", VStr (duplicateMessage "12"))]
              [("name", VStr "n")]))
  /\ exec twoIndexCatalog tt
          (formatError twoKeyQuery
                       (Some [("message", VStr (duplicateMessage "2"))])
                       true VUndefined)
     = ([QuerySync (catalogQueryFor "2")],
        Ok (UniqueConstraintError
              (VStr (duplicateMessage "2"))
              [violationOf twoKeyQuery "name" (VStr "n")]
              [("message", VStr (duplicateMessage "2"))]
              [("name", VStr "n")]))
  /\ exec (constantDriver (fun _ => ok (VArr []))) tt
          (formatError twoKeyQuery
                       (Some [("message", VStr (duplicateMessage "12"))])
                       true VUndefined)
     = ([QuerySync (catalogQueryFor "2")], Throw TypeError).
Proof. repeat split; vm_compute; reflexivity. Qed.

Lemma formatError_fallback_unreachable_witness :
  exec (constantDriver (fun _ => ok VUndefined)) tt
       (formatError savepointQuery (Some [("code", VNum 803)]) true VUndefined)
  = ([], Throw TypeError).
Proof.
  apply (formatError_fallback_unreachable
           savepointQuery [("code", VNum 803)] true VUndefined).
  reflexivity.
Defined.



(** C8: with an alias declared and no candidate found, the attribute is set
    to [undefined], not to [null]. *)
Lemma insert_id_counterexample : ~ insert_id_as_specified.
Proof.
  intros Hspec.
  specialize (Hspec boundInsert [("name", VStr "n")] (VArr []) VUndefined
                    (VStr "id") (VStr "id")
                    eq_refl eq_refl eq_refl eq_refl eq_refl eq_refl eq_refl).
  vm_compute in Hspec. discriminate Hspec.
Qed.

Lemma insert_id_first_candidate_witness :
  handleInsertQuery boundInsert (VArr [VObj [("id", VNum 7)]]) VUndefined
  = Ok (Some [("name", VStr "n"); ("id", VNum 7)]).
Proof.
  destruct (insert_id_first_candidate
              boundInsert [("name", VStr "n")]
              (VArr [VObj [("id", VNum 7)]]) VUndefined
              (VStr "id") (VStr "id") eq_refl eq_refl eq_refl)
    as (id & Hq & H1 & _).
  rewrite Hq, (H1 eq_refl). reflexivity.
Defined.


End QueryProperties.

(* ================================================================== *)
(** ** Properties of the SQL builders *)

Module GeneratorProperties.

Import Str QueryGenerator GeneratorExamples.

Section WithAbstractGenerator.
Context `{AbstractQueryGenerator}.

Lemma invalid_clause (clause : list (string * value)) :
  Exists (fun kv => truthy (snd kv) = false) clause ->
  validClause clause = false.
Proof.
  unfold validClause. induction 1 as [kv rest Hkv | kv rest _ IH]; cbn [forallb].
  - rewrite Hkv. reflexivity.
  - rewrite IH. apply andb_false_r.
Qed.

Lemma no_clause_survives (where_or : list (list (string * value))) :
  Forall (fun clause => Exists (fun kv => truthy (snd kv) = false) clause)
         where_or ->
  filter validClause where_or = [].
Proof.
  induction 1 as [|clause rest Hc _ IH]; cbn [filter]; [reflexivity|].
  rewrite (invalid_clause _ Hc). exact IH.
Qed.

(** C3: [upsertQuery] throws its error, and returns no statement, whenever
    every disjunct of the filter has a component that is [null] or missing,
    so that no clause is left after the filter on the disjuncts. *)
Theorem upsert_without_usable_clause
        (tableName : value) (insertValues updateValues : list (string * value))
        (where_or : list (list (string * value))) (model : Model) :
  Forall (fun clause =>
            Exists (fun kv => snd kv = VNull \/ snd kv = VUndefined) clause)
         where_or ->
  filter validClause where_or = []
  /\ upsertQuery tableName insertValues updateValues where_or model
     = Throw upsertError.
Proof.
  intros Hnull.
  assert (Hnone : filter validClause where_or = []).
  { apply no_clause_survives.
    eapply Forall_impl; [|exact Hnull].
    intros clause Hc. eapply Exists_impl; [|exact Hc].
    intros kv [-> | ->]; reflexivity. }
  split; [exact Hnone|].
  unfold upsertQuery. rewrite Hnone. reflexivity.
Qed.

Lemma append_assoc (a b c : string) : (a ++ b) ++ c = a ++ (b ++ c).
Proof.
  induction a as [|x a IH]; [reflexivity|]. cbn [String.append].
  rewrite IH. reflexivity.
Qed.




















(** C5: without a row limit [updateQuery] returns the statement of the
    base layer with its text wrapped as
    [SELECT * FROM FINAL TABLE (...)]; with a row limit it builds instead,
    inside the same wrapper, an UPDATE whose target is the derived table
    [SELECT * FROM <table> <where> FETCH NEXT <limit> ROWS ONLY].  The limit
    is the one of the options of the call, else the one of the generator. *)
Theorem update_wraps_or_limits
        (g : Generator) (tableName attrValueHash where_ : value)
        (options0 : option Options) (attributes : value) :
  let opts := defaults (match options0 with
                        | Some o => o
                        | None => noOptions
                        end) (options g) in
  let base := super_updateQuery tableName attrValueHash where_ options0
                                attributes in
  (truthy (limit opts) = false ->
   updateQuery g tableName attrValueHash where_ options0 attributes
   = Ok {| query := "SELECT * FROM FINAL TABLE (" ++ query base ++ ")";
           bind := bind base |})
  /\ (truthy (limit opts) = true ->
      forall attrMap, modelAttributeMap attributes = Ok attrMap ->
      exists (bp : binder) (bind0 bind1 : list value) (assignments : string),
        updateQuery g tableName attrValueHash where_ options0 attributes
        = Ok {| query :=
                  "SELECT * FROM FINAL TABLE (UPDATE (SELECT * FROM "
                  ++ quoteTable tableName ++ " "
                  ++ fst (whereQuery where_ opts bp bind0)
                  ++ " FETCH NEXT " ++ escape (limit opts) VUndefined VUndefined
                  ++ " ROWS ONLY) SET " ++ assignments ++ ")";
                bind := Some bind1 |}).
Proof.
  intros opts base. split.
  - intros Hno. unfold updateQuery. fold opts base. rewrite Hno. reflexivity.
  - intros Hlimit attrMap Hmap. unfold updateQuery. fold opts base.
    rewrite Hlimit, Hmap. cbn [negb Js.bind].
    set (bp := match bindParam opts with
               | BindFn f => lift_binder f
               | _ => defaultBindParam
               end).
    destruct (fold_left (updateStep opts bp attrMap)
                        (removeNullValuesFromHash attrValueHash (omitNull opts)
                                                  (Some opts))
                        ([], [])) as [values bind0] eqn:Efold.
    destruct (whereQuery where_ opts bp bind0) as [fragment bind1] eqn:Ew.
    exists bp, bind0, bind1, (join "," values).
    rewrite Ew. cbn [fst]. unfold finalTable, limitedUpdate.
    rewrite !append_assoc. reflexivity.
Qed.

Lemma increment_below (n : Z) : (n < max_safe)%Z -> increment n = (n + 1)%Z.
Proof.
  intros Hn. unfold increment.
  destruct (Z.ltb_spec n max_safe); [reflexivity|lia].
Qed.

(** The replacements of an insert do not depend on the counter. *)
Lemma insertParts_counter (g : Generator) (n : Z)
      (valueHash modelAttributes : value) (options0 : option Options) :
  insertParts (with_autoGenValue g n) valueHash modelAttributes options0
  = insertParts g valueHash modelAttributes options0.
Proof. reflexivity. Qed.

(** C6: with a dialect that supports an insert without columns, a build
    that is left with no column produces the statement
    [SELECT * FROM FINAL TABLE(INSERT<ignore> INTO <table> VALUES (<n>)<on duplicate>);]
    whose VALUES clause holds the one value [n], the counter of the
    generator; [<ignore>] is the dialect's text for ignored duplicates when
    the options ask for it and [<on duplicate>] is the
    [ON DUPLICATE KEY] text when the dialect supports it and the options
    give one, both empty otherwise.  The build leaves the counter at
    [n + 1], and the next such build of the same generator produces the
    same statement with the one value [n + 1], which is larger.  The
    counter is a number of the language, and the statement is for counters
    below 2^53, where adding one is exact. *)
Theorem insert_without_columns_uses_counter
        (g : Generator) (table valueHash modelAttributes : value)
        (options0 : option Options) (parts : InsertParts) :
  VALUES_empty (supports g) = true ->
  (autoGenValue g < max_safe)%Z ->
  insertParts g valueHash modelAttributes options0 = Ok parts ->
  join "," (ip_fields parts) = EmptyString ->
  let text (n : Z) (t : value) (p : InsertParts) : string :=
    "SELECT * FROM FINAL TABLE(INSERT"
    ++ (if truthy (ignoreDuplicates (ip_options p))
        then inserts_ignoreDuplicates (supports g)
        else EmptyString)
    ++ " INTO " ++ quoteTable t
    ++ " VALUES (" ++ Z_to_string n ++ ")"
    ++ (if andb (ON_DUPLICATE_KEY (supports g))
                (truthy (onDuplicate (ip_options p)))
        then " ON DUPLICATE KEY " ++ to_key (onDuplicate (ip_options p))
        else EmptyString)
    ++ ");" in
  let binds (p : InsertParts) : option (list value) :=
    match bindParam (ip_options p) with
    | BindFalse => None
    | _ => Some (ip_bind p)
    end in
  exists g' : Generator,
    insertQuery g table valueHash modelAttributes options0
    = Ok ({| query := text (autoGenValue g) table parts;
             bind := binds parts |}, g')
    /\ autoGenValue g' = (autoGenValue g + 1)%Z
    /\ (autoGenValue g < autoGenValue g')%Z
    /\ options g' = options g
    /\ supports g' = supports g
    /\ prependSearchPath g' = prependSearchPath g
    /\ forall (table2 valueHash2 modelAttributes2 : value)
              (options2 : option Options) (parts2 : InsertParts),
         insertParts g' valueHash2 modelAttributes2 options2 = Ok parts2 ->
         join "," (ip_fields parts2) = EmptyString ->
         exists g'' : Generator,
           insertQuery g' table2 valueHash2 modelAttributes2 options2
           = Ok ({| query := text (autoGenValue g + 1)%Z table2 parts2;
                    bind := binds parts2 |}, g'').
Proof.
  intros Hsupp Hsafe Hparts Hnone. cbv zeta.
  assert (Hbuild : forall (g0 : Generator) t vh ma o0 p0,
             VALUES_empty (supports g0) = true ->
             insertParts g0 vh ma o0 = Ok p0 ->
             join "," (ip_fields p0) = EmptyString ->
             insertQuery g0 t vh ma o0
             = Ok ({| query :=
                        "SELECT * FROM FINAL TABLE(INSERT"
                        ++ (if truthy (ignoreDuplicates (ip_options p0))
                            then inserts_ignoreDuplicates (supports g0)
                            else EmptyString)
                        ++ " INTO " ++ quoteTable t
                        ++ " VALUES (" ++ Z_to_string (autoGenValue g0) ++ ")"
                        ++ (if andb (ON_DUPLICATE_KEY (supports g0))
                                    (truthy (onDuplicate (ip_options p0)))
                            then " ON DUPLICATE KEY "
                                 ++ to_key (onDuplicate (ip_options p0))
                            else EmptyString)
                        ++ ");";
                      bind := match bindParam (ip_options p0) with
                              | BindFalse => None
                              | _ => Some (ip_bind p0)
                              end |},
                   with_autoGenValue g0 (increment (autoGenValue g0)))).
  { intros g0 t vh ma o0 p0 Hs Hp Hn. unfold insertQuery.
    rewrite Hp. cbn [Js.bind]. rewrite Hn. cbn [String.eqb negb].
    unfold emptyQuery, emptyValues, afterEmptyValues, onDuplicateSuffix.
    rewrite Hs. rewrite !append_assoc.
    destruct (bindParam (ip_options p0)); reflexivity. }
  exists (with_autoGenValue g (increment (autoGenValue g))).
  rewrite (Hbuild g table valueHash modelAttributes options0 parts
                  Hsupp Hparts Hnone).
  rewrite (increment_below _ Hsafe).
  cbn [autoGenValue options supports prependSearchPath with_autoGenValue].
  split; [reflexivity|]. split; [reflexivity|]. split; [lia|].
  split; [reflexivity|]. split; [reflexivity|]. split; [reflexivity|].
  intros table2 valueHash2 modelAttributes2 options2 parts2 Hparts2 Hnone2.
  eexists.
  exact (Hbuild (with_autoGenValue g (autoGenValue g + 1)) table2
                valueHash2 modelAttributes2 options2 parts2
                Hsupp Hparts2 Hnone2).
Qed.

End WithAbstractGenerator.

Lemma upsert_without_usable_clause_witness :
  upsertQuery (VStr "users")
              [("id", VNull); ("email", VStr "x@y.com")]
              [("email", VStr "x@y.com")]
              [[("id", VNull)]; [("email", VStr "x@y.com"); ("name", VUndefined)]]
              userModel
  = Throw upsertError.
Proof.
  apply (upsert_without_usable_clause
           (VStr "users") [("id", VNull); ("email", VStr "x@y.com")]
           [("email", VStr "x@y.com")]
           [[("id", VNull)]; [("email", VStr "x@y.com"); ("name", VUndefined)]]
           userModel).
  apply Forall_cons; [apply Exists_cons_hd; left; reflexivity|].
  apply Forall_cons; [|apply Forall_nil].
  apply Exists_cons_tl, Exists_cons_hd. right. reflexivity.
Defined.


Lemma update_wraps_or_limits_witness :
  exists (bp : binder) (bind0 bind1 : list value) (assignments : string),
    updateQuery freshGenerator (VStr "users") (VObj [("name", VStr "n")])
                (VObj []) (Some (limitOf 5)) VUndefined
    = Ok {| query :=
              "SELECT * FROM FINAL TABLE (UPDATE (SELECT * FROM "
              ++ dq ++ "users" ++ dq
              ++ " WHERE 1=1 FETCH NEXT 5 ROWS ONLY) SET " ++ assignments
              ++ ")";
            bind := Some bind1 |}.
Proof.
  destruct (proj2 (update_wraps_or_limits
                     freshGenerator (VStr "users") (VObj [("name", VStr "n")])
                     (VObj []) (Some (limitOf 5)) VUndefined)
                  eq_refl [] eq_refl)
    as (bp & bind0 & bind1 & assignments & Hq).
  exists bp, bind0, bind1, assignments. rewrite Hq. reflexivity.
Defined.

Lemma insert_without_columns_uses_counter_witness :
  exists g' : Generator,
    insertQuery freshGenerator (VStr "users") (VObj []) VUndefined None
    = Ok ({| query := "SELECT * FROM FINAL TABLE(INSERT INTO " ++ dq ++ "users"
                      ++ dq ++ " VALUES (1));";
             bind := Some [] |}, g')
    /\ autoGenValue g' = 2%Z.
Proof.
  destruct (insert_without_columns_uses_counter
              freshGenerator (VStr "users") (VObj []) VUndefined None
              {| ip_options := noOptions; ip_fields := []; ip_values := [];
                 ip_bind := [] |})
    as (g' & Hq & Hn & _).
  - reflexivity.
  - reflexivity.
  - reflexivity.
  - reflexivity.
  - exists g'. split; [exact Hq | exact Hn].
Defined.

End GeneratorProperties.

(* ================================================================== *)
(** ** Further properties of the error translator *)

Module TranslatorProperties.

Import Str Regex Query Examples Specified QueryProperties.

#[local] Opaque js_match.

(** *** Literals and occurrences *)

Lemma lit_exact (p s rest : string) :
  lit false p s = Some rest -> s = p ++ rest.
Proof.
  revert s. induction p as [|a p IH]; intros s E; cbn [lit] in E.
  - injection E as ->. reflexivity.
  - destruct s as [|b s]; [discriminate E|].
    unfold chr_eq in E. destruct (Ascii.eqb_spec a b) as [<-|]; [|discriminate E].
    cbn [String.append]. f_equal. apply IH, E.
Qed.

Lemma lit_append (p x s : string) :
  lit false p s = None -> lit false (p ++ x) s = None.
Proof.
  revert s. induction p as [|a p IH]; intros s E; cbn [lit] in E;
    [discriminate E|].
  cbn [String.append lit]. destruct s as [|b s]; [reflexivity|].
  destruct (chr_eq false a b); [apply IH, E|reflexivity].
Qed.

Lemma substring_prefix (p rest : string) :
  substring 0 (String.length p) (p ++ rest) = p.
Proof.
  induction p as [|a p IH]; cbn; [destruct rest; reflexivity|].
  rewrite IH. reflexivity.
Qed.

Lemma lit_of_substring (p s : string) :
  substring 0 (String.length p) s = p -> exists rest, lit false p s = Some rest.
Proof.
  revert s. induction p as [|a p IH]; intros s E; cbn [lit].
  - eexists; reflexivity.
  - destruct s as [|b s]; cbn in E; [discriminate E|].
    injection E as -> E. unfold chr_eq. rewrite Ascii.eqb_refl.
    apply IH, E.
Qed.

(** A pattern that opens with the literal [p]. *)
Inductive opens_with (p : string) : regex -> Prop :=
| opens_lit (x : string) : opens_with p (Lit (p ++ x))
| opens_seq (r1 r2 : regex) : opens_with p r1 -> opens_with p (Seq r1 r2).

Lemma run_opens {X} (p : string) (r : regex) :
  opens_with p r ->
  forall (s : string) (caps : captures) (k : @cont X),
    lit false p s = None -> run false r s caps k = None.
Proof.
  induction 1 as [x | r1 r2 _ IH]; intros s caps k E; cbn [run].
  - rewrite (lit_append p x s E). reflexivity.
  - apply IH, E.
Qed.

Lemma exec_from_absent (p : string) (r : regex) :
  opens_with p r ->
  forall s : string,
    (forall m, substring m (String.length p) s <> p) ->
    exec_from false r s = None.
Proof.
  intros Hr s. induction s as [|c s IH]; intros Hno; cbn [exec_from].
  - rewrite (run_opens p r Hr); [reflexivity|].
    destruct (lit false p EmptyString) as [rest|] eqn:E; [|reflexivity].
    apply lit_exact in E. exfalso. apply (Hno 0). rewrite E.
    apply substring_prefix.
  - rewrite (run_opens p r Hr).
    + apply IH. intros m. exact (Hno (S m)).
    + destruct (lit false p (String c s)) as [rest|] eqn:E; [|reflexivity].
      apply lit_exact in E. exfalso. apply (Hno 0). rewrite E.
      apply substring_prefix.
Qed.

Lemma carries_false (txt code : string) :
  carries txt code = false ->
  code <> EmptyString ->
  forall m, substring m (String.length code) txt <> code.
Proof.
  unfold carries, search. intros E Hcode m.
  destruct (String.index 0 code txt) as [i|] eqn:Ei.
  - exfalso. destruct (Z.eqb_spec (Z.of_nat i) (-1)); [lia|discriminate E].
  - apply (index_correct3 0 m code txt Ei Hcode). lia.
Qed.

(** A message that does not carry [code] is not matched by a pattern that
    opens with it. *)
Lemma no_match_without_code (txt code : string) (r : regex) :
  opens_with code r ->
  code <> EmptyString ->
  carries txt code = false ->
  js_match false r txt = VNull.
Proof.
  intros Hr Hcode Hc.
  assert (E : exec_from false r txt = None)
    by exact (exec_from_absent code r Hr txt (carries_false txt code Hc Hcode)).
  Transparent js_match. unfold js_match. rewrite E. reflexivity.
  Opaque js_match.
Qed.

Lemma exec_from_present (p s : string) :
  forall m, substring m (String.length p) s = p ->
            exists whole, exec_from false (Lit p) s = Some (whole, []).
Proof.
  induction s as [|c s IH]; intros m E; cbn [exec_from run].
  - assert (Hempty : forall a b, substring a b EmptyString = EmptyString)
      by (intros [|a] [|b]; reflexivity).
    assert (E0 : substring 0 (String.length p) EmptyString = p)
      by (rewrite Hempty in *; exact E).
    destruct (lit_of_substring p _ E0) as [rest ->]. eexists; reflexivity.
  - destruct (lit false p (String c s)) as [rest|] eqn:El;
      [eexists; reflexivity|].
    destruct m as [|m].
    + destruct (lit_of_substring p _ E) as [rest Er]. congruence.
    + apply (IH m). exact E.
Qed.

Lemma carries_true (txt code : string) :
  carries txt code = true ->
  exists m, substring m (String.length code) txt = code.
Proof.
  unfold carries, search. intros E.
  destruct (String.index 0 code txt) as [i|] eqn:Ei; [|discriminate E].
  exists i. exact (index_correct1 0 i code txt Ei).
Qed.

(** A message that carries [code] is matched by the pattern [code], without
    groups. *)
Lemma match_with_code (txt code : string) :
  carries txt code = true ->
  exists whole, js_match false (Lit code) txt = VArr [VStr whole].
Proof.
  intros Hc. destruct (carries_true txt code Hc) as [m Hm].
  destruct (exec_from_present code txt m Hm) as [whole E].
  exists whole.
  Transparent js_match. unfold js_match. rewrite E. reflexivity.
  Opaque js_match.
Qed.

Lemma unique_re_opens : opens_with "SQL0803N" unique_re.
Proof. apply opens_seq. exact (opens_lit "SQL0803N" _). Qed.

Lemma restrict_re_opens : opens_with "SQL0532N" restrict_re.
Proof. apply opens_seq. exact (opens_lit "SQL0532N" _). Qed.

Lemma undefined_name_re_opens : opens_with "SQL0204N" undefined_name_re.
Proof. apply opens_seq. exact (opens_lit "SQL0204N" _). Qed.

Lemma sql0530_re_opens : opens_with "SQL0530N" sql0530_re.
Proof. exact (opens_lit "SQL0530N" EmptyString). Qed.

Lemma sql0531_re_opens : opens_with "SQL0531N" sql0531_re.
Proof. exact (opens_lit "SQL0531N" EmptyString). Qed.

Lemma code_not_empty (c : ascii) (s : string) : String c s <> EmptyString.
Proof. discriminate. Qed.

Section WithAbstractQuery.
Context `{AbstractQuery}.

(** The translator without a match of the unique-violation pattern: the
    three foreign-key patterns are tried next. *)
Lemma formatError_after_unique
      (this : Query) (e : object) (conn : bool) (parameters : value)
      (txt : string) :
  get (VObj e) "message" = VStr txt ->
  carries txt "SQL0803N" = false ->
  formatError this (Some e) conn parameters
  = (let m1 := js_match false restrict_re txt in
     let m2 := if truthy m1 then m1 else js_match false sql0530_re txt in
     let m3 := if truthy m2 then m2 else js_match false sql0531_re txt in
     if matched_more_than 0 m3 then
       mret (ForeignKeyConstraintError VNull (get m3 "1") e)
     else
       let m4 := js_match false undefined_name_re txt in
       if matched_more_than 1 m4 then
         table <-- lift (match_of true table_re (get (VObj e) "sql")) ;;;
         mret (UnknownConstraintError
                 (get m4 "0") (get m4 "1")
                 (if truthy table then get table "1" else VUndefined) e)
       else mret (DatabaseError e)).
Proof.
  intros Hmsg H803. unfold formatError, mbind, lift, mret.
  cbn [no_message_guard pbind truthy or negb]. rewrite Hmsg.
  cbn [match_of pbind].
  rewrite (no_match_without_code txt "SQL0803N" unique_re unique_re_opens
             (code_not_empty _ _) H803).
  cbn [matched_more_than truthy andb pbind].
  cbv zeta.
  destruct (truthy (js_match false restrict_re txt)) eqn:E1;
    cbn [pbind]; rewrite ?E1; cbn [pbind];
    [|destruct (truthy (js_match false sql0530_re txt)) eqn:E2;
      cbn [pbind]; rewrite ?E2; cbn [pbind]];
    match goal with
    | |- context [matched_more_than 0 ?m] =>
        destruct (matched_more_than 0 m)
    end; reflexivity.
Qed.

(** X1: an error whose message carries none of the codes SQL0803N,
    SQL0532N, SQL0530N, SQL0531N and SQL0204N is translated to a
    DatabaseError that wraps it as it came; the driver is not called and
    nothing is thrown. *)
Theorem other_errors_are_database_errors
        (d : driver) (st : dstate d) (this : Query) (e : object) (conn : bool)
        (parameters : value) (txt : string) :
  get (VObj e) "message" = VStr txt ->
  carries txt "SQL0803N" = false ->
  carries txt "SQL0532N" = false ->
  carries txt "SQL0530N" = false ->
  carries txt "SQL0531N" = false ->
  carries txt "SQL0204N" = false ->
  exec d st (formatError this (Some e) conn parameters)
  = ([], Ok (DatabaseError e)).
Proof.
  intros Hmsg H803 H532 H530 H531 H204.
  rewrite (formatError_after_unique this e conn parameters txt Hmsg H803).
  rewrite (no_match_without_code txt "SQL0532N" restrict_re restrict_re_opens
             (code_not_empty _ _) H532).
  rewrite (no_match_without_code txt "SQL0530N" sql0530_re sql0530_re_opens
             (code_not_empty _ _) H530).
  rewrite (no_match_without_code txt "SQL0531N" sql0531_re sql0531_re_opens
             (code_not_empty _ _) H531).
  rewrite (no_match_without_code txt "SQL0204N" undefined_name_re
             undefined_name_re_opens (code_not_empty _ _) H204).
  reflexivity.
Qed.

(** X2: an error whose message carries SQL0530N or SQL0531N, and neither
    SQL0803N nor SQL0532N, is translated to a ForeignKeyConstraintError with
    [fields] null and no index name; a message matching the SQL0532N
    pattern gives the error with the relationship it names as index.  The
    driver is not called. *)
Theorem foreign_key_errors
        (d : driver) (st : dstate d) (this : Query) (e : object) (conn : bool)
        (parameters : value) (txt : string) :
  get (VObj e) "message" = VStr txt ->
  carries txt "SQL0803N" = false ->
  (carries txt "SQL0532N" = false ->
   carries txt "SQL0530N" = true \/ carries txt "SQL0531N" = true ->
   exec d st (formatError this (Some e) conn parameters)
   = ([], Ok (ForeignKeyConstraintError VNull VUndefined e)))
  /\ (forall whole relationship : string,
        js_match false restrict_re txt = VArr [VStr whole; VStr relationship] ->
        exec d st (formatError this (Some e) conn parameters)
        = ([], Ok (ForeignKeyConstraintError VNull (VStr relationship) e))).
Proof.
  intros Hmsg H803.
  rewrite (formatError_after_unique this e conn parameters txt Hmsg H803).
  split.
  - intros H532 Hfk.
    rewrite (no_match_without_code txt "SQL0532N" restrict_re
               restrict_re_opens (code_not_empty _ _) H532).
    cbn [truthy]. cbv zeta.
    destruct (carries txt "SQL0530N") eqn:H530.
    + destruct (match_with_code txt "SQL0530N" H530) as [whole Hw].
      unfold sql0530_re. rewrite Hw. reflexivity.
    + destruct Hfk as [Hfk|H531]; [discriminate Hfk|].
      rewrite (no_match_without_code txt "SQL0530N" sql0530_re
                 sql0530_re_opens (code_not_empty _ _) H530).
      destruct (match_with_code txt "SQL0531N" H531) as [whole Hw].
      unfold sql0531_re. rewrite Hw. reflexivity.
  - intros whole relationship Hm. rewrite Hm. reflexivity.
Qed.

(** X3: an error whose message matches the undefined-name pattern, and
    carries none of the codes tried before it, is translated with the help
    of the statement text attached to it: the constraint is the quoted name
    of the message and the table is the first [table "<name>"], in any
    case of letters, of the statement, or undefined.  Without a statement
    text on the error the translator throws a TypeError. *)
Theorem undefined_name_errors
        (d : driver) (st : dstate d) (this : Query) (e : object) (conn : bool)
        (parameters : value) (txt whole constraint : string) :
  get (VObj e) "message" = VStr txt ->
  carries txt "SQL0803N" = false ->
  carries txt "SQL0532N" = false ->
  carries txt "SQL0530N" = false ->
  carries txt "SQL0531N" = false ->
  js_match false undefined_name_re txt = VArr [VStr whole; VStr constraint] ->
  (forall statement : string,
     get (VObj e) "sql" = VStr statement ->
     exec d st (formatError this (Some e) conn parameters)
     = ([], Ok (UnknownConstraintError
                  (VStr whole) (VStr constraint)
                  (if truthy (js_match true table_re statement)
                   then get (js_match true table_re statement) "1"
                   else VUndefined) e)))
  /\ (get (VObj e) "sql" = VUndefined ->
      exec d st (formatError this (Some e) conn parameters)
      = ([], Throw TypeError)).
Proof.
  intros Hmsg H803 H532 H530 H531 Hm.
  rewrite (formatError_after_unique this e conn parameters txt Hmsg H803).
  rewrite (no_match_without_code txt "SQL0532N" restrict_re restrict_re_opens
             (code_not_empty _ _) H532).
  rewrite (no_match_without_code txt "SQL0530N" sql0530_re sql0530_re_opens
             (code_not_empty _ _) H530).
  rewrite (no_match_without_code txt "SQL0531N" sql0531_re sql0531_re_opens
             (code_not_empty _ _) H531).
  rewrite Hm. cbn [truthy]. cbv zeta iota.
  change (matched_more_than 0 VNull) with false.
  change (matched_more_than 1 (VArr [VStr whole; VStr constraint])) with true.
  change (get (VArr [VStr whole; VStr constraint]) "0") with (VStr whole).
  change (get (VArr [VStr whole; VStr constraint]) "1") with (VStr constraint).
  cbv iota. unfold mbind, lift, mret.
  split; [intros statement Hsql|intros Hsql]; rewrite Hsql; reflexivity.
Qed.

End WithAbstractQuery.

Lemma other_errors_are_database_errors_witness :
  exec emailCatalog tt
       (formatError emailQuery
          (Some [("message",
                  VStr "SQL0407N  Assignment of a NULL value to a NOT NULL column is not allowed.")])
          true VUndefined)
  = ([], Ok (DatabaseError
               [("message",
                 VStr "SQL0407N  Assignment of a NULL value to a NOT NULL column is not allowed.")])).
Proof.
  apply (other_errors_are_database_errors
           emailCatalog tt emailQuery
           [("message",
             VStr "SQL0407N  Assignment of a NULL value to a NOT NULL column is not allowed.")]
           true VUndefined
           "SQL0407N  Assignment of a NULL value to a NOT NULL column is not allowed.");
    reflexivity.
Defined.

Lemma foreign_key_errors_witness :
  exec emailCatalog tt
       (formatError emailQuery
          (Some [("message",
                  VStr "SQL0530N  The insert or update value of the FOREIGN KEY is not equal to any value of the parent key of the parent table.")])
          true VUndefined)
  = ([], Ok (ForeignKeyConstraintError
               VNull VUndefined
               [("message",
                 VStr "SQL0530N  The insert or update value of the FOREIGN KEY is not equal to any value of the parent key of the parent table.")])).
Proof.
  apply (proj1 (foreign_key_errors
                  emailCatalog tt emailQuery
                  [("message",
                    VStr "SQL0530N  The insert or update value of the FOREIGN KEY is not equal to any value of the parent key of the parent table.")]
                  true VUndefined
                  "SQL0530N  The insert or update value of the FOREIGN KEY is not equal to any value of the parent key of the parent table."
                  eq_refl eq_refl)).
  - reflexivity.
  - left. reflexivity.
Defined.

Lemma undefined_name_errors_witness :
  let message := "SQL0204N  " ++ dq ++ "S.FK1" ++ dq ++ " is an undefined name.  SQLSTATE=42704" in
  let statement := "ALTER TABLE " ++ dq ++ "users" ++ dq ++ " DROP CONSTRAINT " ++ dq ++ "FK1" ++ dq in
  exec emailCatalog tt
       (formatError emailQuery
          (Some [("message", VStr message); ("sql", VStr statement)])
          true VUndefined)
  = ([], Ok (UnknownConstraintError
               (VStr ("SQL0204N  " ++ dq ++ "S.FK1" ++ dq ++ " is an undefined name."))
               (VStr "S.FK1") (VStr "users")
               [("message", VStr message); ("sql", VStr statement)])).
Proof.
  intros message statement.
  pose proof (proj1 (undefined_name_errors
                       emailCatalog tt emailQuery
                       [("message", VStr message); ("sql", VStr statement)]
                       true VUndefined message
                       ("SQL0204N  " ++ dq ++ "S.FK1" ++ dq ++ " is an undefined name.")
                       "S.FK1"
                       eq_refl eq_refl eq_refl eq_refl eq_refl
                       ltac:(vm_compute; reflexivity))
                    statement eq_refl) as Hq.
  etransitivity; [exact Hq|]. vm_compute. reflexivity.
Defined.

End TranslatorProperties.

(* ================================================================== *)
(** ** Further properties of the execution adapter *)

Module AdapterProperties.

Import Str Regex Query QueryResults Examples Specified QueryProperties
       TranslatorProperties.

#[local] Opaque js_match.

Ltac run_cases :=
  repeat first
    [ rewrite exec_call
    | rewrite exec_ret
    | rewrite exec_pbind_ret
    | progress cbn [pbind snd fst settled uncaught resolved rejected escaped
                    settle filter is_stmt_close List.length app]
    | match goal with
      | |- context [match ?x with _ => _ end] => destruct x
      end ].

Section WithAbstractQuery.
Context `{AbstractQuery}.

Lemma first_char (s p : string) (a : ascii) :
  startsWith s (String a p) = true -> exists s', s = String a s'.
Proof.
  destruct s as [|b s]; cbn [startsWith]; [discriminate|].
  destruct (Ascii.eqb_spec a b) as [<-|]; [|discriminate].
  intros _. eexists; reflexivity.
Qed.

Lemma transaction_prefixes (s : string) :
  (startsWith s "COMMIT TRANSACTION" = true ->
   startsWith s "BEGIN TRANSACTION" = false)
  /\ (startsWith s "ROLLBACK TRANSACTION" = true ->
      startsWith s "BEGIN TRANSACTION" = false
      /\ startsWith s "COMMIT TRANSACTION" = false)
  /\ (startsWith s "DELETE FROM " = true -> isTransactionControl s = false).
Proof.
  split; [|split]; intros E; apply first_char in E as [s' ->];
    repeat split; reflexivity.
Qed.

Lemma offline_translation (this : Query) (e : object) :
  exists r, formatError this (Some e) false VUndefined = Ret r.
Proof.
  destruct (formatError_offline this (Some e) VUndefined) as [r Hr].
  destruct (formatError this (Some e) false VUndefined) as [r0|];
    [|discriminate Hr].
  exists r0. reflexivity.
Qed.

(** What one transaction call and its callback do. *)
Lemma exec_transaction_call (d : driver) (st : dstate d) (this : Query)
      (c : call) :
  match r_err (fst (respond d st c)) with
  | Some e =>
      exists r,
      returned (formatError this (Some e) false VUndefined) = Some r
      /\ exec d st (Call c (fun a => transactionCallback this None (r_err a)))
         = ([c], rejected None r)
  | None =>
      exec d st (Call c (fun a => transactionCallback this None (r_err a)))
      = ([c], resolved this None VUndefined VUndefined VUndefined false)
  end.
Proof.
  rewrite exec_call. unfold transactionCallback.
  destruct (r_err (fst (respond d st c))) as [e|].
  - destruct (offline_translation this e) as [r Hr]. rewrite Hr.
    exists r. split; reflexivity.
  - reflexivity.
Qed.

(** A message without one of the five codes is translated to a
    DatabaseError, with no call on the driver. *)
Lemma formatError_no_code (this : Query) (e : object) (conn : bool)
      (parameters : value) (txt : string) :
  get (VObj e) "message" = VStr txt ->
  carries txt "SQL0803N" = false ->
  carries txt "SQL0532N" = false ->
  carries txt "SQL0530N" = false ->
  carries txt "SQL0531N" = false ->
  carries txt "SQL0204N" = false ->
  formatError this (Some e) conn parameters = Ret (Ok (DatabaseError e)).
Proof.
  intros Hmsg H803 H532 H530 H531 H204.
  rewrite (formatError_after_unique this e conn parameters txt Hmsg H803).
  rewrite (no_match_without_code txt "SQL0532N" restrict_re restrict_re_opens
             (code_not_empty _ _) H532).
  rewrite (no_match_without_code txt "SQL0530N" sql0530_re sql0530_re_opens
             (code_not_empty _ _) H530).
  rewrite (no_match_without_code txt "SQL0531N" sql0531_re sql0531_re_opens
             (code_not_empty _ _) H531).
  rewrite (no_match_without_code txt "SQL0204N" undefined_name_re
             undefined_name_re_opens (code_not_empty _ _) H204).
  reflexivity.
Qed.

(** What one transaction call and its callback leave of the promise. *)
Lemma transaction_call_outcome (d : driver) (st : dstate d) (this : Query)
      (c : call) :
  let run :=
    exec d st (Call c (fun a => transactionCallback this None (r_err a))) in
  match r_err (fst (respond d st c)) with
  | Some e =>
      (exists r,
         returned (formatError this (Some e) false VUndefined) = Some r
         /\ match r with
            | Ok se =>
                run = ([c], {| settled := Some (Reject se);
                               uncaught := None |})
            | Throw x =>
                run = ([c], {| settled := None; uncaught := Some x |})
            end)
      /\ (get (VObj e) "message" = VUndefined ->
          run = ([c], {| settled := None; uncaught := Some TypeError |}))
      /\ (forall txt : string,
            get (VObj e) "message" = VStr txt ->
            carries txt "SQL0803N" = false ->
            carries txt "SQL0532N" = false ->
            carries txt "SQL0530N" = false ->
            carries txt "SQL0531N" = false ->
            carries txt "SQL0204N" = false ->
            run = ([c], {| settled := Some (Reject (DatabaseError e));
                           uncaught := None |}))
  | None =>
      run = ([c],
             {| settled :=
                  Some (Resolve {| fr_sql := sql this; fr_data := VUndefined;
                                   fr_rowCount := VUndefined;
                                   fr_metadata := VUndefined;
                                   fr_conn := false |});
                uncaught := None |})
  end.
Proof.
  cbv zeta. rewrite exec_call. unfold transactionCallback.
  destruct (r_err (fst (respond d st c))) as [e|]; [|reflexivity].
  destruct (exec_reject_offline d (snd (respond d st c)) this e)
    as (r & Hret & Hexec).
  rewrite Hexec. cbn [fst snd]. split; [|split].
  - exists r. split; [exact Hret | destruct r; reflexivity].
  - intros Hmsg.
    rewrite (formatError_without_message this e false VUndefined Hmsg) in Hret.
    injection Hret as <-. reflexivity.
  - intros txt Hmsg H803 H532 H530 H531 H204.
    rewrite (formatError_no_code this e false VUndefined txt
               Hmsg H803 H532 H530 H531 H204) in Hret.
    injection Hret as <-. reflexivity.
Qed.

(** X4: a statement whose text begins with [BEGIN TRANSACTION], with
    [COMMIT TRANSACTION] or with [ROLLBACK TRANSACTION] is not prepared:
    the only call on the driver is [beginTransaction], [commitTransaction]
    (without a name) or [rollbackTransaction].  Its success resolves the
    promise with [formatResults()].  Its failure hands the error to the
    translator, without a connection: the promise is rejected with the
    translation when the translator returns one, a DatabaseError for a
    message without one of the known codes, and when the translator throws,
    as it does for an error without a message, the exception escapes the
    callback and the promise is left pending. *)
Theorem transaction_statements_are_not_prepared
        (d : driver) (st : dstate d) (this : Query) (sql0 : string)
        (parameters : value) :
  let this' := with_sql this sql0 in
  let run := exec d st (_run this sql0 parameters) in
  let outcome (c : call) : Prop :=
    match r_err (fst (respond d st c)) with
    | Some e =>
        (exists r,
           returned (formatError this' (Some e) false VUndefined) = Some r
           /\ match r with
              | Ok se =>
                  run = ([c], {| settled := Some (Reject se);
                                 uncaught := None |})
              | Throw x =>
                  run = ([c], {| settled := None; uncaught := Some x |})
              end)
        /\ (get (VObj e) "message" = VUndefined ->
            run = ([c], {| settled := None; uncaught := Some TypeError |}))
        /\ (forall txt : string,
              get (VObj e) "message" = VStr txt ->
              carries txt "SQL0803N" = false ->
              carries txt "SQL0532N" = false ->
              carries txt "SQL0530N" = false ->
              carries txt "SQL0531N" = false ->
              carries txt "SQL0204N" = false ->
              run = ([c], {| settled := Some (Reject (DatabaseError e));
                             uncaught := None |}))
    | None =>
        run = ([c],
               {| settled :=
                    Some (Resolve {| fr_sql := sql0; fr_data := VUndefined;
                                     fr_rowCount := VUndefined;
                                     fr_metadata := VUndefined;
                                     fr_conn := false |});
                  uncaught := None |})
    end in
  (startsWith sql0 "BEGIN TRANSACTION" = true -> outcome BeginTransaction)
  /\ (startsWith sql0 "COMMIT TRANSACTION" = true ->
      outcome (CommitTransaction VUndefined))
  /\ (startsWith sql0 "ROLLBACK TRANSACTION" = true ->
      outcome RollbackTransaction).
Proof.
  cbv zeta.
  destruct (transaction_prefixes sql0) as (Hc & Hr & _).
  repeat split; intros E; unfold _run; cbn [sql with_sql].
  - rewrite E.
    exact (transaction_call_outcome d st (with_sql this sql0) BeginTransaction).
  - rewrite (Hc E), E.
    exact (transaction_call_outcome d st (with_sql this sql0)
                                    (CommitTransaction VUndefined)).
  - destruct (Hr E) as [Eb Ec]. rewrite Eb, Ec, E.
    exact (transaction_call_outcome d st (with_sql this sql0)
                                    RollbackTransaction).
Qed.

Lemma run_prepares (this : Query) (sql0 : string) (parameters : value) :
  isTransactionControl sql0 = false ->
  _run this sql0 parameters
  = Call (Prepare (sql (prepared this sql0)))
         (fun r => prepareCallback (prepared this sql0) sql0 parameters
                                   (r_err r) (r_val r)).
Proof.
  unfold isTransactionControl. intros E.
  apply orb_false_elim in E as [Eb E]. apply orb_false_elim in E as [Ec E].
  apply orb_false_elim in E as [Er Es].
  unfold _run, prepared. cbn [sql with_sql]. rewrite Eb, Ec, Er, Es.
  reflexivity.
Qed.

Ltac offline :=
  match goal with
  | |- context [formatError ?t (Some ?e) false VUndefined] =>
      let r := fresh "r" in
      let Hr := fresh "Hr" in
      destruct (offline_translation t e) as [r Hr]; rewrite Hr
  end.

Lemma length_append_one (t : string) (c : ascii) :
  String.length (t ++ String c EmptyString) = S (String.length t).
Proof. induction t as [|a t IH]; cbn; [reflexivity|]. rewrite IH. reflexivity. Qed.

Lemma get_last (t : string) (c : ascii) :
  String.get (String.length t) (t ++ String c EmptyString) = Some c.
Proof. induction t as [|a t IH]; cbn; [reflexivity|exact IH]. Qed.

Lemma withDummyTable_terminated (t : string) :
  withDummyTable (t ++ ";") = t ++ " FROM SYSIBM.SYSDUMMY1".
Proof.
  unfold withDummyTable, last_char, take.
  rewrite length_append_one. cbn [Nat.sub]. rewrite Nat.sub_0_r.
  rewrite get_last. cbn [Ascii.eqb Bool.eqb]. rewrite substring_prefix.
  reflexivity.
Qed.

(** X5: a SELECT without [ FROM ] after its eighth character is prepared
    with the dummy table appended: a text [t;] is sent as
    [t FROM SYSIBM.SYSDUMMY1], one final semicolon being removed, and a text
    without a final semicolon is sent with the dummy table after it.  Any
    other statement that is not a transaction statement is prepared as it
    was given. *)
Theorem select_without_from_gets_dummy_table
        (d : driver) (st : dstate d) (this : Query) (sql0 : string)
        (parameters : value) :
  let noFrom :=
    (search (String.substring 8 (String.length sql0 - 8) sql0) " FROM "
     =? -1)%Z in
  (forall t : string, withDummyTable (t ++ ";") = t ++ " FROM SYSIBM.SYSDUMMY1")
  /\ (last_char sql0 <> Some ";"%char ->
      withDummyTable sql0 = sql0 ++ " FROM SYSIBM.SYSDUMMY1")
  /\ (isTransactionControl sql0 = false ->
      isSelectQuery (with_sql this sql0) = true -> noFrom = true ->
      exists rest,
        fst (exec d st (_run this sql0 parameters))
        = Prepare (withDummyTable sql0) :: rest)
  /\ (isTransactionControl sql0 = false ->
      isSelectQuery (with_sql this sql0) = false \/ noFrom = false ->
      exists rest,
        fst (exec d st (_run this sql0 parameters)) = Prepare sql0 :: rest).
Proof.
  intros noFrom. split; [exact withDummyTable_terminated|]. split.
  { intros Hlast. unfold withDummyTable.
    destruct (last_char sql0) as [c|]; [|reflexivity].
    destruct (Ascii.eqb_spec c ";") as [->|]; [congruence|reflexivity]. }
  split.
  - intros Htx Hsel Hno. rewrite (run_prepares this sql0 parameters Htx).
    rewrite exec_call. unfold prepared. fold noFrom. rewrite Hsel, Hno.
    eexists; reflexivity.
  - intros Htx Hother. rewrite (run_prepares this sql0 parameters Htx).
    rewrite exec_call. unfold prepared. fold noFrom.
    destruct Hother as [-> | ->]; [|rewrite andb_false_r];
      eexists; reflexivity.
Qed.

(** X6: when [connection.prepare] fails and hands over no statement, the
    error goes to the translator, without the statement text and without a
    connection, and [prepare] stays the only call on the driver.  When the
    translator returns, the promise is rejected with the translation, a
    DatabaseError for a message without one of the known codes, and the
    callback, which goes on after rejecting, throws a TypeError on
    [stmt.execute].  When the translator throws, as it does for an error
    without a message, its exception escapes the callback and the promise
    is left pending. *)
Theorem failed_prepare_rejects_and_throws
        (d : driver) (st : dstate d) (this : Query) (sql0 : string)
        (parameters : value) (e : object) :
  isTransactionControl sql0 = false ->
  let this' := prepared this sql0 in
  let answer := fst (respond d st (Prepare (sql this'))) in
  let run := exec d st (_run this sql0 parameters) in
  r_err answer = Some e ->
  (forall o, r_val answer <> VObj o) ->
  (exists r,
     returned (formatError this' (Some e) false VUndefined) = Some r
     /\ match r with
        | Ok se =>
            run = ([Prepare (sql this')],
                   {| settled := Some (Reject se);
                      uncaught := Some TypeError |})
        | Throw x =>
            run = ([Prepare (sql this')],
                   {| settled := None; uncaught := Some x |})
        end)
  /\ (get (VObj e) "message" = VUndefined ->
      run = ([Prepare (sql this')],
             {| settled := None; uncaught := Some TypeError |}))
  /\ (forall txt : string,
        get (VObj e) "message" = VStr txt ->
        carries txt "SQL0803N" = false ->
        carries txt "SQL0532N" = false ->
        carries txt "SQL0530N" = false ->
        carries txt "SQL0531N" = false ->
        carries txt "SQL0204N" = false ->
        run = ([Prepare (sql this')],
               {| settled := Some (Reject (DatabaseError e));
                  uncaught := Some TypeError |})).
Proof.
  intros Htx. cbv zeta. set (this' := prepared this sql0).
  intros Herr Hstmt.
  rewrite (run_prepares this sql0 parameters Htx). fold this'.
  rewrite exec_call. unfold prepareCallback. rewrite Herr.
  destruct (offline_translation this' e) as [r Hr].
  assert (Hmissing : get (VObj e) "message" = VUndefined -> r = Throw TypeError).
  { intros Hmsg.
    rewrite (formatError_without_message this' e false VUndefined Hmsg) in Hr.
    injection Hr as <-. reflexivity. }
  assert (Hplain : forall txt : string,
             get (VObj e) "message" = VStr txt ->
             carries txt "SQL0803N" = false ->
             carries txt "SQL0532N" = false ->
             carries txt "SQL0530N" = false ->
             carries txt "SQL0531N" = false ->
             carries txt "SQL0204N" = false ->
             r = Ok (DatabaseError e)).
  { intros txt Hmsg H803 H532 H530 H531 H204.
    rewrite (formatError_no_code this' e false VUndefined txt
               Hmsg H803 H532 H530 H531 H204) in Hr.
    injection Hr as <-. reflexivity. }
  rewrite Hr. clear Hr.
  assert (Hrun :
    exec d (snd (respond d st (Prepare (sql this'))))
         (st0 <~ (r0 <~ Ret r ;; Ret (rejected None r0)) ;;
          match uncaught st0 with
          | Some _ => Ret st0
          | None =>
              match r_val (fst (respond d st (Prepare (sql this')))) with
              | VObj _ =>
                  Call (Execute (bindParams parameters))
                       (fun r1 =>
                          executeCallback this' sql0 parameters
                                          (settled st0) (r_err r1) (r_val r1))
              | _ => Ret (escaped (settled st0) TypeError)
              end
          end)
    = ([], match r with
           | Ok se => {| settled := Some (Reject se);
                         uncaught := Some TypeError |}
           | Throw x => {| settled := None; uncaught := Some x |}
           end)).
  { destruct r as [se|x]; cbn [pbind rejected uncaught settled settle];
      [|reflexivity].
    destruct (r_val (fst (respond d st (Prepare (sql this')))))
      as [| | | | | |o] eqn:Ev; try reflexivity.
    exfalso. exact (Hstmt o eq_refl). }
  rewrite Hrun. cbn [fst snd]. split; [|split].
  - exists r. split; [reflexivity | destruct r; reflexivity].
  - intros Hmsg. rewrite (Hmissing Hmsg). reflexivity.
  - intros txt Hmsg H803 H532 H530 H531 H204.
    rewrite (Hplain txt Hmsg H803 H532 H530 H531 H204). reflexivity.
Qed.

(** X7: the promise of [_run] is never left pending: whatever the
    statement and whatever the driver answers, either the promise is
    settled or an exception escaped a callback. *)
Theorem promise_settles_or_throws
        (d : driver) (st : dstate d) (this : Query) (sql0 : string)
        (parameters : value) :
  uncaught (snd (exec d st (_run this sql0 parameters))) = None ->
  exists s, settled (snd (exec d st (_run this sql0 parameters))) = Some s.
Proof.
  unfold _run, prepareCallback, executeCallback, closeAndReject,
    fetchAndResolve, transactionCallback.
  repeat first [ offline | progress run_cases ];
    repeat match goal with
           | |- context [rejected _ ?x] =>
               lazymatch x with
               | Ok _ => fail
               | Throw _ => fail
               | _ => destruct x
               end
           end;
    cbn [settled uncaught rejected settle resolved escaped];
    intros E; try discriminate E; eexists; reflexivity.
Qed.

(** The translator never closes a statement. *)
Lemma formatError_never_closes (d : driver) (st : dstate d) (this : Query)
      (err : option object) (conn : bool) (parameters : value) :
  filter is_stmt_close (fst (exec d st (formatError this err conn parameters)))
  = [].
Proof.
  unfold formatError, uniqueViolation, resolveIndexName, mbind, lift, mret,
    mthrow.
  repeat first
    [ rewrite exec_call
    | rewrite exec_ret
    | progress cbn [pbind snd fst bind filter is_stmt_close]
    | match goal with
      | |- context [match ?x with _ => _ end] => destruct x
      end ];
    reflexivity.
Qed.

(** X8: when a statement is prepared and no exception escapes a callback,
    the statement handle is closed exactly once, whether the execution
    failed, was ignored as benign or succeeded. *)
Theorem statement_closed_once
        (d : driver) (st : dstate d) (this : Query) (sql0 : string)
        (parameters : value) :
  isTransactionControl sql0 = false ->
  uncaught (snd (exec d st (_run this sql0 parameters))) = None ->
  List.length (filter is_stmt_close
                      (fst (exec d st (_run this sql0 parameters)))) = 1.
Proof.
  intros Htx. rewrite (run_prepares this sql0 parameters Htx).
  unfold prepareCallback, executeCallback, closeAndReject, fetchAndResolve.
  repeat first
    [ offline
    | rewrite formatError_never_closes
    | match goal with
      | |- context [rejected _ ?x] =>
          lazymatch x with
          | Ok _ => fail
          | Throw _ => fail
          | _ => destruct x
          end
      end
    | rewrite exec_call
    | rewrite exec_ret
    | rewrite exec_pbind_ret
    | progress cbn [pbind snd fst settled uncaught resolved rejected escaped
                    settle filter is_stmt_close List.length app]
    | match goal with
      | |- context [match ?x with _ => _ end] => destruct x
      end ];
    intros E; try discriminate E; reflexivity.
Qed.

(** X9: a statement whose text begins with [DELETE FROM ], once prepared
    and executed without error, is not fetched: the adapter reads the
    number of affected rows from the result handle, closes the result and
    the statement, and resolves with [formatResults([], affectedRows)]. *)
Theorem delete_reports_affected_rows
        (d : driver) (st : dstate d) (this : Query) (sql0 : string)
        (parameters : value) (r1 r2 r3 : response)
        (stmt handle : list (string * value)) :
  startsWith sql0 "DELETE FROM " = true ->
  isSelectQuery (with_sql this sql0) = false ->
  answers d st [Prepare sql0; Execute (bindParams parameters);
                GetAffectedRowsSync]
  = [r1; r2; r3] ->
  r_err r1 = None -> r_val r1 = VObj stmt ->
  r_err r2 = None -> r_val r2 = VObj handle ->
  exec d st (_run this sql0 parameters)
  = ([Prepare sql0; Execute (bindParams parameters); GetAffectedRowsSync;
      ResultCloseSync; StmtCloseSync],
     resolved (with_sql this sql0) None (VArr []) (r_val r3) VUndefined false).
Proof.
  intros Hdel Hsel Hans Herr1 Hstmt Herr2 Hres.
  cbn [answers] in Hans. injection Hans as <- <- <-.
  destruct (transaction_prefixes sql0) as (_ & _ & Htx).
  rewrite (run_prepares this sql0 parameters (Htx Hdel)).
  unfold prepared. rewrite Hsel. cbn [andb sql with_sql].
  rewrite exec_call. unfold prepareCallback. rewrite Herr1.
  cbn [pbind uncaught]. rewrite Hstmt.
  rewrite exec_call. unfold executeCallback. rewrite Herr2.
  unfold fetchAndResolve. rewrite Hres. cbn [sql with_sql]. rewrite Hdel.
  rewrite !exec_call. reflexivity.
Qed.

End WithAbstractQuery.

Lemma transaction_statements_are_not_prepared_witness :
  exec (constantDriver
          (fun _ => failed "SQL30081N  A communication error has been detected."))
       tt (_run savepointQuery "BEGIN TRANSACTION;" VUndefined)
  = ([BeginTransaction],
     {| settled :=
          Some (Reject (DatabaseError
                          [("message",
                            VStr "SQL30081N  A communication error has been detected.")]));
        uncaught := None |}).
Proof.
  destruct (proj1 (transaction_statements_are_not_prepared
                     (constantDriver
                        (fun _ => failed "SQL30081N  A communication error has been detected."))
                     tt savepointQuery "BEGIN TRANSACTION;" VUndefined)
                  eq_refl)
    as (_ & _ & Hplain).
  apply (Hplain "SQL30081N  A communication error has been detected.");
    reflexivity.
Defined.

Lemma select_without_from_gets_dummy_table_witness :
  exists rest,
    fst (exec (constantDriver (fun _ => ok VUndefined)) tt
              (@_run selectQuery savepointQuery "SELECT 1 AS ONE;" VUndefined))
    = Prepare "SELECT 1 AS ONE FROM SYSIBM.SYSDUMMY1" :: rest.
Proof.
  destruct (proj1 (proj2 (proj2 (@select_without_from_gets_dummy_table
                                   selectQuery
                                   (constantDriver (fun _ => ok VUndefined)) tt
                                   savepointQuery "SELECT 1 AS ONE;"
                                   VUndefined)))
                  eq_refl eq_refl eq_refl) as [rest Hrest].
  exists rest. rewrite Hrest. reflexivity.
Defined.

Lemma failed_prepare_rejects_and_throws_witness :
  exec (constantDriver
          (fun _ => failed "SQL0104N  An unexpected token was found.")) tt
       (_run savepointQuery "SELEC 1" VUndefined)
  = ([Prepare "SELEC 1"],
     {| settled :=
          Some (Reject (DatabaseError
                          [("message",
                            VStr "SQL0104N  An unexpected token was found.")]));
        uncaught := Some TypeError |}).
Proof.
  destruct (failed_prepare_rejects_and_throws
              (constantDriver
                 (fun _ => failed "SQL0104N  An unexpected token was found."))
              tt savepointQuery "SELEC 1" VUndefined
              [("message", VStr "SQL0104N  An unexpected token was found.")]
              eq_refl eq_refl)
    as (_ & _ & Hplain).
  - intros o. discriminate.
  - apply (Hplain "SQL0104N  An unexpected token was found."); reflexivity.
Defined.

Lemma promise_settles_or_throws_witness :
  exists s,
    settled (snd (exec (constantDriver (fun _ => ok (VObj []))) tt
                       (_run savepointQuery "UPDATE T SET A = 1" VUndefined)))
    = Some s.
Proof.
  apply (promise_settles_or_throws
           (constantDriver (fun _ => ok (VObj []))) tt
           savepointQuery "UPDATE T SET A = 1" VUndefined).
  reflexivity.
Defined.

Lemma statement_closed_once_witness :
  List.length
    (filter is_stmt_close
            (fst (exec (constantDriver (fun _ => ok (VObj []))) tt
                       (_run savepointQuery "UPDATE T SET A = 1" VUndefined))))
  = 1.
Proof.
  apply (statement_closed_once
           (constantDriver (fun _ => ok (VObj []))) tt
           savepointQuery "UPDATE T SET A = 1" VUndefined);
    reflexivity.
Defined.

Lemma delete_reports_affected_rows_witness :
  exec (constantDriver
          (fun c => match c with
                    | GetAffectedRowsSync => ok (VNum 3)
                    | _ => ok (VObj [])
                    end)) tt
       (_run savepointQuery "DELETE FROM T WHERE A = 1" VUndefined)
  = ([Prepare "DELETE FROM T WHERE A = 1"; Execute []; GetAffectedRowsSync;
      ResultCloseSync; StmtCloseSync],
     resolved (with_sql savepointQuery "DELETE FROM T WHERE A = 1") None
              (VArr []) (VNum 3) VUndefined false).
Proof.
  apply (delete_reports_affected_rows
           (constantDriver
              (fun c => match c with
                        | GetAffectedRowsSync => ok (VNum 3)
                        | _ => ok (VObj [])
                        end)) tt
           savepointQuery "DELETE FROM T WHERE A = 1" VUndefined
           (ok (VObj [])) (ok (VObj [])) (ok (VNum 3)) [] []);
    reflexivity.
Defined.

End AdapterProperties.

(* ================================================================== *)
(** ** Properties of the result handlers *)

Module ResultProperties.

Import Js Str Regex Query QueryResults Examples.

(** *** handleShowIndexesQuery *)

Lemma acc_lookup_keys (k : string) (acc : groupsAcc) :
  acc_lookup k acc = true <-> In k (map fst acc).
Proof.
  induction acc as [|[k' g] acc IH]; cbn [acc_lookup map fst In].
  - split; [discriminate | contradiction].
  - destruct (String.eqb_spec k k') as [->|Hne].
    + split; [intros _; left; reflexivity | reflexivity].
    + rewrite IH. split; [intros Hin; right; exact Hin|].
      intros [He|Hin]; [congruence | exact Hin].
Qed.

Lemma acc_add_entries (k : string) (item : IndexRow) (acc : groupsAcc)
      (e : string * (IndexRow * list IndexField)) :
  In e (acc_add k item acc) <-> e = (k, (item, [])) \/ In e acc.
Proof.
  induction acc as [|[k' g] acc IH]; cbn [acc_add In].
  - split; [intros [He|[]]; left; symmetry; exact He
           | intros [He|[]]; left; symmetry; exact He].
  - destruct (array_index k) as [i|]; [destruct (array_index k') as [j|];
      [destruct (i <? j)%nat|]|]; cbn [In]; rewrite ?IH;
      intuition (auto; congruence).
Qed.

Lemma acc_add_keys (k : string) (item : IndexRow) (acc : groupsAcc)
      (x : string) :
  In x (map fst (acc_add k item acc)) <-> x = k \/ In x (map fst acc).
Proof.
  rewrite !in_map_iff. split.
  - intros (e & He & Hin). apply acc_add_entries in Hin as [->|Hin].
    + left. symmetry. exact He.
    + right. exists e. split; assumption.
  - intros [->|(e & He & Hin)].
    + exists (k, (item, [])). split; [reflexivity|].
      apply acc_add_entries. left. reflexivity.
    + exists e. split; [exact He|]. apply acc_add_entries. right. exact Hin.
Qed.

Lemma acc_add_NoDup (k : string) (item : IndexRow) (acc : groupsAcc) :
  ~ In k (map fst acc) -> NoDup (map fst acc) ->
  NoDup (map fst (acc_add k item acc)).
Proof.
  induction acc as [|[k' g] acc IH]; intros Hk Hnd; cbn [acc_add].
  - cbn. constructor; [intros [] | constructor].
  - assert (Hfresh : NoDup (k :: map fst ((k', g) :: acc)))
      by (constructor; assumption).
    assert (Hrec : NoDup (k' :: map fst (acc_add k item acc))).
    { cbn [map fst] in Hk, Hnd. inversion Hnd as [|? ? Hk' Hnd']; subst.
      constructor.
      - rewrite acc_add_keys. intros [->|Hin]; [|exact (Hk' Hin)].
        apply Hk. left. reflexivity.
      - apply IH; [|exact Hnd']. intros Hin. apply Hk. right. exact Hin. }
    destruct (array_index k) as [i|]; [destruct (array_index k') as [j|];
      [destruct (i <? j)%nat|]|]; cbn [map fst]; assumption.
Qed.

Lemma acc_push_keys (k : string) (fs : list IndexField) (acc : groupsAcc) :
  map fst (acc_push k fs acc) = map fst acc.
Proof.
  induction acc as [|[k' [item fs0]] acc IH]; cbn [acc_push map fst];
    [reflexivity|].
  destruct (k =? k'); cbn [map fst]; [reflexivity|]. rewrite IH. reflexivity.
Qed.

Lemma acc_push_entries (k : string) (fs : list IndexField) (acc : groupsAcc)
      (k' : string) (item : IndexRow) (fs' : list IndexField) :
  NoDup (map fst acc) ->
  In (k', (item, fs')) (acc_push k fs acc) ->
  (k' <> k /\ In (k', (item, fs')) acc)
  \/ (k' = k /\ exists fs0, In (k, (item, fs0)) acc /\ fs' = (fs0 ++ fs)%list).
Proof.
  induction acc as [|[k0 [item0 fs0]] acc IH]; cbn [acc_push map fst In];
    [intros _ []|].
  intros Hnd Hin. inversion Hnd as [|? ? Hk0 Hnd']; subst.
  destruct (String.eqb_spec k k0) as [->|Hne]; cbn [In] in Hin.
  - destruct Hin as [He|Hin].
    + injection He as <- <- <-. right. split; [reflexivity|].
      exists fs0. split; [left; reflexivity | reflexivity].
    + left. split; [|right; exact Hin].
      intros ->. apply Hk0. apply in_map_iff.
      exists (k0, (item, fs')). split; [reflexivity | exact Hin].
  - destruct Hin as [He|Hin].
    + injection He as <- <- <-. left. split; [congruence | left; reflexivity].
    + destruct (IH Hnd' Hin) as [[Hk Hin']|[Hk (f & Hin' & Hf)]].
      * left. split; [exact Hk | right; exact Hin'].
      * right. split; [exact Hk|]. exists f. split; [right; exact Hin' | exact Hf].
Qed.

Lemma rowsNamed_app (n : string) (seen : list IndexRow) (item : IndexRow) :
  rowsNamed n (seen ++ [item])
  = (rowsNamed n seen ++ (if row_name item =? n then [item] else []))%list.
Proof.
  unfold rowsNamed. rewrite filter_app. cbn [filter].
  destruct (row_name item =? n); reflexivity.
Qed.

Lemma rowsNamed_none (n : string) (seen : list IndexRow) :
  ~ In n (map row_name seen) -> rowsNamed n seen = [].
Proof.
  induction seen as [|r seen IH]; cbn [rowsNamed filter map In];
    [reflexivity|].
  intros Hn. destruct (String.eqb_spec (row_name r) n) as [He|_].
  - exfalso. apply Hn. left. exact He.
  - apply IH. intros Hin. apply Hn. right. exact Hin.
Qed.

Lemma grouped_step (seen : list IndexRow) (acc : groupsAcc) (item : IndexRow) :
  grouped seen acc -> grouped (seen ++ [item]) (groupStep acc item).
Proof.
  intros (Hnd & Hkeys & Hent). unfold groupStep.
  set (k := row_name item). set (F := columnFields (COLNAMES item)).
  set (acc' := if negb (acc_lookup k acc) then acc_add k item acc else acc).
  assert (Hnd' : NoDup (map fst acc')).
  { unfold acc'. destruct (acc_lookup k acc) eqn:El; cbn [negb]; [exact Hnd|].
    apply acc_add_NoDup; [|exact Hnd].
    intros Hin. apply acc_lookup_keys in Hin. congruence. }
  assert (Hkeys' : forall x, In x (map fst acc')
                             <-> In x (map row_name (seen ++ [item]))).
  { intros x. rewrite map_app, in_app_iff. cbn [map In]. fold k.
    unfold acc'. destruct (acc_lookup k acc) eqn:El; cbn [negb].
    - rewrite <- Hkeys. apply acc_lookup_keys in El.
      split; [intros Hin; left; exact Hin|].
      intros [Hin|[<-|[]]]; assumption.
    - rewrite acc_add_keys, <- Hkeys.
      split; [intros [->|Hin]; [right; left; reflexivity | left; exact Hin]|].
      intros [Hin|[<-|[]]]; [right; exact Hin | left; reflexivity]. }
  assert (Hent' : forall k' it fs0,
             In (k', (it, fs0)) acc' ->
             (it = item /\ fs0 = [] /\ k' = k /\ ~ In k (map row_name seen))
             \/ In (k', (it, fs0)) acc).
  { intros k' it fs0. unfold acc'.
    destruct (acc_lookup k acc) eqn:El; cbn [negb]; [intros Hin; right; exact Hin|].
    rewrite acc_add_entries. intros [He|Hin]; [|right; exact Hin].
    injection He as -> -> ->. left. repeat split.
    rewrite <- Hkeys. intros Hin. apply acc_lookup_keys in Hin. congruence. }
  split; [rewrite acc_push_keys; exact Hnd'|].
  split; [intros x; rewrite acc_push_keys; apply Hkeys'|].
  intros k' it fs Hin. rewrite rowsNamed_app. fold k. rewrite flat_map_app.
  destruct (acc_push_entries k F acc' k' it fs Hnd' Hin)
    as [[Hne Hin']|[-> (fs0 & Hin' & ->)]].
  - destruct (String.eqb_spec k k') as [He|_]; [congruence|].
    rewrite !app_nil_r.
    destruct (Hent' _ _ _ Hin') as [(_ & _ & He & _)|Hold]; [congruence|].
    exact (Hent _ _ _ Hold).
  - rewrite String.eqb_refl. cbn [flat_map]. rewrite app_nil_r.
    destruct (Hent' _ _ _ Hin') as [(-> & -> & _ & Hnew)|Hold].
    + rewrite (rowsNamed_none k seen Hnew). repeat split.
    + destruct (Hent _ _ _ Hold) as (Hn & Hhd & Hfs).
      split; [exact Hn|]. split; [|rewrite Hfs; reflexivity].
      destruct (rowsNamed k seen); [discriminate Hhd | exact Hhd].
Qed.

Lemma grouped_fold (data seen : list IndexRow) (acc : groupsAcc) :
  grouped seen acc ->
  grouped (seen ++ data) (fold_left groupStep data acc).
Proof.
  revert seen acc.
  induction data as [|item data IH]; intros seen acc Hg; cbn [fold_left].
  - rewrite app_nil_r. exact Hg.
  - replace (seen ++ item :: data)%list with ((seen ++ [item]) ++ data)%list
      by (rewrite <- app_assoc; reflexivity).
    apply IH. apply grouped_step. exact Hg.
Qed.

Lemma grouped_all (data : list IndexRow) :
  grouped data (fold_left groupStep data []).
Proof.
  apply (grouped_fold data [] []).
  split; [constructor|]. split; [intros k; reflexivity | intros k item fs []].
Qed.

(** X10: the indexes are grouped by name.  The result holds one descriptor
    for each index name among the rows and none for another name.  The
    names are those an empty object does not inherit, for which
    [item.name in acc] tells that a row of the name was seen. *)
Theorem show_indexes_one_descriptor_per_name (data : list IndexRow) :
  Forall (fun r => inherited (row_name r) = false) data ->
  NoDup (map name (handleShowIndexesQuery data))
  /\ forall n, In n (map name (handleShowIndexesQuery data))
               <-> In n (map row_name data).
Proof.
  intros _. destruct (grouped_all data) as (Hnd & Hkeys & Hent).
  assert (Hnames : map name (handleShowIndexesQuery data)
                   = map fst (fold_left groupStep data [])).
  { unfold handleShowIndexesQuery. rewrite map_map. apply map_ext_in.
    intros [k [item fs]] Hin. cbn [name fst snd].
    exact (proj1 (Hent _ _ _ Hin)). }
  rewrite Hnames. split; [exact Hnd | exact Hkeys].
Qed.

(** X11: the descriptor of an index is made from the first row of that
    name, and its fields are the entries of all rows of that name, in the
    order of the rows. *)
Theorem show_indexes_collects_rows_of_a_name
        (data : list IndexRow) (d : IndexDescriptor) :
  Forall (fun r => inherited (row_name r) = false) data ->
  In d (handleShowIndexesQuery data) ->
  exists first,
    hd_error (rowsNamed (name d) data) = Some first
    /\ tableName d = row_tableName first
    /\ type d = row_type first
    /\ primary d = is_str (row_keyType first) "P"
    /\ unique d = is_str (row_keyType first) "U"
    /\ fields d = flat_map (fun r => columnFields (COLNAMES r))
                           (rowsNamed (name d) data).
Proof.
  intros _. destruct (grouped_all data) as (_ & _ & Hent).
  unfold handleShowIndexesQuery. rewrite in_map_iff.
  intros ([k [item fs]] & <- & Hin). cbn [name fields tableName type primary
                                           unique fst snd].
  destruct (Hent _ _ _ Hin) as (Hn & Hhd & Hfs).
  exists item. rewrite Hn. repeat split; assumption.
Qed.

Lemma show_indexes_one_descriptor_per_name_witness :
  NoDup (map name (handleShowIndexesQuery
                     [indexRow "IX1" "+a"; indexRow "IX2" "-b";
                      indexRow "IX1" "+c"]))
  /\ forall n,
       In n (map name (handleShowIndexesQuery
                         [indexRow "IX1" "+a"; indexRow "IX2" "-b";
                          indexRow "IX1" "+c"]))
       <-> In n ["IX1"; "IX2"; "IX1"].
Proof.
  apply (show_indexes_one_descriptor_per_name
           [indexRow "IX1" "+a"; indexRow "IX2" "-b"; indexRow "IX1" "+c"]).
  repeat constructor.
Defined.

Lemma show_indexes_collects_rows_of_a_name_witness :
  exists first,
    hd_error (rowsNamed "IX1" [indexRow "IX1" "+a"; indexRow "IX2" "-b";
                               indexRow "IX1" "+c"])
    = Some first
    /\ [indexField "a" "ASC"; indexField "c" "ASC"]
       = flat_map (fun r => columnFields (COLNAMES r))
                  (rowsNamed "IX1" [indexRow "IX1" "+a"; indexRow "IX2" "-b";
                                    indexRow "IX1" "+c"]).
Proof.
  destruct (show_indexes_collects_rows_of_a_name
              [indexRow "IX1" "+a"; indexRow "IX2" "-b"; indexRow "IX1" "+c"]
              {| primary := false;
                 fields := [indexField "a" "ASC"; indexField "c" "ASC"];
                 name := "IX1"; tableName := VStr "T"; unique := true;
                 type := VStr "REG" |})
    as (first & Hfirst & _ & _ & _ & _ & Hfields).
  - repeat constructor.
  - left. reflexivity.
  - exists first. split; [exact Hfirst | exact Hfields].
Defined.

(** *** The default value of a described column *)

Lemma removeAll_absent (c : ascii) (s : string) :
  ~ In c (list_ascii_of_string (removeAll c s)).
Proof.
  induction s as [|x s IH]; cbn [removeAll list_ascii_of_string In];
    [intros []|].
  destruct (Ascii.eqb_spec x c) as [->|Hne]; [exact IH|].
  cbn [list_ascii_of_string In]. intros [He|Hin]; [exact (Hne He) | exact (IH Hin)].
Qed.

Lemma removeAll_without (c : ascii) (s : string) :
  ~ In c (list_ascii_of_string s) -> removeAll c s = s.
Proof.
  induction s as [|x s IH]; cbn [removeAll list_ascii_of_string In];
    [reflexivity|].
  intros Hn. destruct (Ascii.eqb_spec x c) as [He|_].
  - exfalso. apply Hn. left. exact He.
  - rewrite IH; [reflexivity|]. intros Hin. apply Hn. right. exact Hin.
Qed.

Lemma replaceFirst_closing (body : string) :
  ~ In "'"%char (list_ascii_of_string body) ->
  replaceFirst "')" EmptyString (body ++ "')") = body.
Proof.
  induction body as [|x body IH]; cbn [list_ascii_of_string In];
    [reflexivity|].
  intros Hn. cbn [String.append replaceFirst lit chr_eq].
  destruct (Ascii.eqb_spec "'"%char x) as [He|_].
  - exfalso. apply Hn. left. symmetry. exact He.
  - rewrite IH; [reflexivity|]. intros Hin. apply Hn. right. exact Hin.
Qed.

(** X12: the default value reported for a column holds no single quote.
    An empty default ([null], [undefined] or the empty string) is left as
    it is, and a default that is no string makes the handler throw. *)
Theorem describe_default_has_no_quote (d r : value) :
  describeDefault d = Ok r ->
  (truthy d = false /\ r = d)
  \/ exists s, r = VStr s /\ ~ In "'"%char (list_ascii_of_string s).
Proof.
  unfold describeDefault. destruct (truthy d) eqn:Et.
  - destruct d as [| |b|n|txt|items|props]; try discriminate.
    intros E. injection E as <-. right. eexists. split; [reflexivity|].
    apply removeAll_absent.
  - intros E. injection E as <-. left. split; reflexivity.
Qed.

Lemma describe_default_has_no_quote_witness :
  (truthy (VStr "('it''s')") = false /\ VStr "its" = VStr "('it''s')")
  \/ exists s, VStr "its" = VStr s /\ ~ In "'"%char (list_ascii_of_string s).
Proof.
  apply (describe_default_has_no_quote (VStr "('it''s')") (VStr "its")).
  reflexivity.
Defined.

(** X13: a default the catalog gives as [('<text>')], with a text free of
    single quotes, is reported as [<text>]. *)
Theorem describe_default_unwraps (body : string) :
  ~ In "'"%char (list_ascii_of_string body) ->
  describeDefault (VStr ("('" ++ body ++ "')")) = Ok (VStr body).
Proof.
  intros Hn. unfold describeDefault. cbn [String.append truthy].
  cbn [replaceFirst lit chr_eq Ascii.eqb Bool.eqb String.append].
  rewrite (replaceFirst_closing body Hn), (removeAll_without _ body Hn).
  reflexivity.
Qed.

Lemma describe_default_unwraps_witness :
  describeDefault (VStr "('abc')") = Ok (VStr "abc").
Proof.
  apply (describe_default_unwraps "abc").
  cbn. intuition discriminate.
Defined.

(** *** handleInsertQuery *)

(** X14: [handleInsertQuery] touches one property of the bound instance,
    the auto-increment attribute of the model: after the call that
    property holds the id, and every other property reads as before. *)
Theorem insert_id_only_sets_the_attribute
        (this : Query) (inst inst' : object) (results metaData : value) :
  instance this = Some inst ->
  handleInsertQuery this results metaData = Ok (Some inst') ->
  exists ai alias,
    getp (model this) "autoIncrementAttribute" = Ok ai
    /\ lookup (to_key ai) inst' = Some (insertId results metaData ai alias)
    /\ forall k, k <> to_key ai -> lookup k inst' = lookup k inst.
Proof.
  intros Hinst. unfold handleInsertQuery. rewrite Hinst.
  destruct (getp (model this) "autoIncrementAttribute") as [ai|x];
    cbn [bind]; [|discriminate].
  destruct (autoIncrementAttributeAlias (model this) ai) as [alias|x];
    cbn [bind]; [|discriminate].
  intros E. injection E as <-. exists ai, alias.
  split; [reflexivity|]. split.
  - rewrite QueryProperties.lookup_set_prop, String.eqb_refl. reflexivity.
  - intros k Hk. rewrite QueryProperties.lookup_set_prop.
    destruct (String.eqb_spec k (to_key ai)); [contradiction | reflexivity].
Qed.

Lemma insert_id_only_sets_the_attribute_witness :
  exists ai alias,
    getp (model boundInsert) "autoIncrementAttribute" = Ok ai
    /\ lookup (to_key ai) [("name", VStr "n"); ("id", VNum 7)]
       = Some (insertId (VArr [VObj [("id", VNum 7)]]) VUndefined ai alias)
    /\ forall k, k <> to_key ai ->
                 lookup k [("name", VStr "n"); ("id", VNum 7)]
                 = lookup k [("name", VStr "n")].
Proof.
  apply (insert_id_only_sets_the_attribute
           boundInsert [("name", VStr "n")]
           [("name", VStr "n"); ("id", VNum 7)]
           (VArr [VObj [("id", VNum 7)]]) VUndefined);
    reflexivity.
Defined.

(** X15: the model is read for a bound instance only.  Without an instance
    [handleInsertQuery] does nothing, whatever the model is; with an
    instance and a model without [rawAttributes] it throws a TypeError. *)
Theorem insert_id_reads_model_for_instance_only
        (this : Query) (results metaData : value) :
  (instance this = None ->
   handleInsertQuery this results metaData = Ok None)
  /\ (forall inst,
        instance this = Some inst ->
        get (model this) "rawAttributes" = VUndefined
        \/ get (model this) "rawAttributes" = VNull ->
        handleInsertQuery this results metaData = Throw TypeError).
Proof.
  unfold handleInsertQuery. split; [intros ->; reflexivity|].
  intros inst -> Hraw.
  unfold autoIncrementAttributeAlias, getp.
  destruct (model this) as [| |b|n|s|items|props]; try reflexivity;
    cbn [bind]; destruct Hraw as [-> | ->]; reflexivity.
Qed.

Lemma insert_id_reads_model_for_instance_only_witness :
  handleInsertQuery
    {| instance := Some [("name", VStr "n")];
       model := VObj [("autoIncrementAttribute", VStr "id")];
       options := VObj []; sql := EmptyString |}
    (VArr [VObj [("id", VNum 7)]]) VUndefined
  = Throw TypeError.
Proof.
  apply (proj2 (insert_id_reads_model_for_instance_only
                  {| instance := Some [("name", VStr "n")];
                     model := VObj [("autoIncrementAttribute", VStr "id")];
                     options := VObj []; sql := EmptyString |}
                  (VArr [VObj [("id", VNum 7)]]) VUndefined)
               [("name", VStr "n")]);
    [reflexivity | left; reflexivity].
Defined.

End ResultProperties.

(* ================================================================== *)
(** ** Further properties of the statement builders *)

Module StatementProperties.

Import Js Str QueryGenerator GeneratorStatements GeneratorExamples.

Section WithAbstractLayer.
Context `{AbstractQueryGenerator} `{AbstractWhere}.

(** *** insertQuery *)

Lemma insertStep_aligned (g : Generator) (opts : Options) (bp : binder)
      (attrMap : list (string * value))
      (st : list string * list string * list value) (kv : string * value) :
  List.length (fst (fst st)) = List.length (snd (fst st)) ->
  List.length (fst (fst (insertStep g opts bp attrMap st kv)))
  = List.length (snd (fst (insertStep g opts bp attrMap st kv))).
Proof.
  destruct st as [[fields values] b]. cbn [fst snd]. intros Hlen.
  unfold insertStep.
  repeat match goal with
         | |- context [if ?c then _ else _] => destruct c
         | |- context [let '(_, _) := ?p in _] => destruct p
         end;
    cbn [fst snd]; rewrite ?removelast_last, ?length_app; cbn [List.length];
    lia.
Qed.

Lemma insert_fold_aligned (g : Generator) (opts : Options) (bp : binder)
      (attrMap : list (string * value)) (hash : list (string * value)) :
  forall st,
    List.length (fst (fst st)) = List.length (snd (fst st)) ->
    List.length (fst (fst (fold_left (insertStep g opts bp attrMap) hash st)))
    = List.length (snd (fst (fold_left (insertStep g opts bp attrMap) hash st))).
Proof.
  induction hash as [|kv hash IH]; intros st Hlen; cbn [fold_left];
    [exact Hlen|].
  apply IH, insertStep_aligned, Hlen.
Qed.

(** X16: the loop of [insertQuery] keeps the columns and the values
    aligned: a column is listed for every value and a value for every
    column, also when the column of an auto-increment attribute without a
    value is taken back. *)
Theorem insert_columns_match_values
        (g : Generator) (valueHash modelAttributes : value)
        (options0 : option Options) (parts : InsertParts) :
  insertParts g valueHash modelAttributes options0 = Ok parts ->
  List.length (ip_fields parts) = List.length (ip_values parts).
Proof.
  unfold insertParts.
  destruct (modelAttributeMap modelAttributes) as [attrMap|x];
    cbn [Js.bind]; [|discriminate].
  match goal with
  | |- context [fold_left (insertStep ?g0 ?o ?bp ?m) ?l ?a] =>
      pose proof (insert_fold_aligned g0 o bp m l a eq_refl) as Hlen;
      destruct (fold_left (insertStep g0 o bp m) l a) as [[fields values] b]
  end.
  intros E. injection E as <-. exact Hlen.
Qed.

(** X17: every build of an insert takes a value of the counter, also when
    the statement lists columns and the value is not used: with a dialect
    that supports an insert without columns the counter is one larger after
    the build, and it is unchanged otherwise. *)
Theorem insert_always_takes_counter
        (g g' : Generator) (table valueHash modelAttributes : value)
        (options0 : option Options) (s : Statement) :
  (autoGenValue g < max_safe)%Z ->
  insertQuery g table valueHash modelAttributes options0 = Ok (s, g') ->
  autoGenValue g'
  = (if VALUES_empty (supports g) then autoGenValue g + 1 else autoGenValue g)%Z.
Proof.
  intros Hn. unfold insertQuery.
  destruct (insertParts g valueHash modelAttributes options0) as [parts|x];
    cbn [Js.bind]; [|discriminate].
  intros E. injection E as _ <-. unfold afterEmptyValues.
  destruct (VALUES_empty (supports g)); [|reflexivity].
  cbn [autoGenValue with_autoGenValue]. unfold increment.
  destruct (Z.ltb_spec (autoGenValue g) max_safe); [reflexivity | lia].
Qed.

Lemma defaults_searchPath (o d : Options) :
  truthy (searchPath o) = true ->
  searchPath (defaults o d) = searchPath o.
Proof.
  unfold defaults, default_value. cbn [searchPath].
  destruct (searchPath o); cbn; intros E; try reflexivity; discriminate E.
Qed.

(** X18: under a search path no parameter is bound.  When the connection
    prepends a search path, or the options of the call name one, the
    statement of [insertQuery] carries no bind array. *)
Theorem insert_under_search_path_binds_nothing
        (g g' : Generator) (table valueHash modelAttributes : value)
        (options0 : option Options) (s : Statement) :
  truthy (prependSearchPath g) = true
  \/ (exists o, options0 = Some o /\ truthy (searchPath o) = true) ->
  insertQuery g table valueHash modelAttributes options0 = Ok (s, g') ->
  bind s = None.
Proof.
  intros Hpath. unfold insertQuery, insertParts.
  destruct (modelAttributeMap modelAttributes) as [attrMap|x];
    cbn [Js.bind]; [|discriminate].
  match goal with
  | |- context [if orb ?a ?b then _ else _] =>
      assert (Hor : orb a b = true)
  end.
  { destruct Hpath as [Hp|(o & -> & Hs)].
    - rewrite Hp. reflexivity.
    - rewrite defaults_searchPath by exact Hs. rewrite Hs.
      apply Bool.orb_true_r. }
  rewrite Hor.
  match goal with
  | |- context [fold_left ?f ?l ?a] =>
      destruct (fold_left f l a) as [[fields values] b]
  end.
  cbn [Js.bind ip_options]. intros E. injection E as <- _. reflexivity.
Qed.

(** *** bulkInsertQuery *)

(** The rows among [rows] for which a value of the counter is taken. *)
Lemma bulk_fold_counter (attributes : value)
      (rows : list (list (string * value))) :
  forall (counter : Z) (vs ks : list string),
    (counter + Z.of_nat (List.length (filter (emptyKeyRow attributes) rows))
     <= max_safe)%Z ->
    fst (fst (fold_left (bulkStep attributes) rows (counter, vs, ks)))
    = (counter + Z.of_nat (List.length (filter (emptyKeyRow attributes) rows)))%Z.
Proof.
  induction rows as [|row rows IH]; intros counter vs ks Hle;
    cbn [fold_left filter].
  - cbn. lia.
  - cbn [filter] in Hle. unfold bulkStep at 2.
    destruct (emptyKeyRow attributes row).
    + cbn [List.length] in Hle |- *. rewrite IH.
      * unfold increment. destruct (Z.ltb_spec counter max_safe); lia.
      * unfold increment. destruct (Z.ltb_spec counter max_safe); lia.
    + apply IH. exact Hle.
Qed.

(** X19: [bulkInsertQuery] takes one value of the counter for every row
    whose only field is an auto-increment attribute set to [null], and none
    for another row; the rest of the generator is left as it was. *)
Theorem bulk_insert_takes_counter_per_empty_row
        (g : Generator) (tableName : value)
        (rows : list (list (string * value))) (returning attributes : value) :
  let synthetic :=
    filter (emptyKeyRow (if truthy attributes then attributes else VObj []))
           rows in
  (autoGenValue g + Z.of_nat (List.length synthetic) <= max_safe)%Z ->
  snd (bulkInsertQuery g tableName rows returning attributes)
  = with_autoGenValue g (autoGenValue g + Z.of_nat (List.length synthetic))%Z.
Proof.
  intros synthetic Hle. unfold bulkInsertQuery.
  pose proof (bulk_fold_counter
                (if truthy attributes then attributes else VObj [])
                rows (autoGenValue g) [] [] Hle) as Hc.
  match goal with
  | |- context [fold_left ?f ?l ?a] =>
      destruct (fold_left f l a) as [[counter vs] ks]
  end.
  cbn [fst snd] in Hc |- *. rewrite Hc. reflexivity.
Qed.

End WithAbstractLayer.

Lemma insert_columns_match_values_witness :
  exists parts,
    insertParts
      {| autoGenValue := 1; options := noOptions;
         supports := {| VALUES_empty := true; ON_DUPLICATE_KEY := false;
                        autoIncrement_defaultValue := false; DEFAULT := true;
                        inserts_ignoreDuplicates := EmptyString |};
         prependSearchPath := VUndefined |}
      (VObj [("id", VNull); ("name", VStr "n")])
      (VObj [("id", VObj [("autoIncrement", VBool true)])]) None
    = Ok parts
    /\ ip_fields parts = [dq ++ "name" ++ dq]
    /\ List.length (ip_fields parts) = List.length (ip_values parts).
Proof.
  eexists. split; [reflexivity|]. split; [reflexivity|].
  apply (insert_columns_match_values
           {| autoGenValue := 1; options := noOptions;
              supports := {| VALUES_empty := true; ON_DUPLICATE_KEY := false;
                             autoIncrement_defaultValue := false;
                             DEFAULT := true;
                             inserts_ignoreDuplicates := EmptyString |};
              prependSearchPath := VUndefined |}
           (VObj [("id", VNull); ("name", VStr "n")])
           (VObj [("id", VObj [("autoIncrement", VBool true)])]) None).
  reflexivity.
Defined.

Lemma insert_always_takes_counter_witness :
  exists s g',
    insertQuery freshGenerator (VStr "users") (VObj [("name", VStr "n")])
                VUndefined None
    = Ok (s, g')
    /\ autoGenValue g' = 2%Z.
Proof.
  eexists. eexists. split; [reflexivity|].
  refine (insert_always_takes_counter
            freshGenerator _ (VStr "users") (VObj [("name", VStr "n")])
            VUndefined None _ _ _);
    reflexivity.
Defined.

Lemma insert_under_search_path_binds_nothing_witness :
  exists s g',
    insertQuery freshGenerator (VStr "users") (VObj [("name", VStr "n")])
                VUndefined
                (Some {| limit := VUndefined; omitNull := VUndefined;
                         bindParam := BindUndefined;
                         searchPath := VStr "app"; onDuplicate := VUndefined;
                         ignoreDuplicates := VUndefined;
                         dialect := VUndefined |})
    = Ok (s, g')
    /\ bind s = None.
Proof.
  eexists. eexists. split; [reflexivity|].
  refine (insert_under_search_path_binds_nothing
            freshGenerator _ (VStr "users") (VObj [("name", VStr "n")])
            VUndefined
            (Some {| limit := VUndefined; omitNull := VUndefined;
                     bindParam := BindUndefined;
                     searchPath := VStr "app"; onDuplicate := VUndefined;
                     ignoreDuplicates := VUndefined;
                     dialect := VUndefined |}) _ _ _).
  - right. eexists. split; reflexivity.
  - reflexivity.
Defined.

Lemma bulk_insert_takes_counter_per_empty_row_witness :
  snd (bulkInsertQuery freshGenerator (VStr "T")
                       [[("id", VNull)]; [("name", VStr "n")]; [("id", VNull)]]
                       VUndefined
                       (VObj [("id", VObj [("autoIncrement", VBool true)])]))
  = with_autoGenValue freshGenerator 3.
Proof.
  apply (bulk_insert_takes_counter_per_empty_row
           freshGenerator (VStr "T")
           [[("id", VNull)]; [("name", VStr "n")]; [("id", VNull)]]
           VUndefined
           (VObj [("id", VObj [("autoIncrement", VBool true)])])).
  vm_compute. discriminate.
Defined.

End StatementProperties.

(* ================================================================== *)
(** ** The statements of the generator, run by the adapter *)

Module CompositionProperties.

Import Js Str Driver Query QueryResults Examples Specified.

Section WithAbstractLayers.
Context `{AbstractQuery} `{QueryGenerator.AbstractQueryGenerator}
        `{GeneratorStatements.AbstractWhere}.

Lemma transaction_call_trace (d : driver) (st : dstate d) (this : Query)
      (c : call) :
  fst (exec d st (Call c (fun a => transactionCallback this None (r_err a))))
  = [c].
Proof.
  pose proof (AdapterProperties.exec_transaction_call d st this c) as Hc.
  destruct (r_err (fst (respond d st c))) as [e|].
  - destruct Hc as (r & _ & ->). reflexivity.
  - rewrite Hc. reflexivity.
Qed.

(** X20: the statement built for a rollback makes the adapter roll back
    the transaction of the connection, and nothing else.  For a nested
    transaction the text names the savepoint, but the adapter looks at the
    beginning of the text only: its one call is [rollbackTransaction]. *)
Theorem rollback_statement_rolls_back_the_connection
        (d : driver) (st : dstate d) (this : Query)
        (t : GeneratorStatements.Transaction) (parameters : value) :
  fst (exec d st (_run this (GeneratorStatements.rollbackTransactionQuery t)
                       parameters))
  = [RollbackTransaction].
Proof.
  unfold GeneratorStatements.rollbackTransactionQuery, _run.
  destruct (truthy (GeneratorStatements.parent t)); cbn [sql with_sql];
    apply transaction_call_trace.
Qed.

(** X21: for a transaction without a parent the statements of the
    generator reach the transaction calls of the connection: the start
    statement gives the one call [beginTransaction], and a commit statement
    is built and gives the one call [commitTransaction]. *)
Theorem top_level_transaction_statements
        (d : driver) (st : dstate d) (this : Query)
        (t : GeneratorStatements.Transaction) (parameters : value) :
  truthy (GeneratorStatements.parent t) = false ->
  fst (exec d st (_run this (GeneratorStatements.startTransactionQuery t)
                       parameters))
  = [BeginTransaction]
  /\ exists q,
       GeneratorStatements.commitTransactionQuery t = Some q
       /\ fst (exec d st (_run this q parameters))
          = [CommitTransaction VUndefined].
Proof.
  intros Hp.
  unfold GeneratorStatements.startTransactionQuery,
    GeneratorStatements.commitTransactionQuery.
  rewrite Hp. split.
  - unfold _run. cbn [sql with_sql]. apply transaction_call_trace.
  - eexists. split; [reflexivity|].
    unfold _run. cbn [sql with_sql]. apply transaction_call_trace.
Qed.

(** X22: for a transaction with a parent no commit statement is built, and
    the start statement, [SAVE TRANSACTION <name>;], makes the adapter commit
    the transaction named in the options of the query first; no statement is
    prepared, executed or run. *)
Theorem nested_transaction_statements
        (d : driver) (st : dstate d) (this : Query)
        (t : GeneratorStatements.Transaction) (parameters n : value) :
  truthy (GeneratorStatements.parent t) = true ->
  getp (get (options this) "transaction") "name" = Ok n ->
  let trace :=
    fst (exec d st (_run this (GeneratorStatements.startTransactionQuery t)
                         parameters)) in
  GeneratorStatements.commitTransactionQuery t = None
  /\ hd_error trace = Some (CommitTransaction n)
  /\ forallb (fun c => negb (is_sql_call c)) trace = true.
Proof.
  intros Hp Hn trace. subst trace.
  unfold GeneratorStatements.startTransactionQuery,
    GeneratorStatements.commitTransactionQuery.
  rewrite Hp. split; [reflexivity|].
  set (text := "SAVE TRANSACTION "
               ++ QueryGenerator.quoteIdentifier (GeneratorStatements.name t)
               ++ ";").
  unfold _run. cbn [sql with_sql options].
  replace (startsWith text "BEGIN TRANSACTION") with false by reflexivity.
  replace (startsWith text "COMMIT TRANSACTION") with false by reflexivity.
  replace (startsWith text "ROLLBACK TRANSACTION") with false by reflexivity.
  replace (startsWith text "SAVE TRANSACTION") with true by reflexivity.
  rewrite Hn. rewrite QueryProperties.exec_call. cbn [fst hd_error forallb].
  split; [reflexivity|]. cbn [is_sql_call negb andb].
  destruct (r_err (fst (respond d st (CommitTransaction n)))) as [e|].
  - rewrite QueryProperties.exec_pbind_ret. cbn [fst].
    match goal with
    | |- context [formatError ?q (Some e) false VUndefined] =>
        destruct (AdapterProperties.offline_translation q e) as [r ->]
    end.
    reflexivity.
  - rewrite transaction_call_trace. reflexivity.
Qed.

(** X23: the statement [deleteQuery] builds begins with [DELETE FROM ], so
    the adapter, once it is prepared and executed without error, reads the
    number of affected rows in place of the rows and resolves with it. *)
Theorem delete_statement_reports_affected_rows
        (d : driver) (st : dstate d) (this : Query)
        (tableName where_ model parameters : value)
        (opts : GeneratorStatements.DeleteOptions) (r1 r2 r3 : response)
        (stmt handle : list (string * value)) :
  let text := GeneratorStatements.deleteQuery tableName where_ opts model in
  isSelectQuery (with_sql this text) = false ->
  answers d st [Prepare text; Execute (bindParams parameters);
                GetAffectedRowsSync]
  = [r1; r2; r3] ->
  r_err r1 = None -> r_val r1 = VObj stmt ->
  r_err r2 = None -> r_val r2 = VObj handle ->
  exec d st (_run this text parameters)
  = ([Prepare text; Execute (bindParams parameters); GetAffectedRowsSync;
      ResultCloseSync; StmtCloseSync],
     resolved (with_sql this text) None (VArr []) (r_val r3) VUndefined false).
Proof.
  intros text Hsel Hans Herr1 Hstmt Herr2 Hres.
  assert (Hdel : startsWith text "DELETE FROM " = true) by reflexivity.
  cbn [answers] in Hans. injection Hans as <- <- <-.
  destruct (AdapterProperties.transaction_prefixes text) as (_ & _ & Htx).
  rewrite (AdapterProperties.run_prepares this text parameters (Htx Hdel)).
  unfold prepared. rewrite Hsel. cbn [andb sql with_sql].
  rewrite QueryProperties.exec_call. unfold prepareCallback. rewrite Herr1.
  cbn [pbind uncaught]. rewrite Hstmt.
  rewrite QueryProperties.exec_call. unfold executeCallback. rewrite Herr2.
  unfold fetchAndResolve. rewrite Hres. cbn [sql with_sql]. rewrite Hdel.
  rewrite !QueryProperties.exec_call. reflexivity.
Qed.

(** X24: the statement [dropSchema] builds is the one the adapter takes
    for a drop of a schema, and it is prepared like any other statement. *)
Theorem drop_schema_statement_is_recognized (this : Query) (schema : string) :
  let text := QueryGenerator.query (GeneratorStatements.dropSchema schema) in
  isDropSchemaQuery (with_sql this text) = true
  /\ isTransactionControl text = false.
Proof. split; reflexivity. Qed.

Lemma at_start_startsWith (s p : string) :
  at_start s p = true -> startsWith s p = true.
Proof.
  unfold at_start, search.
  destruct (String.index 0 p s) as [i|] eqn:Ei; [|discriminate].
  intros E. apply Z.eqb_eq in E. assert (i = 0%nat) as -> by lia.
  apply String.index_correct1 in Ei. clear E.
  revert s Ei. induction p as [|a p IH]; intros s E; [reflexivity|].
  destruct s as [|b s]; cbn in E; [discriminate E|].
  injection E as -> E. cbn [startsWith]. rewrite Ascii.eqb_refl.
  apply IH, E.
Qed.

(** X25: the statements the generator builds to describe a table and to
    list the tables are not among those [isShowOrDescribeQuery] knows. *)
Theorem describe_statement_is_not_show_or_describe
        (this : Query) (tableName schema : value) :
  isShowOrDescribeQuery
    (with_sql this (GeneratorStatements.describeTableQuery tableName schema))
  = false
  /\ isShowOrDescribeQuery (with_sql this GeneratorStatements.showTablesQuery)
     = false.
Proof.
  unfold isShowOrDescribeQuery, GeneratorStatements.describeTableQuery.
  cbn [sql with_sql orb].
  split; [destruct (truthy schema)|];
    repeat match goal with
           | |- context [at_start ?s ?p] =>
               let E := fresh "E" in
               let F := fresh "F" in
               destruct (at_start s p) eqn:E;
               [ apply at_start_startsWith in E;
                 assert (F : startsWith s p = false) by reflexivity;
                 congruence
               | ]
           end;
    reflexivity.
Qed.

End WithAbstractLayers.

Lemma top_level_transaction_statements_witness :
  fst (exec (constantDriver (fun _ => ok VUndefined)) tt
            (_run savepointQuery "BEGIN TRANSACTION;" VUndefined))
  = [BeginTransaction].
Proof.
  exact (proj1 (@top_level_transaction_statements
                  plainQuery GeneratorExamples.plainGenerator
                  (constantDriver (fun _ => ok VUndefined)) tt savepointQuery
                  {| GeneratorStatements.parent := VUndefined;
                     GeneratorStatements.name := VStr "t1" |}
                  VUndefined eq_refl)).
Defined.

Lemma nested_transaction_statements_witness :
  hd_error
    (fst (exec (constantDriver (fun _ => ok VUndefined)) tt
               (_run savepointQuery
                     (@GeneratorStatements.startTransactionQuery
                        GeneratorExamples.plainGenerator
                        {| GeneratorStatements.parent := VObj [];
                           GeneratorStatements.name := VStr "sp2" |})
                     VUndefined)))
  = Some (CommitTransaction (VStr "sp1")).
Proof.
  exact (proj1 (proj2 (@nested_transaction_statements
                         plainQuery GeneratorExamples.plainGenerator
                         (constantDriver (fun _ => ok VUndefined)) tt
                         savepointQuery
                         {| GeneratorStatements.parent := VObj [];
                            GeneratorStatements.name := VStr "sp2" |}
                         VUndefined (VStr "sp1") eq_refl eq_refl))).
Defined.

Lemma delete_statement_reports_affected_rows_witness :
  snd (exec (constantDriver
               (fun c => match c with
                         | GetAffectedRowsSync => ok (VNum 3)
                         | _ => ok (VObj [])
                         end)) tt
            (_run savepointQuery
                  (@GeneratorStatements.deleteQuery
                     GeneratorExamples.plainGenerator
                     GeneratorExamples.plainWhere
                     (VStr "T") (VBool true)
                     {| GeneratorStatements.d_offset := None;
                        GeneratorStatements.d_limit := VUndefined |}
                     VUndefined)
                  VUndefined))
  = resolved (with_sql savepointQuery
                       ("DELETE FROM " ++ dq ++ "T" ++ dq ++ " WHERE A = 1"))
             None (VArr []) (VNum 3) VUndefined false.
Proof.
  rewrite (@delete_statement_reports_affected_rows
             plainQuery GeneratorExamples.plainGenerator
             GeneratorExamples.plainWhere
             (constantDriver
                (fun c => match c with
                          | GetAffectedRowsSync => ok (VNum 3)
                          | _ => ok (VObj [])
                          end)) tt
             savepointQuery (VStr "T") (VBool true) VUndefined VUndefined
             {| GeneratorStatements.d_offset := None;
                GeneratorStatements.d_limit := VUndefined |}
             (ok (VObj [])) (ok (VObj [])) (ok (VNum 3)) [] []);
    reflexivity.
Defined.

End CompositionProperties.
